(** * iPayNotify: subscription lifecycle, templates and SMS dispatch

    A shallow embedding of the business core of the iPayNotify dashboard
    (TypeScript / React) and the properties its specification states about
    it.  The embedded functions are

    - [lib/smsService.ts]: the sender id and the phone formatting of
      [sendSMS] and [sendBulkSMS], and [sendSMS] itself;
    - [lib/messageTemplates.ts]: [toOrdinalDate], [firstName] and the seven
      template renderers;
    - [components/Dashboard.tsx]: [getSubscriptionStatus],
      [handleQuickSMSReminder] and [SMSModal.handleSubmit];
    - [components/PaymentModal.tsx] and the [CustomerModal] component: the
      two [handleSubmit] handlers;
    - the [VendorStatsModal] component: the status cell of its
      recent-customers table.

    Conventions.

    - A JavaScript string is the list of its UTF-16 code units.
    - A [Date] is its time value (milliseconds since the epoch), the only
      state a JavaScript [Date] carries; the dates read from the [date]
      columns are valid.  The clock is read once per handler run and is an
      argument [now] of the handler.
    - Day counts are integers: every call site obtains them from
      [Math.ceil].  The quotient under [Math.ceil] is taken exactly; the
      double-precision quotient has the same ceiling as long as the two
      instants are less than 2^53 ms apart.
    - Money is counted in hundredths of a cedi, the grid of the
      [numeric(10,2)] columns and of the [min="0" step="0.01"] amount
      input; on that grid the product with the months paid and its
      [toFixed(2)] are exact.
    - Handlers run in a small state-and-exception monad over an explicit
      world: the two tables, the requests posted to the gateway, the alerts
      shown and the component state.  Console output is left out. *)

From Stdlib Require Import ZArith NArith List Bool Lia.
From Stdlib Require Import Strings.String Strings.Ascii.
From Stdlib Require Import Numbers.DecimalString.
From Stdlib Require Numbers.DecimalPos Numbers.DecimalZ Numbers.DecimalFacts.
Import ListNotations.

Local Open Scope Z_scope.

(* ===================================================================== *)
(** * JavaScript strings *)
(* ===================================================================== *)

Module JS.

(** One UTF-16 code unit. *)
Definition char16 := N.

Definition jsstring := list char16.

(** An ASCII literal of the source, as code units. *)
Definition lit (s : string) : jsstring :=
  map N_of_ascii (list_ascii_of_string s).

(** The class [\s] of a regular expression, which is also the set
    [String.prototype.trim] removes: WhiteSpace and LineTerminator. *)
Definition isWhiteSpace (c : char16) : bool :=
  ((9 <=? c) && (c <=? 13) || (c =? 32) || (c =? 160) || (c =? 5760)
   || (8192 <=? c) && (c <=? 8202) || (c =? 8232) || (c =? 8233)
   || (c =? 8239) || (c =? 8287) || (c =? 12288) || (c =? 65279))%N.

(** [s.replace(/\s+/g, '')]: every run of white space is deleted. *)
Definition removeWhiteSpace (s : jsstring) : jsstring :=
  filter (fun c => negb (isWhiteSpace c)) s.

(** [s.replace(/^\+/, '')]: one leading plus sign is deleted. *)
Definition removeLeadingPlus (s : jsstring) : jsstring :=
  match s with
  | c :: s' => if (c =? 43)%N then s' else s
  | [] => []
  end.

(** [s.startsWith(p)]. *)
Fixpoint startsWith (s p : jsstring) : bool :=
  match p, s with
  | [], _ => true
  | _ :: _, [] => false
  | a :: p', c :: s' => (c =? a)%N && startsWith s' p'
  end.

(** [s.substring(n)] and [s.slice(n)] for [0 <= n]. *)
Definition substringFrom (n : nat) (s : jsstring) : jsstring := skipn n s.

(** [s.substring(0, n)]. *)
Definition substringTo (n : nat) (s : jsstring) : jsstring := firstn n s.

(** [s.trim()]. *)
Fixpoint trimStart (s : jsstring) : jsstring :=
  match s with
  | c :: s' => if isWhiteSpace c then trimStart s' else s
  | [] => []
  end.

Definition trimEnd (s : jsstring) : jsstring := rev (trimStart (rev s)).

Definition trim (s : jsstring) : jsstring := trimEnd (trimStart s).

(** [s.split(/\s+/)].  The scan keeps the piece being read in [cur]
    (reversed); [inGap] says that the previous code unit was white space, so
    that a run of white space separates only once.  White space at either
    end yields an empty first or last piece, as in JavaScript, and the
    result always has at least one piece. *)
Fixpoint splitScan (inGap : bool) (cur : jsstring) (s : jsstring)
  : list jsstring :=
  match s with
  | [] => [rev cur]
  | c :: s' =>
      if isWhiteSpace c then
        if inGap then splitScan true cur s'
        else rev cur :: splitScan true [] s'
      else splitScan false (c :: cur) s'
  end.

Definition splitWhiteSpace (s : jsstring) : list jsstring :=
  splitScan false [] s.

(** [String(n)] for an integer-valued number below 1e21. *)
Definition showZ (z : Z) : jsstring :=
  lit (NilZero.string_of_int (Z.to_int z)).

(** [a || b] on optional strings, with a string on the right. *)
Definition orElse (o : option jsstring) (d : jsstring) : jsstring :=
  match o with
  | Some (c :: s) => c :: s
  | _ => d
  end.

(** [l.join(sep)]. *)
Fixpoint join (sep : jsstring) (l : list jsstring) : jsstring :=
  match l with
  | [] => []
  | [x] => x
  | x :: rest => x ++ sep ++ join sep rest
  end.

(** [a === b] on strings. *)
Fixpoint strEqb (a b : jsstring) : bool :=
  match a, b with
  | [], [] => true
  | x :: a', y :: b' => (x =? y)%N && strEqb a' b'
  | _, _ => false
  end.

End JS.

Import JS.

(* ===================================================================== *)
(** * smsService.ts: sender id and phone formatting *)
(* ===================================================================== *)

Module SmsFormat.

(** [ARKESEL_CONFIG]: read from the build environment, with the default
    sender id ['Qaretech']. *)
Record ArkeselConfig := {
  apiKey : jsstring;
  senderId : jsstring
}.

(** [finalSenderId], written the same in [sendSMS] and [sendBulkSMS]. *)
Definition finalSenderId (cfg : ArkeselConfig) (sender : option jsstring)
  : jsstring :=
  match sender with
  | Some (c :: s) => substringTo 11 (removeWhiteSpace (c :: s))
  | _ => senderId cfg
  end.

(** [formattedPhone] of [sendSMS]; the callback of [recipients.map] in
    [sendBulkSMS] has the same body. *)
Definition formattedPhone (to : jsstring) : jsstring :=
  let formattedPhone := removeLeadingPlus (removeWhiteSpace to) in
  let formattedPhone :=
    if startsWith formattedPhone (lit "0")
    then lit "233" ++ substringFrom 1 formattedPhone
    else formattedPhone in
  if negb (startsWith formattedPhone (lit "233"))
  then lit "233" ++ formattedPhone
  else formattedPhone.

(** The specification's word for a sender id character: an ASCII letter
    or digit.  The code has no such test. *)
Definition isAlphanumeric (c : char16) : bool :=
  ((48 <=? c) && (c <=? 57) || (65 <=? c) && (c <=? 90)
   || (97 <=? c) && (c <=? 122))%N.

End SmsFormat.

(* ===================================================================== *)
(** * The platform: Date accessors, date-fns and case mapping *)
(* ===================================================================== *)

(** A [Date] is its time value. *)
Definition Date := Z.

(** What the code asks of its runtime and of the date-fns library.  The
    accessors read the date in the local time zone of the browser;
    [addMonths] is date-fns's; [upperNonAscii] is the upper-case mapping of
    [String.prototype.toUpperCase] for a single code unit outside ASCII. *)
Class Platform := {
  getDate : Date -> Z;
  getMonth : Date -> Z;
  getFullYear : Date -> Z;
  addMonths : Date -> Z -> Date;
  upperNonAscii : char16 -> jsstring
}.

Definition MS_PER_DAY : Z := 1000 * 60 * 60 * 24.

(** [d.toISOString().split('T')[0]] read back by [new Date(...)]: the
    midnight (UTC) of the day of [d].  A [date] column holds such values. *)
Definition isoDate (d : Date) : Date := MS_PER_DAY * (d / MS_PER_DAY).

Module Calendar.

(** Days since the epoch of a civil date, month in 1..12. *)
Definition daysFromCivil (y m d : Z) : Z :=
  let y := if m <=? 2 then y - 1 else y in
  let era := y / 400 in
  let yoe := y - era * 400 in
  let doy := (153 * (if m >? 2 then m - 3 else m + 9) + 2) / 5 + d - 1 in
  let doe := yoe * 365 + yoe / 4 - yoe / 100 + doy in
  era * 146097 + doe - 719468.

(** The civil date (year, month in 1..12, day) of a day number. *)
Definition civilFromDays (z : Z) : Z * Z * Z :=
  let z := z + 719468 in
  let era := z / 146097 in
  let doe := z - era * 146097 in
  let yoe := (doe - doe / 1460 + doe / 36524 - doe / 146096) / 365 in
  let doy := doe - (365 * yoe + yoe / 4 - yoe / 100) in
  let mp := (5 * doy + 2) / 153 in
  let d := doy - (153 * mp + 2) / 5 + 1 in
  let m := if mp <? 10 then mp + 3 else mp - 9 in
  (if m <=? 2 then yoe + era * 400 + 1 else yoe + era * 400, m, d).

Definition utcDate (t : Date) : Z :=
  let '(_, _, d) := civilFromDays (t / MS_PER_DAY) in d.

Definition utcMonth (t : Date) : Z :=
  let '(_, m, _) := civilFromDays (t / MS_PER_DAY) in m - 1.

Definition utcFullYear (t : Date) : Z :=
  let '(y, _, _) := civilFromDays (t / MS_PER_DAY) in y.

(** [new Date(year, monthIndex, day)] plus a time of day; month index and
    day may overflow, as [setMonth] and [setFullYear] allow. *)
Definition makeDate (year monthIndex day msOfDay : Z) : Date :=
  (daysFromCivil (year + monthIndex / 12) (monthIndex mod 12 + 1) 1 + day - 1)
  * MS_PER_DAY + msOfDay.

(** date-fns [addMonths]: the day of the month is kept unless the target
    month is shorter, in which case the last day of that month is taken. *)
Definition utcAddMonths (date : Date) (amount : Z) : Date :=
  if amount =? 0 then date else
  let dayOfMonth := utcDate date in
  let msOfDay := date mod MS_PER_DAY in
  let endOfDesiredMonth :=
    makeDate (utcFullYear date) (utcMonth date + amount + 1) 0 msOfDay in
  let daysInMonth := utcDate endOfDesiredMonth in
  if dayOfMonth >=? daysInMonth then endOfDesiredMonth
  else makeDate (utcFullYear endOfDesiredMonth) (utcMonth endOfDesiredMonth)
         dayOfMonth msOfDay.

End Calendar.

(** [String.prototype.toUpperCase] on a string of one code unit.  The
    runtime follows the Unicode Character Database: the unconditional
    mappings of SpecialCasing.txt, which may yield several code units, and
    otherwise the simple upper-case mapping of UnicodeData.txt.  The tables
    are those of Unicode 14.0 on the Basic Multilingual Plane; a surrogate
    taken alone, as [charAt(0)] leaves it, has no mapping. *)
Module UnicodeCase.

(** A run [(first, last, step, upper)] of the simple mapping: the code units
    [first], [first + step], ... up to [last] have the upper-case forms
    [upper], [upper + step], ... *)
Definition Run : Type := (N * N * N * N)%type.

Definition simpleRuns : list Run :=
  [(97, 122, 1, 65); (181, 181, 1, 924); (224, 246, 1, 192);
   (248, 254, 1, 216); (255, 255, 1, 376); (257, 303, 2, 256);
   (305, 305, 1, 73); (307, 311, 2, 306); (314, 328, 2, 313);
   (331, 375, 2, 330); (378, 382, 2, 377); (383, 383, 1, 83);
   (384, 384, 1, 579); (387, 389, 2, 386); (392, 392, 1, 391);
   (396, 396, 1, 395); (402, 402, 1, 401); (405, 405, 1, 502);
   (409, 409, 1, 408); (410, 410, 1, 573); (414, 414, 1, 544);
   (417, 421, 2, 416); (424, 424, 1, 423); (429, 429, 1, 428);
   (432, 432, 1, 431); (436, 438, 2, 435); (441, 441, 1, 440);
   (445, 445, 1, 444); (447, 447, 1, 503); (453, 453, 1, 452);
   (454, 454, 1, 452); (456, 456, 1, 455); (457, 457, 1, 455);
   (459, 459, 1, 458); (460, 460, 1, 458); (462, 476, 2, 461);
   (477, 477, 1, 398); (479, 495, 2, 478); (498, 498, 1, 497);
   (499, 499, 1, 497); (501, 501, 1, 500); (505, 543, 2, 504);
   (547, 563, 2, 546); (572, 572, 1, 571); (575, 576, 1, 11390);
   (578, 578, 1, 577); (583, 591, 2, 582); (592, 592, 1, 11375);
   (593, 593, 1, 11373); (594, 594, 1, 11376); (595, 595, 1, 385);
   (596, 596, 1, 390); (598, 599, 1, 393); (601, 601, 1, 399);
   (603, 603, 1, 400); (604, 604, 1, 42923); (608, 608, 1, 403);
   (609, 609, 1, 42924); (611, 611, 1, 404); (613, 613, 1, 42893);
   (614, 614, 1, 42922); (616, 616, 1, 407); (617, 617, 1, 406);
   (618, 618, 1, 42926); (619, 619, 1, 11362); (620, 620, 1, 42925);
   (623, 623, 1, 412); (625, 625, 1, 11374); (626, 626, 1, 413);
   (629, 629, 1, 415); (637, 637, 1, 11364); (640, 640, 1, 422);
   (642, 642, 1, 42949); (643, 643, 1, 425); (647, 647, 1, 42929);
   (648, 648, 1, 430); (649, 649, 1, 580); (650, 651, 1, 433);
   (652, 652, 1, 581); (658, 658, 1, 439); (669, 669, 1, 42930);
   (670, 670, 1, 42928); (837, 837, 1, 921); (881, 883, 2, 880);
   (887, 887, 1, 886); (891, 893, 1, 1021); (940, 940, 1, 902);
   (941, 943, 1, 904); (945, 961, 1, 913); (962, 962, 1, 931);
   (963, 971, 1, 931); (972, 972, 1, 908); (973, 974, 1, 910);
   (976, 976, 1, 914); (977, 977, 1, 920); (981, 981, 1, 934);
   (982, 982, 1, 928); (983, 983, 1, 975); (985, 1007, 2, 984);
   (1008, 1008, 1, 922); (1009, 1009, 1, 929); (1010, 1010, 1, 1017);
   (1011, 1011, 1, 895); (1013, 1013, 1, 917); (1016, 1016, 1, 1015);
   (1019, 1019, 1, 1018); (1072, 1103, 1, 1040); (1104, 1119, 1, 1024);
   (1121, 1153, 2, 1120); (1163, 1215, 2, 1162); (1218, 1230, 2, 1217);
   (1231, 1231, 1, 1216); (1233, 1327, 2, 1232); (1377, 1414, 1, 1329);
   (4304, 4346, 1, 7312); (4349, 4351, 1, 7357); (5112, 5117, 1, 5104);
   (7296, 7296, 1, 1042); (7297, 7297, 1, 1044); (7298, 7298, 1, 1054);
   (7299, 7300, 1, 1057); (7301, 7301, 1, 1058); (7302, 7302, 1, 1066);
   (7303, 7303, 1, 1122); (7304, 7304, 1, 42570); (7545, 7545, 1, 42877);
   (7549, 7549, 1, 11363); (7566, 7566, 1, 42950); (7681, 7829, 2, 7680);
   (7835, 7835, 1, 7776); (7841, 7935, 2, 7840); (7936, 7943, 1, 7944);
   (7952, 7957, 1, 7960); (7968, 7975, 1, 7976); (7984, 7991, 1, 7992);
   (8000, 8005, 1, 8008); (8017, 8023, 2, 8025); (8032, 8039, 1, 8040);
   (8048, 8049, 1, 8122); (8050, 8053, 1, 8136); (8054, 8055, 1, 8154);
   (8056, 8057, 1, 8184); (8058, 8059, 1, 8170); (8060, 8061, 1, 8186);
   (8112, 8113, 1, 8120); (8126, 8126, 1, 921); (8144, 8145, 1, 8152);
   (8160, 8161, 1, 8168); (8165, 8165, 1, 8172); (8526, 8526, 1, 8498);
   (8560, 8575, 1, 8544); (8580, 8580, 1, 8579); (9424, 9449, 1, 9398);
   (11312, 11359, 1, 11264); (11361, 11361, 1, 11360);
   (11365, 11365, 1, 570); (11366, 11366, 1, 574); (11368, 11372, 2, 11367);
   (11379, 11379, 1, 11378); (11382, 11382, 1, 11381);
   (11393, 11491, 2, 11392); (11500, 11502, 2, 11499);
   (11507, 11507, 1, 11506); (11520, 11557, 1, 4256);
   (11559, 11559, 1, 4295); (11565, 11565, 1, 4301);
   (42561, 42605, 2, 42560); (42625, 42651, 2, 42624);
   (42787, 42799, 2, 42786); (42803, 42863, 2, 42802);
   (42874, 42876, 2, 42873); (42879, 42887, 2, 42878);
   (42892, 42892, 1, 42891); (42897, 42899, 2, 42896);
   (42900, 42900, 1, 42948); (42903, 42921, 2, 42902);
   (42933, 42947, 2, 42932); (42952, 42954, 2, 42951);
   (42961, 42961, 1, 42960); (42967, 42969, 2, 42966);
   (42998, 42998, 1, 42997); (43859, 43859, 1, 42931);
   (43888, 43967, 1, 5024); (65345, 65370, 1, 65313)]%N.

(** The code units whose upper-case form is more than one code unit. *)
Definition specialCasing : list (char16 * jsstring) :=
  [(223, [83; 83]); (329, [700; 78]); (496, [74; 780]);
   (912, [921; 776; 769]); (944, [933; 776; 769]); (1415, [1333; 1362]);
   (7830, [72; 817]); (7831, [84; 776]); (7832, [87; 778]);
   (7833, [89; 778]); (7834, [65; 702]); (8016, [933; 787]);
   (8018, [933; 787; 768]); (8020, [933; 787; 769]); (8022, [933; 787; 834]);
   (8064, [7944; 921]); (8065, [7945; 921]); (8066, [7946; 921]);
   (8067, [7947; 921]); (8068, [7948; 921]); (8069, [7949; 921]);
   (8070, [7950; 921]); (8071, [7951; 921]); (8072, [7944; 921]);
   (8073, [7945; 921]); (8074, [7946; 921]); (8075, [7947; 921]);
   (8076, [7948; 921]); (8077, [7949; 921]); (8078, [7950; 921]);
   (8079, [7951; 921]); (8080, [7976; 921]); (8081, [7977; 921]);
   (8082, [7978; 921]); (8083, [7979; 921]); (8084, [7980; 921]);
   (8085, [7981; 921]); (8086, [7982; 921]); (8087, [7983; 921]);
   (8088, [7976; 921]); (8089, [7977; 921]); (8090, [7978; 921]);
   (8091, [7979; 921]); (8092, [7980; 921]); (8093, [7981; 921]);
   (8094, [7982; 921]); (8095, [7983; 921]); (8096, [8040; 921]);
   (8097, [8041; 921]); (8098, [8042; 921]); (8099, [8043; 921]);
   (8100, [8044; 921]); (8101, [8045; 921]); (8102, [8046; 921]);
   (8103, [8047; 921]); (8104, [8040; 921]); (8105, [8041; 921]);
   (8106, [8042; 921]); (8107, [8043; 921]); (8108, [8044; 921]);
   (8109, [8045; 921]); (8110, [8046; 921]); (8111, [8047; 921]);
   (8114, [8122; 921]); (8115, [913; 921]); (8116, [902; 921]);
   (8118, [913; 834]); (8119, [913; 834; 921]); (8124, [913; 921]);
   (8130, [8138; 921]); (8131, [919; 921]); (8132, [905; 921]);
   (8134, [919; 834]); (8135, [919; 834; 921]); (8140, [919; 921]);
   (8146, [921; 776; 768]); (8147, [921; 776; 769]); (8150, [921; 834]);
   (8151, [921; 776; 834]); (8162, [933; 776; 768]); (8163, [933; 776; 769]);
   (8164, [929; 787]); (8166, [933; 834]); (8167, [933; 776; 834]);
   (8178, [8186; 921]); (8179, [937; 921]); (8180, [911; 921]);
   (8182, [937; 834]); (8183, [937; 834; 921]); (8188, [937; 921]);
   (64256, [70; 70]); (64257, [70; 73]); (64258, [70; 76]);
   (64259, [70; 70; 73]); (64260, [70; 70; 76]); (64261, [83; 84]);
   (64262, [83; 84]); (64275, [1348; 1350]); (64276, [1348; 1333]);
   (64277, [1348; 1339]); (64278, [1358; 1350]); (64279, [1348; 1341])]%N.

Definition inRun (c : char16) (r : Run) : bool :=
  let '(first, last, step, _) := r in
  if ((first <=? c) && (c <=? last))%N
  then ((c - first) mod step =? 0)%N
  else false.

Definition simpleUpper (c : char16) : char16 :=
  match find (inRun c) simpleRuns with
  | Some (first, _, _, upper) => (upper + (c - first))%N
  | None => c
  end.

Definition toUpperCase (c : char16) : jsstring :=
  match find (fun entry => (fst entry =? c)%N) specialCasing with
  | Some (_, upper) => upper
  | None => [simpleUpper c]
  end.

End UnicodeCase.

(** Modelled from the spec: the runtime's [Date] accessors and date-fns's
    [addMonths] are not part of the repository.  This instance follows the
    proleptic Gregorian calendar in UTC (the time zone of Ghana) with the
    month-end clamping the specification describes; its case mapping is
    that of the Unicode Character Database.  It serves to run the model on
    concrete inputs; the properties below hold for every platform unless
    they name this one. *)
Definition utcPlatform : Platform := {|
  getDate := Calendar.utcDate;
  getMonth := Calendar.utcMonth;
  getFullYear := Calendar.utcFullYear;
  addMonths := Calendar.utcAddMonths;
  upperNonAscii := UnicodeCase.toUpperCase
|}.

(* ===================================================================== *)
(** * messageTemplates.ts *)
(* ===================================================================== *)

Module Templates.

Record VendorData := {
  name : option jsstring;
  contact_phone : option jsstring;
  slogan : option jsstring
}.

(** [vendor?.field]. *)
Definition opt (f : VendorData -> option jsstring) (vendor : option VendorData)
  : option jsstring :=
  match vendor with
  | Some v => f v
  | None => None
  end.

(** [date.toLocaleDateString('en-US', { month: 'long' })] by month index. *)
Definition monthLong (m : Z) : jsstring :=
  lit (match m with
       | 0 => "January" | 1 => "February" | 2 => "March" | 3 => "April"
       | 4 => "May" | 5 => "June" | 6 => "July" | 7 => "August"
       | 8 => "September" | 9 => "October" | 10 => "November"
       | _ => "December"
       end).

(** [c.toUpperCase()] for a string of one code unit. *)
Definition toUpperCaseUnit {platform : Platform} (c : char16) : jsstring :=
  if ((97 <=? c) && (c <=? 122))%N then [(c - 32)%N]
  else if (c <? 128)%N then [c]
  else upperNonAscii c.

(** [n.toFixed(2)] for an amount given in hundredths. *)
Definition twoDigits (n : Z) : jsstring :=
  if n <? 10 then lit "0" ++ showZ n else showZ n.

Definition toFixed2 (hundredths : Z) : jsstring :=
  (if hundredths <? 0 then lit "-" else [])
  ++ showZ (Z.abs hundredths / 100) ++ lit "."
  ++ twoDigits (Z.abs hundredths mod 100).

Section WithPlatform.

Context {platform : Platform}.

Definition ordinalSuffix (day : Z) : jsstring :=
  if (day =? 1) || (day =? 21) || (day =? 31) then lit "st"
  else if (day =? 2) || (day =? 22) then lit "nd"
  else if (day =? 3) || (day =? 23) then lit "rd"
  else lit "th".

Definition toOrdinalDate (date : Date) : jsstring :=
  let day := getDate date in
  let month := monthLong (getMonth date) in
  let year := getFullYear date in
  let suffix := ordinalSuffix day in
  showZ day ++ suffix ++ lit " " ++ month ++ lit ", " ++ showZ year.

Definition firstName (fullName : jsstring) : jsstring :=
  let trimmed := trim fullName in
  match trimmed with
  | [] => lit "Customer"
  | _ :: _ =>
      match splitWhiteSpace trimmed with
      | [] => []
      | part0 :: _ =>
          match part0 with
          | [] => []
          | c :: rest => toUpperCaseUnit c ++ rest
          end
      end
  end.

Definition business (vendor : option VendorData) : jsstring :=
  orElse (opt name vendor) (lit "Qaretech Innovative").

Definition phone (vendor : option VendorData) : jsstring :=
  orElse (opt contact_phone vendor) (lit "0241234567").

Definition whatsapp (vendor : option VendorData) : jsstring :=
  orElse (opt contact_phone vendor) (lit "0241234567").

(** [vendor?.slogan ? `${msg}\n\n${vendor.slogan}` : msg]. *)
Definition withSlogan (vendor : option VendorData) (msg : jsstring)
  : jsstring :=
  match opt slogan vendor with
  | Some (c :: s) => msg ++ [10%N; 10%N] ++ c :: s
  | _ => msg
  end.

(** [`day${n > 1 ? 's' : ''}`]. *)
Definition dayWord (n : Z) : jsstring :=
  lit "day" ++ (if n >? 1 then lit "s" else []).

Definition templateWelcome (fullName : jsstring) (endDate : Date)
  (vendor : option VendorData) : jsstring :=
  let name := firstName fullName in
  let endStr := toOrdinalDate endDate in
  withSlogan vendor
    (business vendor ++ lit ": " ++ [55356%N; 57225%N] ++ lit " Welcome "
     ++ name ++ lit "! Your internet service is active until " ++ endStr
     ++ lit ". Need help? Call " ++ phone vendor ++ lit " or WhatsApp "
     ++ whatsapp vendor
     ++ lit ". Reply CALL if you want us to reach out.").

Definition templatePaymentConfirmation (fullName : jsstring)
  (totalAmount : Z) (newEndDate : Date) (vendor : option VendorData)
  : jsstring :=
  let name := firstName fullName in
  let endStr := toOrdinalDate newEndDate in
  withSlogan vendor
    (business vendor ++ lit ": " ++ [9989%N] ++ lit " Payment GHC "
     ++ toFixed2 totalAmount ++ lit " received. Thanks, " ++ name
     ++ lit "! Your new expiry is " ++ endStr ++ lit ". Questions? Call "
     ++ phone vendor ++ lit " or WhatsApp " ++ whatsapp vendor ++ lit ".").

Definition templateActivation (fullName : jsstring) (newEndDate : Date)
  (vendor : option VendorData) : jsstring :=
  let name := firstName fullName in
  let endStr := toOrdinalDate newEndDate in
  withSlogan vendor
    (business vendor ++ lit ": " ++ [55357%N; 56960%N]
     ++ lit " Service reactivated, " ++ name ++ lit "! You're online until "
     ++ endStr ++ lit ". Renew anytime via " ++ phone vendor
     ++ lit " or WhatsApp " ++ whatsapp vendor
     ++ lit ". Reply HELP for support.").

Definition templateExpired (fullName : jsstring) (daysAgo : Z)
  (endDate : Date) (vendor : option VendorData) : jsstring :=
  let name := firstName fullName in
  let endStr := toOrdinalDate endDate in
  withSlogan vendor
    (business vendor ++ lit ": " ++ [10071%N] ++ lit " " ++ name
     ++ lit ", your service expired " ++ showZ daysAgo ++ lit " "
     ++ dayWord daysAgo ++ lit " ago (on " ++ endStr
     ++ lit "). Reactivate today: call " ++ phone vendor
     ++ lit " or WhatsApp " ++ whatsapp vendor
     ++ lit ". Reply CALL for assistance.").

Definition templateExpiring (fullName : jsstring) (daysLeft : Z)
  (endDate : Date) (vendor : option VendorData) : jsstring :=
  let name := firstName fullName in
  let endStr := toOrdinalDate endDate in
  if daysLeft <=? 0 then
    templateExpired fullName (Z.abs daysLeft) endDate vendor
  else
    withSlogan vendor
      (business vendor ++ lit ": " ++ [9200%N] ++ lit " Hi " ++ name
       ++ lit ", your subscription ends in " ++ showZ daysLeft ++ lit " "
       ++ dayWord daysLeft ++ lit " on " ++ endStr
       ++ lit ". Renew now: call " ++ phone vendor ++ lit " or WhatsApp "
       ++ whatsapp vendor ++ lit ". Reply RENEW and we'll call you back.").

Definition templateMaintenance (windowText : jsstring)
  (vendor : option VendorData) : jsstring :=
  withSlogan vendor
    (business vendor ++ lit ": " ++ [55357%N; 57056%N; 65039%N]
     ++ lit " Scheduled maintenance tonight (" ++ windowText
     ++ lit "). You may notice brief interruptions. We'll be quick. Need help? "
     ++ phone vendor ++ lit " / WhatsApp " ++ whatsapp vendor ++ lit ".").

Definition templateNetworkUpdate (vendor : option VendorData) : jsstring :=
  withSlogan vendor
    (business vendor ++ lit ": " ++ [55356%N; 56725%N]
     ++ lit " Network upgrade complete! Enjoy improved speed and reliability. If you notice issues, please restart your devices or contact "
     ++ phone vendor ++ lit ".").

End WithPlatform.

End Templates.

(* ===================================================================== *)
(** * Rows and component inputs (src/types/index.ts) *)
(* ===================================================================== *)

Inductive SubscriptionType := Basic | Standard | Premium | Enterprise.

Inductive PaymentMethod := cash | mobile_money | bank_transfer | card.

Module Customer.

Record t := {
  id : option jsstring;
  name : jsstring;
  phone : jsstring;
  subscription_type : SubscriptionType;
  monthly_fee : Z;
  subscription_date : Date;
  expiry_date : Date;
  is_active : bool;
  last_reminder_sent : option Date;
  notes : option jsstring;
  created_by : option jsstring;
  vendor_id : option jsstring;
  updated_at : option Date
}.

End Customer.

Module Payment.

Record t := {
  customer_id : option jsstring;
  amount : Z;
  payment_method : PaymentMethod;
  payment_reference : option jsstring;
  payment_date : Date;
  months_paid : Z;
  notes : option jsstring;
  created_by : option jsstring;
  vendor_id : option jsstring
}.

End Payment.

Module Vendor.

Record t := {
  id : jsstring;
  name : jsstring;
  contact_phone : option jsstring;
  slogan : option jsstring
}.

End Vendor.

Module User.

Record t := {
  id : jsstring;
  vendorId : option jsstring
}.

End User.

(** [s || null]. *)
Definition orNull (s : jsstring) : option jsstring :=
  match s with
  | [] => None
  | _ :: _ => Some s
  end.

(** The [vendorData] every handler builds from [useVendor()]. *)
Definition vendorData (vendor : option Vendor.t) : option Templates.VendorData :=
  match vendor with
  | Some v => Some {| Templates.name := Some (Vendor.name v);
                      Templates.contact_phone := Vendor.contact_phone v;
                      Templates.slogan := Vendor.slogan v |}
  | None => None
  end.

(** [vendor?.name]. *)
Definition vendorName (vendor : option Vendor.t) : option jsstring :=
  match vendor with
  | Some v => Some (Vendor.name v)
  | None => None
  end.

(* ===================================================================== *)
(** * The world and the handler monad *)
(* ===================================================================== *)

(** The three fields every request posted to the gateway has.  The [type]
    and [unicode] hints that [sendSMS] adds for a message outside GSM-7
    are a function of [message]; [SmsService.requestData] gives the body
    with them. *)
Record SmsRequest := {
  sender : jsstring;
  message : jsstring;
  recipients : list jsstring
}.

(** What came back from [fetch] and [response.json()].  [accepts] is the
    verdict of [providerAccepts(result)] and [providerMsg] the value of
    [result?.message || result?.status || 'Unknown provider response']. *)
Inductive HttpOutcome :=
| NetworkFailure (reason : jsstring)
| Response (ok : bool) (status : Z) (accepts : bool) (providerMsg : jsstring).

(** Everything a handler can read or change: the two tables, the requests
    posted to the gateway so far, the [alert] boxes shown, and the component
    state set through [setError], [setIsLoading], [setResult], [onSave] and
    [onClose]. *)
Record World := {
  customers : list Customer.t;
  payments : list Payment.t;
  outbox : list SmsRequest;
  alerts : list jsstring;
  error : jsstring;
  isLoading : bool;
  result : option (bool * jsstring);
  saved : nat;
  closed : nat
}.

(** The external collaborators.  The answer of each may depend on the whole
    history, which the world records.  An error of the persistence layer is
    the [message] of the [error] object it returns. *)
Class Backend := {
  arkeselConfig : SmsFormat.ArkeselConfig;
  arkesel : World -> SmsRequest -> HttpOutcome;
  insertPaymentError : World -> Payment.t -> option jsstring;
  updateCustomerError : World -> option jsstring -> option jsstring;
  insertCustomerError : World -> Customer.t -> option jsstring;
  reminderUpdateFails : World -> bool
}.

(** A handler either completes or throws an [Error] with a message; the
    changes it made to the world stay in both cases. *)
Inductive Completion (A : Type) :=
| Normal (a : A)
| Thrown (msg : jsstring).

Arguments Normal {A} a.
Arguments Thrown {A} msg.

Definition Action (A : Type) := World -> Completion A * World.

Definition ret {A} (a : A) : Action A := fun w => (Normal a, w).

Definition bind {A B} (m : Action A) (k : A -> Action B) : Action B :=
  fun w =>
    match m w with
    | (Normal a, w') => k a w'
    | (Thrown e, w') => (Thrown e, w')
    end.

Definition throw {A} (msg : jsstring) : Action A := fun w => (Thrown msg, w).

(** [try { body } catch (e) { handler(e.message) }]. *)
Definition tryCatch {A} (body : Action A) (handler : jsstring -> Action A)
  : Action A :=
  fun w =>
    match body w with
    | (Normal a, w') => (Normal a, w')
    | (Thrown e, w') => handler e w'
    end.

(** [try { body } finally { final }] for a [final] that does not throw. *)
Definition tryFinally {A} (body : Action A) (final : World -> World)
  : Action A :=
  fun w => let '(r, w') := body w in (r, final w').

Definition modify (f : World -> World) : Action unit :=
  fun w => (Normal tt, f w).

Declare Scope action_scope.
Delimit Scope action_scope with action.

Notation "x <- m ;; k" := (bind m (fun x => k))
  (at level 61, m at next level, right associativity) : action_scope.
Notation "m ;; k" := (bind m (fun _ => k))
  (at level 61, right associativity) : action_scope.

Local Open Scope action_scope.

(** ** State setters *)

Definition setCustomers (l : list Customer.t) (w : World) : World :=
  {| customers := l; payments := payments w; outbox := outbox w;
     alerts := alerts w; error := error w; isLoading := isLoading w;
     result := result w; saved := saved w; closed := closed w |}.

Definition setPayments (l : list Payment.t) (w : World) : World :=
  {| customers := customers w; payments := l; outbox := outbox w;
     alerts := alerts w; error := error w; isLoading := isLoading w;
     result := result w; saved := saved w; closed := closed w |}.

Definition post (r : SmsRequest) (w : World) : World :=
  {| customers := customers w; payments := payments w;
     outbox := outbox w ++ [r];
     alerts := alerts w; error := error w; isLoading := isLoading w;
     result := result w; saved := saved w; closed := closed w |}.

Definition pushAlert (msg : jsstring) (w : World) : World :=
  {| customers := customers w; payments := payments w; outbox := outbox w;
     alerts := alerts w ++ [msg]; error := error w; isLoading := isLoading w;
     result := result w; saved := saved w; closed := closed w |}.

Definition withError (msg : jsstring) (w : World) : World :=
  {| customers := customers w; payments := payments w; outbox := outbox w;
     alerts := alerts w; error := msg; isLoading := isLoading w;
     result := result w; saved := saved w; closed := closed w |}.

Definition withIsLoading (b : bool) (w : World) : World :=
  {| customers := customers w; payments := payments w; outbox := outbox w;
     alerts := alerts w; error := error w; isLoading := b;
     result := result w; saved := saved w; closed := closed w |}.

Definition withResult (r : option (bool * jsstring)) (w : World) : World :=
  {| customers := customers w; payments := payments w; outbox := outbox w;
     alerts := alerts w; error := error w; isLoading := isLoading w;
     result := r; saved := saved w; closed := closed w |}.

Definition countSave (w : World) : World :=
  {| customers := customers w; payments := payments w; outbox := outbox w;
     alerts := alerts w; error := error w; isLoading := isLoading w;
     result := result w; saved := S (saved w); closed := closed w |}.

Definition countClose (w : World) : World :=
  {| customers := customers w; payments := payments w; outbox := outbox w;
     alerts := alerts w; error := error w; isLoading := isLoading w;
     result := result w; saved := saved w; closed := S (closed w) |}.

Definition alert (msg : jsstring) : Action unit := modify (pushAlert msg).

Definition setError (msg : jsstring) : Action unit := modify (withError msg).

Definition setIsLoading (b : bool) : Action unit := modify (withIsLoading b).

Definition setResult (r : option (bool * jsstring)) : Action unit :=
  modify (withResult r).

Definition onSave : Action unit := modify countSave.

Definition onClose : Action unit := modify countClose.

(* ===================================================================== *)
(** * Subscription status (Dashboard.tsx, VendorStatsModal.tsx) *)
(* ===================================================================== *)

Module Status.

(** [Math.ceil(a / b)] for integers [a] and [b > 0]. *)
Definition ceilDiv (a b : Z) : Z := - ((- a) / b).

(** [Math.ceil((expiry.getTime() - now.getTime()) / (1000 * 60 * 60 * 24))],
    written out in the dashboard, in [SMSModal] and in [VendorStatsModal]. *)
Definition daysUntil (expiry now : Date) : Z :=
  ceilDiv (expiry - now) MS_PER_DAY.

Record SubscriptionStatus := {
  status : jsstring;
  color : jsstring;
  days : Z
}.

Definition getSubscriptionStatus (expiryDate now : Date) : SubscriptionStatus :=
  let expiry := expiryDate in
  let daysUntil := daysUntil expiry now in
  if daysUntil <? 0 then
    {| status := lit "Expired"; color := lit "bg-red-100 text-red-800";
       days := Z.abs daysUntil |}
  else if daysUntil <=? 3 then
    {| status := lit "Expiring Soon";
       color := lit "bg-yellow-100 text-yellow-800"; days := daysUntil |}
  else
    {| status := lit "Active"; color := lit "bg-green-100 text-green-800";
       days := daysUntil |}.


End Status.

(* ===================================================================== *)
(** * sendSMS and the persistence calls *)
(* ===================================================================== *)

Section Collaborators.

Context {backend : Backend}.

(** [sendSMS(to, message, senderId)]. *)
Definition sendSMS (to msg : jsstring) (senderId : option jsstring)
  : Action unit :=
  match SmsFormat.apiKey arkeselConfig with
  | [] =>
      throw (lit "SMS service not configured. Please set up Arkesel API key in environment variables.")
  | _ :: _ =>
      let finalSenderId := SmsFormat.finalSenderId arkeselConfig senderId in
      let formattedPhone := SmsFormat.formattedPhone to in
      tryCatch
        (let requestData :=
           {| sender := finalSenderId; message := msg;
              recipients := [formattedPhone] |} in
         fun w =>
           match arkesel w requestData with
           | NetworkFailure reason => (Thrown reason, post requestData w)
           | Response ok status accepts providerMsg =>
               if negb ok || negb accepts then
                 (Thrown (lit "Arkesel rejected/failed: " ++ providerMsg
                          ++ lit " (HTTP " ++ showZ status ++ lit ")"),
                  post requestData w)
               else (Normal tt, post requestData w)
           end)
        (fun e => throw e)
  end.

(** [.eq('id', target)] on a row. *)
Definition hasId (target : option jsstring) (row : Customer.t) : bool :=
  match target, Customer.id row with
  | Some a, Some b => strEqb a b
  | _, _ => false
  end.

(** [ids.includes(row.id)]. *)
Definition idIn (ids : list jsstring) (row : Customer.t) : bool :=
  match Customer.id row with
  | Some a => existsb (strEqb a) ids
  | None => false
  end.

Definition withExpiry (expiry now : Date) (c : Customer.t) : Customer.t :=
  {| Customer.id := Customer.id c; Customer.name := Customer.name c;
     Customer.phone := Customer.phone c;
     Customer.subscription_type := Customer.subscription_type c;
     Customer.monthly_fee := Customer.monthly_fee c;
     Customer.subscription_date := Customer.subscription_date c;
     Customer.expiry_date := expiry;
     Customer.is_active := true;
     Customer.last_reminder_sent := Customer.last_reminder_sent c;
     Customer.notes := Customer.notes c;
     Customer.created_by := Customer.created_by c;
     Customer.vendor_id := Customer.vendor_id c;
     Customer.updated_at := Some now |}.

Definition withReminder (now : Date) (c : Customer.t) : Customer.t :=
  {| Customer.id := Customer.id c; Customer.name := Customer.name c;
     Customer.phone := Customer.phone c;
     Customer.subscription_type := Customer.subscription_type c;
     Customer.monthly_fee := Customer.monthly_fee c;
     Customer.subscription_date := Customer.subscription_date c;
     Customer.expiry_date := Customer.expiry_date c;
     Customer.is_active := Customer.is_active c;
     Customer.last_reminder_sent := Some now;
     Customer.notes := Customer.notes c;
     Customer.created_by := Customer.created_by c;
     Customer.vendor_id := Customer.vendor_id c;
     Customer.updated_at := Customer.updated_at c |}.

(** [supabase.from('payments').insert([paymentData])]; the value is the
    [error] of the reply. *)
Definition insertPayment (paymentData : Payment.t) : Action (option jsstring) :=
  fun w =>
    match insertPaymentError w paymentData with
    | Some e => (Normal (Some e), w)
    | None => (Normal None, setPayments (payments w ++ [paymentData]) w)
    end.

(** [supabase.from('customers').update({ expiry_date, is_active: true,
    updated_at }).eq('id', target)]. *)
Definition updateCustomerExpiry (target : option jsstring)
  (expiry now : Date) : Action (option jsstring) :=
  fun w =>
    match updateCustomerError w target with
    | Some e => (Normal (Some e), w)
    | None =>
        (Normal None,
         setCustomers
           (map (fun c => if hasId target c then withExpiry expiry now c
                          else c) (customers w)) w)
    end.

(** [supabase.from('customers').insert([customerData])]. *)
Definition insertCustomer (customerData : Customer.t)
  : Action (option jsstring) :=
  fun w =>
    match insertCustomerError w customerData with
    | Some e => (Normal (Some e), w)
    | None => (Normal None, setCustomers (customers w ++ [customerData]) w)
    end.

(** [supabase.from('customers').update({ last_reminder_sent }).eq('id',
    target)] and [.in('id', ids)]; the callers do not look at the reply. *)
Definition updateReminderWhere (sel : Customer.t -> bool) (now : Date)
  : Action unit :=
  fun w =>
    if reminderUpdateFails w then (Normal tt, w)
    else
      (Normal tt,
       setCustomers
         (map (fun c => if sel c then withReminder now c else c)
            (customers w)) w).

End Collaborators.

(* ===================================================================== *)
(** * PaymentModal.tsx *)
(* ===================================================================== *)

Module PaymentModal.

Record FormData := {
  amount : Z;
  payment_method : PaymentMethod;
  payment_reference : jsstring;
  payment_date : Date;
  months_paid : Z;
  notes : jsstring
}.

Section Handlers.

Context {platform : Platform} {backend : Backend}.

Variable user : option User.t.
Variable vendor : option Vendor.t.

Definition sendPaymentConfirmationSMS (customer : Customer.t) (amount : Z)
  (newEndDate : Date) : Action unit :=
  tryCatch
    (let message :=
       Templates.templatePaymentConfirmation (Customer.name customer) amount
         newEndDate (vendorData vendor) in
     sendSMS (Customer.phone customer) message (vendorName vendor))
    (fun e => throw e).

Definition sendServiceActivationSMS (customer : Customer.t)
  (newEndDate : Date) : Action unit :=
  tryCatch
    (let message :=
       Templates.templateActivation (Customer.name customer) newEndDate
         (vendorData vendor) in
     sendSMS (Customer.phone customer) message (vendorName vendor))
    (fun e => throw e).

(** The locals of [handleSubmit], as functions of what they are computed
    from. *)
Definition startDate (currentExpiry now : Date) : Date :=
  if currentExpiry >? now then currentExpiry else now.

Definition newExpiry (currentExpiry now : Date) (months : Z) : Date :=
  addMonths (startDate currentExpiry now) months.

Definition wasExpired (oldExpiry now : Date) : bool := oldExpiry <? now.

Definition paymentData (customer : Customer.t) (formData : FormData)
  : Payment.t :=
  {| Payment.customer_id := Customer.id customer;
     Payment.amount := amount formData;
     Payment.payment_method := payment_method formData;
     Payment.payment_reference := orNull (payment_reference formData);
     Payment.payment_date := payment_date formData;
     Payment.months_paid := months_paid formData;
     Payment.notes := orNull (notes formData);
     Payment.created_by := option_map User.id user;
     Payment.vendor_id :=
       match user with
       | Some u => User.vendorId u
       | None => None
       end |}.

(** The body of the inner [try] of [handleSubmit]: the two
    notifications. *)
Definition notifications (customer : Customer.t) (formData : FormData)
  (newExpiry : Date) (wasExpired : bool) : Action unit :=
  sendPaymentConfirmationSMS customer
    (amount formData * months_paid formData) newExpiry ;;
  if wasExpired then sendServiceActivationSMS customer newExpiry
  else ret tt.

Definition smsWarning : jsstring :=
  lit "Payment processed successfully, but SMS notification failed to send.".

(** The inner [try] with its [catch]. *)
Definition notify (customer : Customer.t) (formData : FormData)
  (newExpiry : Date) (wasExpired : bool) : Action unit :=
  tryCatch (notifications customer formData newExpiry wasExpired)
    (fun _ => alert smsWarning).

Definition handleSubmit (customer : Customer.t) (formData : FormData)
  (now : Date) : Action unit :=
  setIsLoading true ;;
  setError [] ;;
  tryFinally
    (tryCatch
       (let currentExpiry := Customer.expiry_date customer in
        let newExpiry := newExpiry currentExpiry now (months_paid formData) in
        let oldExpiry := Customer.expiry_date customer in
        let wasExpired := wasExpired oldExpiry now in
        paymentError <- insertPayment (paymentData customer formData) ;;
        match paymentError with
        | Some e => throw (lit "Failed to record payment: " ++ e)
        | None =>
            customerError <-
              updateCustomerExpiry (Customer.id customer) (isoDate newExpiry)
                now ;;
            match customerError with
            | Some e => throw (lit "Failed to update customer: " ++ e)
            | None =>
                notify customer formData newExpiry wasExpired ;;
                onSave ;;
                onClose
            end
        end)
       (fun e => setError (orElse (Some e) (lit "Failed to process payment"))))
    (withIsLoading false).

End Handlers.

End PaymentModal.

(* ===================================================================== *)
(** * CustomerModal.tsx *)
(* ===================================================================== *)

Module CustomerModal.

Record FormData := {
  name : jsstring;
  phone : jsstring;
  subscription_type : SubscriptionType;
  monthly_fee : Z;
  subscription_date : Date;
  notes : jsstring
}.

Section Handlers.

Context {platform : Platform} {backend : Backend}.

Variable user : option User.t.
Variable vendor : option Vendor.t.

Definition sendWelcomeMessageSMS (customerData : Customer.t) (endDate : Date)
  : Action unit :=
  tryCatch
    (let message :=
       Templates.templateWelcome (Customer.name customerData) endDate
         (vendorData vendor) in
     sendSMS (Customer.phone customerData) message (vendorName vendor))
    (fun e => throw e).

Definition expiryDate (formData : FormData) : Date :=
  addMonths (subscription_date formData) 1.

Definition customerData (formData : FormData) : Customer.t :=
  {| Customer.id := None;
     Customer.name := name formData;
     Customer.phone := phone formData;
     Customer.subscription_type := subscription_type formData;
     Customer.monthly_fee := monthly_fee formData;
     Customer.subscription_date := subscription_date formData;
     Customer.expiry_date := isoDate (expiryDate formData);
     Customer.is_active := true;
     Customer.last_reminder_sent := None;
     Customer.notes := orNull (notes formData);
     Customer.created_by := option_map User.id user;
     Customer.vendor_id :=
       match user with
       | Some u => User.vendorId u
       | None => None
       end;
     Customer.updated_at := None |}.

(** The columns [update(customerData)] writes on an existing row. *)
Definition overwrite (d c : Customer.t) : Customer.t :=
  {| Customer.id := Customer.id c;
     Customer.name := Customer.name d;
     Customer.phone := Customer.phone d;
     Customer.subscription_type := Customer.subscription_type d;
     Customer.monthly_fee := Customer.monthly_fee d;
     Customer.subscription_date := Customer.subscription_date d;
     Customer.expiry_date := Customer.expiry_date d;
     Customer.is_active := Customer.is_active d;
     Customer.last_reminder_sent := Customer.last_reminder_sent c;
     Customer.notes := Customer.notes d;
     Customer.created_by := Customer.created_by d;
     Customer.vendor_id := Customer.vendor_id d;
     Customer.updated_at := Customer.updated_at c |}.

Definition updateCustomer (target : option jsstring) (d : Customer.t)
  : Action (option jsstring) :=
  fun w =>
    match updateCustomerError w target with
    | Some e => (Normal (Some e), w)
    | None =>
        (Normal None,
         setCustomers
           (map (fun c => if hasId target c then overwrite d c else c)
              (customers w)) w)
    end.

Definition smsWarning : jsstring :=
  lit "Customer created successfully, but welcome SMS failed to send.".

(** [customer] is the row being edited, or [None] when a customer is
    added. *)
Definition handleSubmit (customer : option Customer.t) (formData : FormData)
  : Action unit :=
  setIsLoading true ;;
  setError [] ;;
  tryFinally
    (tryCatch
       (let expiryDate := expiryDate formData in
        let customerData := customerData formData in
        match customer with
        | Some c =>
            error <- updateCustomer (Customer.id c) customerData ;;
            match error with
            | Some e => throw (lit "Failed to update customer: " ++ e)
            | None => ret tt
            end
        | None =>
            error <- insertCustomer customerData ;;
            match error with
            | Some e => throw (lit "Failed to create customer: " ++ e)
            | None =>
                tryCatch (sendWelcomeMessageSMS customerData expiryDate)
                  (fun _ => alert smsWarning)
            end
        end ;;
        onSave ;;
        onClose)
       (fun e => setError (orElse (Some e) (lit "Failed to save customer"))))
    (withIsLoading false).

End Handlers.

End CustomerModal.

(* ===================================================================== *)
(** * Dashboard.tsx: quick reminder and SMSModal *)
(* ===================================================================== *)

Module Dashboard.

Section Handlers.

Context {platform : Platform} {backend : Backend}.

Variable vendor : option Vendor.t.

(** The reminder button of a customer row.  [setSendingSMS] and the
    reload of the list by [fetchCustomers] change nothing the world
    records. *)
Definition handleQuickSMSReminder (customer : Customer.t) (now : Date)
  : Action unit :=
  tryCatch
    (let expiry := Customer.expiry_date customer in
     let daysUntil := Status.daysUntil expiry now in
     let vendorData := vendorData vendor in
     let message :=
       if daysUntil <? 0 then
         Templates.templateExpired (Customer.name customer) (Z.abs daysUntil)
           expiry vendorData
       else if daysUntil <=? 7 then
         Templates.templateExpiring (Customer.name customer) daysUntil expiry
           vendorData
       else
         Templates.templateExpiring (Customer.name customer) daysUntil expiry
           vendorData in
     sendSMS (Customer.phone customer) message (vendorName vendor) ;;
     updateReminderWhere (hasId (Customer.id customer)) now ;;
     alert (lit "SMS reminder sent successfully to " ++ Customer.name customer
            ++ lit "!"))
    (fun e =>
       alert (lit "Failed to send SMS to " ++ Customer.name customer
              ++ lit ": " ++ e)).

End Handlers.

End Dashboard.

Module SMSModal.

Inductive MessageType :=
  custom | maintenance | update | welcome | expiring | expired.

Record FormData := {
  phone : jsstring;
  customerName : jsstring;
  message : jsstring;
  messageType : MessageType
}.

(** The counters of the bulk loop. *)
Record Tally := {
  successful : nat;
  failed : nat;
  errors : list jsstring
}.

Section Handlers.

Context {platform : Platform} {backend : Backend}.

Variable vendor : option Vendor.t.

(** The message of one recipient; the source writes this block twice, in
    the loop and in the single-customer branch. *)
Definition personalizedMessage (formData : FormData) (customer : Customer.t)
  (now : Date) : jsstring :=
  let vendorData := vendorData vendor in
  match messageType formData with
  | custom => message formData
  | welcome =>
      Templates.templateWelcome (Customer.name customer)
        (Customer.expiry_date customer) vendorData
  | expiring | expired =>
      let expiry := Customer.expiry_date customer in
      let daysUntil := Status.daysUntil expiry now in
      if daysUntil <? 0 then
        Templates.templateExpired (Customer.name customer) (Z.abs daysUntil)
          expiry vendorData
      else
        Templates.templateExpiring (Customer.name customer) daysUntil expiry
          vendorData
  | maintenance => Templates.templateMaintenance (lit "11 PM - 2 AM") vendorData
  | update => Templates.templateNetworkUpdate vendorData
  end.

(** [for (const customer of selectedCustomerDetails) { try ... catch ... }]. *)
Fixpoint sendEach (formData : FormData) (now : Date)
  (selectedCustomerDetails : list Customer.t) (tally : Tally)
  : Action Tally :=
  match selectedCustomerDetails with
  | [] => ret tally
  | customer :: rest =>
      tally' <-
        tryCatch
          (sendSMS (Customer.phone customer)
             (personalizedMessage formData customer now) (vendorName vendor) ;;
           ret {| successful := S (successful tally);
                  failed := failed tally;
                  errors := errors tally |})
          (fun e =>
             ret {| successful := successful tally;
                    failed := S (failed tally);
                    errors := errors tally
                              ++ [Customer.name customer ++ lit ": " ++ e] |}) ;;
      sendEach formData now rest tally'
  end.

Definition showNat (n : nat) : jsstring := showZ (Z.of_nat n).

(** The [result] the loop ends with. *)
Definition bulkResult (tally : Tally) : bool * jsstring :=
  (Nat.ltb 0 (successful tally),
   if Nat.ltb 0 (successful tally) then
     lit "Personalized SMS sent to " ++ showNat (successful tally)
     ++ lit " customer(s)"
     ++ (if Nat.ltb 0 (failed tally) then
           lit ". " ++ showNat (failed tally) ++ lit " failed: "
           ++ join (lit ", ") (errors tally)
         else lit "!")
   else lit "Failed to send SMS: " ++ join (lit ", ") (errors tally)).

(** The [TypeError] of reading a property of [undefined], when no selected
    id is among the loaded customers. *)
Definition typeErrorMessage : jsstring :=
  lit "Cannot read properties of undefined (reading 'phone')".

(** [customers] is the list the modal has loaded, [selectedCustomers] the
    ids ticked in it. *)
Definition handleSubmit (customers : list Customer.t)
  (selectedCustomers : list jsstring) (formData : FormData) (now : Date)
  : Action unit :=
  setIsLoading true ;;
  setResult None ;;
  tryFinally
    (tryCatch
       (match selectedCustomers with
        | _ :: _ =>
            let selectedCustomerDetails :=
              filter (idIn selectedCustomers) customers in
            match selectedCustomerDetails with
            | _ :: _ :: _ =>
                tally <-
                  sendEach formData now selectedCustomerDetails
                    {| successful := O; failed := O; errors := [] |} ;;
                setResult (Some (bulkResult tally))
            | [customer] =>
                sendSMS (Customer.phone customer)
                  (personalizedMessage formData customer now)
                  (vendorName vendor) ;;
                setResult
                  (Some (true,
                         lit "Personalized SMS sent successfully to "
                         ++ Customer.name customer ++ lit "!"))
            | [] => throw typeErrorMessage
            end ;;
            updateReminderWhere (idIn selectedCustomers) now
        | [] =>
            match phone formData with
            | _ :: _ =>
                sendSMS (phone formData) (message formData)
                  (vendorName vendor) ;;
                setResult (Some (true, lit "SMS sent successfully!"))
            | [] =>
                throw (lit "Please select customers or enter a phone number")
            end
        end)
       (fun e => setResult (Some (false, e))))
    (withIsLoading false).

End Handlers.

End SMSModal.

(* ===================================================================== *)
(** * smsService.ts: encoding test and bulk sending *)
(* ===================================================================== *)

Module SmsService.

(** The characters [GSM7_REGEX] lists beside the range [\u0000-\u007F]
    and the class [\s]; the punctuation, digits and letters it also lists
    lie in that range. *)
Definition gsm7Listed : list char16 :=
  [8364; 163; 165; 232; 233; 249; 236; 242; 199; 216; 248; 197; 229; 916;
   934; 915; 923; 937; 928; 936; 931; 920; 926; 198; 230; 201; 196; 214;
   209; 220; 167; 228; 246; 241; 252; 224]%N.

Definition gsm7Unit (c : char16) : bool :=
  (c <=? 127)%N || existsb (N.eqb c) gsm7Listed || isWhiteSpace c.

(** [isGsm7(text)]: the expression is anchored at both ends, so every code
    unit has to be in the class. *)
Definition isGsm7 (text : jsstring) : bool := forallb gsm7Unit text.

(** [needsUnicode] of [sendSMS]: the request then carries
    [type: 'unicode'] and [unicode: true]. *)
Definition needsUnicode (msg : jsstring) : bool := negb (isGsm7 msg).

(** The body [requestData] that [sendSMS] serializes for the gateway: the
    three fields of every request and, set together when the message is
    not GSM-7, the two encoding hints.  A field that is [None] is absent
    from the object. *)
Record RequestData := {
  request : SmsRequest;
  type : option jsstring;
  unicode : option bool
}.

Definition requestData {backend : Backend} (to msg : jsstring)
  (senderId : option jsstring) : RequestData :=
  let finalSenderId := SmsFormat.finalSenderId arkeselConfig senderId in
  let formattedPhone := SmsFormat.formattedPhone to in
  let needsUnicode := needsUnicode msg in
  let requestData :=
    {| sender := finalSenderId; message := msg;
       recipients := [formattedPhone] |} in
  if needsUnicode
  then {| request := requestData; type := Some (lit "unicode");
          unicode := Some true |}
  else {| request := requestData; type := None; unicode := None |}.

(** What came back for a bulk request.  [resultMessage] is
    [result.message]; [flagged] is the verdict of the two nested tests of
    [sendBulkSMS] on [result.code], [result.status] and the word [error]
    in [result.message]. *)
Inductive BulkReply :=
| BulkNetworkFailure (reason : jsstring)
| BulkResponse (ok : bool) (status : Z) (resultMessage : option jsstring)
    (flagged : bool).

Record BulkResult := {
  successful : nat;
  failed : nat;
  errors : list jsstring
}.

Section Bulk.

Context {backend : Backend}.

Variable arkeselBulk : World -> SmsRequest -> BulkReply.

(** [sendBulkSMS(recipients, message, senderId)]. *)
Definition sendBulkSMS (recipients : list jsstring) (msg : jsstring)
  (senderId : option jsstring) : Action BulkResult :=
  match SmsFormat.apiKey arkeselConfig with
  | [] =>
      throw (lit "SMS service not configured. Please set up Arkesel API key in environment variables.")
  | _ :: _ =>
      let finalSenderId := SmsFormat.finalSenderId arkeselConfig senderId in
      let formattedRecipients := map SmsFormat.formattedPhone recipients in
      tryCatch
        (let requestData :=
           {| sender := finalSenderId; message := msg;
              recipients := formattedRecipients |} in
         fun w =>
           match arkeselBulk w requestData with
           | BulkNetworkFailure reason => (Thrown reason, post requestData w)
           | BulkResponse ok status resultMessage flagged =>
               if negb ok then
                 (Thrown (orElse resultMessage
                            (lit "HTTP error! status: " ++ showZ status)),
                  post requestData w)
               else if flagged then
                 (Thrown (orElse resultMessage
                            (lit "Bulk SMS sending failed")),
                  post requestData w)
               else
                 (Normal {| successful := List.length formattedRecipients;
                            failed := 0;
                            errors := [] |},
                  post requestData w)
           end)
        (fun e =>
           ret {| successful := 0;
                  failed := List.length formattedRecipients;
                  errors := [e] |})
  end.

End Bulk.

End SmsService.

(* ===================================================================== *)
(** * Dashboard.tsx: counters, deletion and the selection of SMSModal *)
(* ===================================================================== *)

Module DashboardView.

Record DashboardStats := {
  totalCustomers : nat;
  activeCustomers : nat;
  expiredCustomers : nat;
  expiringSoonCustomers : nat;
  monthlyRevenue : Z
}.

(** The three filters of [fetchCustomers]. *)
Definition isActive (now : Date) (c : Customer.t) : bool :=
  Customer.is_active c && (Customer.expiry_date c >? now).

Definition isExpired (now : Date) (c : Customer.t) : bool :=
  Customer.expiry_date c <=? now.

Definition isExpiringSoon (now : Date) (c : Customer.t) : bool :=
  let expiry := Customer.expiry_date c in
  let daysUntil := Status.daysUntil expiry now in
  (daysUntil <=? 3) && (daysUntil >? 0).

(** The [stats] that [fetchCustomers] sets from the list it fetched;
    [monthlyRevenue] is carried over from the previous [stats]. *)
Definition calculateStats (customerList : list Customer.t) (now : Date)
  (monthlyRevenue : Z) : DashboardStats :=
  let activeCustomers := filter (isActive now) customerList in
  let expiredCustomers := filter (isExpired now) customerList in
  let expiringSoonCustomers := filter (isExpiringSoon now) customerList in
  {| totalCustomers := List.length customerList;
     activeCustomers := List.length activeCustomers;
     expiredCustomers := List.length expiredCustomers;
     expiringSoonCustomers := List.length expiringSoonCustomers;
     monthlyRevenue := monthlyRevenue |}.

(** [p.customer_id] is [customerId]. *)
Definition paidBy (customerId : jsstring) (p : Payment.t) : bool :=
  match Payment.customer_id p with
  | Some i => strEqb i customerId
  | None => false
  end.

(** The tables after the row [customerId] is deleted: the payments go with
    it, [customer_id] being declared
    [REFERENCES customers(id) ON DELETE CASCADE]. *)
Definition deleted (customerId : jsstring) (w : World) : World :=
  setPayments (filter (fun p => negb (paidBy customerId p)) (payments w))
    (setCustomers
       (filter (fun c => negb (hasId (Some customerId) c)) (customers w)) w).

Section Deleting.

(** The answer to the [confirm] box, and the [error] of the reply to
    [supabase.from('customers').delete().eq('id', customerId)]. *)
Variable confirmed : bool.
Variable deleteCustomerError : World -> jsstring -> option jsstring.

Definition handleDeleteCustomer (customerId : jsstring) : Action unit :=
  if negb confirmed then ret tt
  else
    tryFinally
      (tryCatch
         (setIsLoading true ;;
          error <-
            (fun w =>
               match deleteCustomerError w customerId with
               | Some e => (Normal (Some e), w)
               | None => (Normal None, deleted customerId w)
               end) ;;
          match error with
          | Some e => alert (lit "Failed to delete customer: " ++ e)
          | None => alert (lit "Customer deleted successfully!")
          end)
         (fun e => alert (lit "Failed to delete customer: " ++ e)))
      (withIsLoading false).

End Deleting.

End DashboardView.

Module SMSModalView.

(** [handleCustomerSelect]: the new [selectedCustomers]. *)
Definition handleCustomerSelect (prev : list jsstring) (customerId : jsstring)
  : list jsstring :=
  if existsb (fun id => strEqb id customerId) prev
  then filter (fun id => negb (strEqb id customerId)) prev
  else prev ++ [customerId].

(** [expiringCustomers] of [selectAllExpiring]. *)
Definition expiringCustomers (customers : list Customer.t) (now : Date)
  : list Customer.t :=
  filter
    (fun customer =>
       let expiry := Customer.expiry_date customer in
       let daysUntil := Status.daysUntil expiry now in
       (daysUntil <=? 3) && (daysUntil >? 0))
    customers.

(** [expiredCustomers] of [selectAllExpired]. *)
Definition expiredCustomers (customers : list Customer.t) (now : Date)
  : list Customer.t :=
  filter (fun customer => Customer.expiry_date customer <=? now) customers.

Section Preview.

Context {platform : Platform}.

Variable vendor : option Vendor.t.

(** [gen] of the preview effect: the text shown under the form. *)
Definition gen (customers : list Customer.t)
  (selectedCustomers : list jsstring) (formData : SMSModal.FormData)
  (now : Date) : jsstring :=
  let vendorData := vendorData vendor in
  match selectedCustomers with
  | first :: _ =>
      match find (hasId (Some first)) customers with
      | Some customer =>
          let expiry := Customer.expiry_date customer in
          let daysUntil := Status.daysUntil expiry now in
          match SMSModal.messageType formData with
          | SMSModal.maintenance =>
              Templates.templateMaintenance (lit "11 PM - 2 AM") vendorData
          | SMSModal.update => Templates.templateNetworkUpdate vendorData
          | SMSModal.welcome =>
              Templates.templateWelcome (Customer.name customer) expiry
                vendorData
          | SMSModal.expiring =>
              Templates.templateExpiring (Customer.name customer) daysUntil
                expiry vendorData
          | SMSModal.expired =>
              Templates.templateExpired (Customer.name customer)
                (Z.abs daysUntil) expiry vendorData
          | SMSModal.custom => SMSModal.message formData
          end
      | None => SMSModal.message formData
      end
  | [] => SMSModal.message formData
  end.

End Preview.

End SMSModalView.

(* ===================================================================== *)
(** * Vocabulary of the statements *)
(* ===================================================================== *)

Definition noWhiteSpace (s : jsstring) : Prop :=
  Forall (fun c => isWhiteSpace c = false) s.

Definition allWhiteSpace (s : jsstring) : Prop :=
  Forall (fun c => isWhiteSpace c = true) s.

(** [rest] is empty or begins with white space: a token ends before it. *)
Definition tokenEnds (rest : jsstring) : Prop :=
  rest = [] \/ exists w r, rest = w :: r /\ isWhiteSpace w = true.

(** The gateway took the request: [response.ok] and [providerAccepts]. *)
Definition accepted (o : HttpOutcome) : bool :=
  match o with
  | Response true _ true _ => true
  | _ => false
  end.

(** The request that [sendSMS(to, msg, vendor?.name)] posts. *)
Definition requestFor {backend : Backend} (vendor : option Vendor.t)
  (to msg : jsstring) : SmsRequest :=
  {| sender := SmsFormat.finalSenderId arkeselConfig (vendorName vendor);
     message := msg;
     recipients := [SmsFormat.formattedPhone to] |}.

(** A request carrying [msg] has been posted to the gateway. *)
Definition posted (msg : jsstring) (w : World) : bool :=
  existsb (fun r => strEqb (message r) msg) (outbox w).

Definition threw {A} (c : Completion A) : bool :=
  match c with
  | Thrown _ => true
  | Normal _ => false
  end.

(** The stages of a [handleSubmit]: the world once the handler has reset
    the component state, once a payment row is inserted, once the expiry of
    a customer is written, and once a customer row is inserted. *)
Definition entered (w : World) : World := withError [] (withIsLoading true w).

Definition recorded (row : Payment.t) (w : World) : World :=
  setPayments (payments w ++ [row]) w.

Definition renewed (target : option jsstring) (expiry now : Date) (w : World)
  : World :=
  setCustomers
    (map (fun c => if hasId target c then withExpiry expiry now c else c)
       (customers w)) w.

Definition created (row : Customer.t) (w : World) : World :=
  setCustomers (customers w ++ [row]) w.

(** The rows whose [last_reminder_sent] is [now]. *)
Definition reminded (sel : Customer.t -> bool) (now : Date) (w : World)
  : World :=
  setCustomers
    (map (fun c => if sel c then withReminder now c else c) (customers w)) w.

(** The world after the requests [l] have been posted. *)
Definition posting (l : list SmsRequest) (w : World) : World :=
  {| customers := customers w; payments := payments w;
     outbox := outbox w ++ l;
     alerts := alerts w; error := error w; isLoading := isLoading w;
     result := result w; saved := saved w; closed := closed w |}.

Section PaymentStages.

Context {platform : Platform} {backend : Backend}.

Variable user : option User.t.
Variable vendor : option Vendor.t.
Variable customer : Customer.t.
Variable formData : PaymentModal.FormData.
Variable now : Date.

(** [ARKESEL_CONFIG.apiKey] is set. *)
Definition configured : bool :=
  match SmsFormat.apiKey arkeselConfig with
  | [] => false
  | _ :: _ => true
  end.

(** The new expiry date and the [wasExpired] flag of a payment. *)
Definition paidUntil : Date :=
  PaymentModal.newExpiry (Customer.expiry_date customer) now
    (PaymentModal.months_paid formData).

Definition lapsed : bool :=
  PaymentModal.wasExpired (Customer.expiry_date customer) now.

(** The world once the payment row and the new expiry are written. *)
Definition committed (w : World) : World :=
  renewed (Customer.id customer) (isoDate paidUntil) now
    (recorded (PaymentModal.paymentData user customer formData) (entered w)).

(** The two requests of a payment. *)
Definition confirmation : SmsRequest :=
  requestFor vendor (Customer.phone customer)
    (Templates.templatePaymentConfirmation (Customer.name customer)
       (PaymentModal.amount formData * PaymentModal.months_paid formData)
       paidUntil (vendorData vendor)).

Definition activation : SmsRequest :=
  requestFor vendor (Customer.phone customer)
    (Templates.templateActivation (Customer.name customer) paidUntil
       (vendorData vendor)).

End PaymentStages.

(** The number a string of decimal digits denotes. *)
Definition digitsValue (s : jsstring) : Z :=
  fold_left (fun acc c => 10 * acc + (Z.of_N c - 48)) s 0.

(** A string of decimal digits only. *)
Definition decimalDigits (s : jsstring) : Prop :=
  Forall (fun c => (48 <= c <= 57)%N) s.



Ltac absurd_literal :=
  match goal with
  | H : lit _ = lit _ |- _ => vm_compute in H; discriminate H
  end.

(** A [date] column holds a midnight. *)
Definition dateOnly (d : Date) : Prop := d mod MS_PER_DAY = 0.

(** The days-remaining text of the Expiring template. *)
Definition expiringText {platform : Platform} (fullName : jsstring)
  (daysLeft : Z) (endDate : Date) (vendor : option Templates.VendorData)
  : jsstring :=
  Templates.withSlogan vendor
    (Templates.business vendor ++ lit ": " ++ [9200%N] ++ lit " Hi "
     ++ Templates.firstName fullName
     ++ lit ", your subscription ends in " ++ showZ daysLeft
     ++ lit " " ++ (if daysLeft =? 1 then lit "day" else lit "days")
     ++ lit " on " ++ Templates.toOrdinalDate endDate
     ++ lit ". Renew now: call " ++ Templates.phone vendor
     ++ lit " or WhatsApp " ++ Templates.whatsapp vendor
     ++ lit ". Reply RENEW and we'll call you back.").


(* ===================================================================== *)
(** * Concrete inputs used to run the model *)
(* ===================================================================== *)

Module Scenario.

(** 21 November 2025, 09:30 UTC. *)
Definition today : Date := Calendar.makeDate 2025 10 21 34200000.

Definition day (year month dayOfMonth : Z) : Date :=
  Calendar.makeDate year (month - 1) dayOfMonth 0.

Definition config : SmsFormat.ArkeselConfig :=
  {| SmsFormat.apiKey := lit "test-key";
     SmsFormat.senderId := lit "Qaretech" |}.

(** A gateway that turns down the numbers in [refused] and accepts the
    others, with a persistence layer that does not fail. *)
Definition backend (refused : list jsstring) : Backend :=
  {| arkeselConfig := config;
     arkesel := fun _ r =>
       if existsb (fun p => existsb (strEqb p) refused) (recipients r)
       then Response false 422 false (lit "Invalid phone number")
       else Response true 200 true (lit "SMS sent");
     insertPaymentError := fun _ _ => None;
     updateCustomerError := fun _ _ => None;
     insertCustomerError := fun _ _ => None;
     reminderUpdateFails := fun _ => false |}.

Definition customer (id name phone : string) (fee : Z) (expiry : Date)
  : Customer.t :=
  {| Customer.id := Some (lit id);
     Customer.name := lit name;
     Customer.phone := lit phone;
     Customer.subscription_type := Standard;
     Customer.monthly_fee := fee;
     Customer.subscription_date := day 2025 1 1;
     Customer.expiry_date := expiry;
     Customer.is_active := true;
     Customer.last_reminder_sent := None;
     Customer.notes := None;
     Customer.created_by := None;
     Customer.vendor_id := Some (lit "v1");
     Customer.updated_at := None |}.

(** Ama expires tomorrow, Kofi expired ten days ago, Esi has a month left. *)
Definition ama : Customer.t :=
  customer "c1" "ama serwaa" "0241234567" 5000 (day 2025 11 22).

Definition kofi : Customer.t :=
  customer "c2" "Kofi Mensah" "0201112222" 8000 (day 2025 11 11).

Definition esi : Customer.t :=
  customer "c3" "Esi Badu" "+233 24 555 0000" 12050 (day 2025 12 21).

Definition world (rows : list Customer.t) : World :=
  {| customers := rows; payments := []; outbox := []; alerts := [];
     error := []; isLoading := false; result := None;
     saved := O; closed := O |}.

Definition staff : User.t :=
  {| User.id := lit "u1"; User.vendorId := Some (lit "v1") |}.

(** One month at the monthly fee, and three months at 50.00. *)
Definition oneMonth (c : Customer.t) : PaymentModal.FormData :=
  {| PaymentModal.amount := Customer.monthly_fee c;
     PaymentModal.payment_method := mobile_money;
     PaymentModal.payment_reference := [];
     PaymentModal.payment_date := day 2025 11 21;
     PaymentModal.months_paid := 1;
     PaymentModal.notes := [] |}.


(** Kofi pays one month while the gateway refuses his number, and while
    it accepts every number. *)
Definition kofiNumber : jsstring := lit "233201112222".

Definition refusedPayment : Completion unit * World :=
  PaymentModal.handleSubmit (platform := utcPlatform)
    (backend := backend [kofiNumber]) (Some staff) None kofi (oneMonth kofi)
    today (world [ama; kofi; esi]).

Definition acceptedPayment : Completion unit * World :=
  PaymentModal.handleSubmit (platform := utcPlatform)
    (backend := backend []) (Some staff) None kofi (oneMonth kofi)
    today (world [ama; kofi; esi]).

Definition reminderForm : SMSModal.FormData :=
  {| SMSModal.phone := [];
     SMSModal.customerName := [];
     SMSModal.message := [];
     SMSModal.messageType := SMSModal.expiring |}.

(** A reminder sweep over Ama, Kofi and Esi while the gateway refuses
    Kofi's number. *)
Definition sweep : Completion unit * World :=
  SMSModal.handleSubmit (platform := utcPlatform)
    (backend := backend [kofiNumber]) None [ama; kofi; esi]
    [lit "c1"; lit "c2"; lit "c3"] reminderForm today
    (world [ama; kofi; esi]).


Definition newCustomerForm : CustomerModal.FormData :=
  {| CustomerModal.name := lit "Yaw Boateng";
     CustomerModal.phone := lit "0209998888";
     CustomerModal.subscription_type := Basic;
     CustomerModal.monthly_fee := 6000;
     CustomerModal.subscription_date := day 2025 11 21;
     CustomerModal.notes := [] |}.

(** Yaa's subscription ran out at midnight, nine and a half hours ago. *)
Definition yaa : Customer.t :=
  customer "c4" "Yaa Asantewaa" "0245550101" 7000 (day 2025 11 21).

(** A gateway that answers every bulk request with a plain success. *)
Definition bulkAccepts (w : World) (r : SmsRequest) : SmsService.BulkReply :=
  SmsService.BulkResponse true 200 None false.

(** A persistence layer whose second write, the update of the customer,
    fails. *)
Definition updateFails : Backend :=
  {| arkeselConfig := config;
     arkesel := fun _ _ => Response true 200 true (lit "SMS sent");
     insertPaymentError := fun _ _ => None;
     updateCustomerError := fun _ _ => Some (lit "network error");
     insertCustomerError := fun _ _ => Some (lit "duplicate phone");
     reminderUpdateFails := fun _ => false |}.

Definition editForm : CustomerModal.FormData :=
  {| CustomerModal.name := lit "Kofi A. Mensah";
     CustomerModal.phone := lit "0201112222";
     CustomerModal.subscription_type := Standard;
     CustomerModal.monthly_fee := 8000;
     CustomerModal.subscription_date := day 2025 1 1;
     CustomerModal.notes := [] |}.

Definition expiredForm : SMSModal.FormData :=
  {| SMSModal.phone := [];
     SMSModal.customerName := [];
     SMSModal.message := [];
     SMSModal.messageType := SMSModal.expired |}.

End Scenario.

(* ===================================================================== *)
(** * Properties *)
(* ===================================================================== *)

(** ** Strings *)

Lemma removeWhiteSpace_noWhiteSpace s : noWhiteSpace (removeWhiteSpace s).
Proof.
  unfold noWhiteSpace, removeWhiteSpace.
  induction s as [|c s IH]; simpl; [constructor|].
  destruct (isWhiteSpace c) eqn:E; simpl; [assumption|].
  constructor; assumption.
Qed.

Lemma removeWhiteSpace_fixed s : noWhiteSpace s -> removeWhiteSpace s = s.
Proof.
  unfold noWhiteSpace, removeWhiteSpace.
  induction 1 as [|c s Hc _ IH]; simpl; [reflexivity|].
  rewrite Hc; simpl. now rewrite IH.
Qed.

Lemma removeLeadingPlus_noWhiteSpace s :
  noWhiteSpace s -> noWhiteSpace (removeLeadingPlus s).
Proof.
  intros Hs. destruct s as [|c s]; simpl; [constructor|].
  destruct (c =? 43)%N; [now inversion Hs | assumption].
Qed.

Lemma noWhiteSpace_app a b :
  noWhiteSpace a -> noWhiteSpace b -> noWhiteSpace (a ++ b).
Proof. intros Ha Hb. apply Forall_app. split; assumption. Qed.

Lemma noWhiteSpace_skipn n s : noWhiteSpace s -> noWhiteSpace (skipn n s).
Proof.
  revert s. induction n as [|n IH]; intros s Hs; simpl; [assumption|].
  destruct s as [|c s]; [constructor|]. apply IH. now inversion Hs.
Qed.

Lemma noWhiteSpace_firstn n s : noWhiteSpace s -> noWhiteSpace (firstn n s).
Proof.
  revert s. induction n as [|n IH]; intros s Hs; simpl; [constructor|].
  destruct s as [|c s]; [constructor|].
  inversion Hs; subst. constructor; [assumption | now apply IH].
Qed.

Lemma noWhiteSpace_233 : noWhiteSpace (lit "233").
Proof. repeat constructor. Qed.

Lemma startsWith_app p s : startsWith (p ++ s) p = true.
Proof.
  induction p as [|a p IH]; simpl; [now destruct s|].
  now rewrite N.eqb_refl, IH.
Qed.

(** ** Phone formatting *)

Lemma formattedPhone_noWhiteSpace x :
  noWhiteSpace (SmsFormat.formattedPhone x).
Proof.
  unfold SmsFormat.formattedPhone.
  pose proof (removeLeadingPlus_noWhiteSpace _ (removeWhiteSpace_noWhiteSpace x))
    as Hp.
  set (p := removeLeadingPlus (removeWhiteSpace x)) in *.
  assert (Hq : noWhiteSpace
                 (if startsWith p (lit "0")
                  then lit "233" ++ substringFrom 1 p else p)).
  { destruct (startsWith p (lit "0")); [|assumption].
    apply noWhiteSpace_app; [apply noWhiteSpace_233|].
    now apply noWhiteSpace_skipn. }
  destruct (negb _); [|assumption].
  apply noWhiteSpace_app; [apply noWhiteSpace_233 | assumption].
Qed.

Lemma formattedPhone_startsWith_233 x :
  startsWith (SmsFormat.formattedPhone x) (lit "233") = true.
Proof.
  unfold SmsFormat.formattedPhone.
  set (q := if startsWith _ (lit "0") then _ else _).
  destruct (startsWith q (lit "233")) eqn:E; simpl; [assumption|].
  apply (startsWith_app (lit "233")).
Qed.

Lemma formattedPhone_fixed y :
  noWhiteSpace y -> startsWith y (lit "233") = true ->
  SmsFormat.formattedPhone y = y.
Proof.
  intros Hy Hp. unfold SmsFormat.formattedPhone.
  rewrite (removeWhiteSpace_fixed y Hy).
  destruct y as [|c y]; [discriminate Hp|].
  simpl in Hp. apply andb_true_iff in Hp. destruct Hp as [Hc Hrest].
  apply N.eqb_eq in Hc. subst c.
  change (removeLeadingPlus (50%N :: y)) with (50%N :: y).
  change (startsWith (50%N :: y) (lit "0")) with false.
  cbv iota.
  assert (E : startsWith (50%N :: y) (lit "233") = true) by exact Hrest.
  rewrite E. reflexivity.
Qed.

(** C5.  Phone normalization is idempotent on every string, and it maps
    the local number 0241234567 and the international +233241234567 to
    233241234567. *)
Theorem formattedPhone_idempotent :
  (forall x : jsstring,
      SmsFormat.formattedPhone (SmsFormat.formattedPhone x)
      = SmsFormat.formattedPhone x)
  /\ SmsFormat.formattedPhone (lit "0241234567") = lit "233241234567"
  /\ SmsFormat.formattedPhone (lit "+233241234567") = lit "233241234567".
Proof.
  split; [|split; reflexivity].
  intros x. apply formattedPhone_fixed.
  - apply formattedPhone_noWhiteSpace.
  - apply formattedPhone_startsWith_233.
Qed.

(** ** Sender id *)

Lemma finalSenderId_length cfg c s :
  (List.length (SmsFormat.finalSenderId cfg (Some (c :: s))) <= 11)%nat.
Proof. unfold SmsFormat.finalSenderId, substringTo. apply firstn_le_length. Qed.

Lemma finalSenderId_noWhiteSpace cfg c s :
  noWhiteSpace (SmsFormat.finalSenderId cfg (Some (c :: s))).
Proof.
  unfold SmsFormat.finalSenderId, substringTo.
  apply noWhiteSpace_firstn, removeWhiteSpace_noWhiteSpace.
Qed.

(** C9.  The sender id that goes to the gateway is stripped of white space
    and cut to 11 code units, but nothing removes other characters: the
    vendor name [Wi-Fi Hub & Co] is sent as [Wi-FiHub&Co], which is not
    alphanumeric. *)
Theorem finalSenderId_keeps_punctuation :
  forall cfg,
    SmsFormat.finalSenderId cfg (Some (lit "Wi-Fi Hub & Co"))
    = lit "Wi-FiHub&Co"
    /\ forallb SmsFormat.isAlphanumeric
         (SmsFormat.finalSenderId cfg (Some (lit "Wi-Fi Hub & Co"))) = false.
Proof. intros cfg. split; reflexivity. Qed.

(** ** Subscription status *)

Lemma ceilDiv_spec a b :
  0 < b -> b * (Status.ceilDiv a b - 1) < a <= b * Status.ceilDiv a b.
Proof.
  intros Hb. unfold Status.ceilDiv.
  pose proof (Z.div_mod (- a) b ltac:(lia)) as Hdm.
  pose proof (Z.mod_pos_bound (- a) b Hb) as Hbound.
  nia.
Qed.

Lemma daysUntil_spec E N :
  MS_PER_DAY * (Status.daysUntil E N - 1) < E - N
  <= MS_PER_DAY * Status.daysUntil E N.
Proof. apply ceilDiv_spec. reflexivity. Qed.

(** The day count is negative exactly when a full day has passed since the
    expiry instant. *)
Lemma daysUntil_negative E N :
  Status.daysUntil E N < 0 <-> E + MS_PER_DAY <= N.
Proof.
  pose proof (daysUntil_spec E N) as Hs. unfold MS_PER_DAY in *. lia.
Qed.


(** Scenarios 1 and 2 of the specification. *)
Example status_five_days_ago :
  Status.getSubscriptionStatus
    (Scenario.day 2025 11 16) (Scenario.day 2025 11 21)
  = {| Status.status := lit "Expired";
       Status.color := lit "bg-red-100 text-red-800";
       Status.days := 5 |}.
Proof. reflexivity. Qed.

Example status_in_two_days :
  Status.getSubscriptionStatus
    (Scenario.day 2025 11 23) (Scenario.day 2025 11 21)
  = {| Status.status := lit "Expiring Soon";
       Status.color := lit "bg-yellow-100 text-yellow-800";
       Status.days := 2 |}.
Proof. reflexivity. Qed.

(** During the whole of the expiry day the customer is Expiring Soon. *)
Example status_on_expiry_day :
  Status.status
    (Status.getSubscriptionStatus (Scenario.day 2025 11 21) Scenario.today)
  = lit "Expiring Soon".
Proof. reflexivity. Qed.

(** ** Expiry extension *)

Section Extension.

Context {platform : Platform}.

(** C2.  The new expiry is [addMonths] of the later of the current expiry
    and now: when the subscription has not run out it is the current expiry
    plus the months paid, whatever the time of payment, and when it has run
    out it is now plus the months paid. *)
Theorem newExpiry_anchor :
  forall (E N : Date) (m : Z),
    0 < m ->
    PaymentModal.newExpiry E N m = addMonths (Z.max E N) m
    /\ (N <= E -> PaymentModal.newExpiry E N m = addMonths E m)
    /\ (E < N -> PaymentModal.newExpiry E N m = addMonths N m)
    /\ (forall N' : Date,
           N <= E -> N' <= E ->
           PaymentModal.newExpiry E N' m = PaymentModal.newExpiry E N m).
Proof.
  intros E N m _.
  assert (Hmax : forall n, PaymentModal.newExpiry E n m
                           = addMonths (Z.max E n) m).
  { intros n. unfold PaymentModal.newExpiry, PaymentModal.startDate.
    rewrite Z.gtb_ltb. destruct (Z.ltb_spec n E).
    - now rewrite Z.max_l by lia.
    - now rewrite Z.max_r by lia. }
  split; [apply Hmax|]. split; [|split].
  - intros HNE. now rewrite Hmax, Z.max_l by lia.
  - intros HEN. now rewrite Hmax, Z.max_r by lia.
  - intros N' HN HN'. now rewrite !Hmax, !Z.max_l by lia.
Qed.

End Extension.

(** On the reference calendar: a month paid ten days before the expiry of
    30 November moves it to 30 December, and a month added to 31 January
    ends on the last day of February. *)
Lemma newExpiry_anchor_witness :
  0 < 1
  /\ PaymentModal.newExpiry (platform := utcPlatform)
       (Scenario.day 2025 11 30) (Scenario.day 2025 11 20) 1
     = Scenario.day 2025 12 30.
Proof.
  split; [lia|].
  destruct (newExpiry_anchor (platform := utcPlatform)
              (Scenario.day 2025 11 30) (Scenario.day 2025 11 20) 1
              ltac:(lia)) as [_ [Hearly _]].
  rewrite Hearly; [reflexivity | vm_compute; discriminate].
Defined.

Example addMonths_clamps_month_end :
  addMonths (Platform := utcPlatform) (Scenario.day 2025 1 31) 1
  = Scenario.day 2025 2 28
  /\ addMonths (Platform := utcPlatform) (Scenario.day 2024 1 31) 1
     = Scenario.day 2024 2 29.
Proof. split; reflexivity. Qed.

(** ** Names and dates in the templates *)

Lemma trimStart_allWhiteSpace ws s :
  allWhiteSpace ws -> trimStart (ws ++ s) = trimStart s.
Proof.
  induction 1 as [|c ws Hc _ IH]; simpl; [reflexivity|]. now rewrite Hc.
Qed.

Lemma trimStart_blank s : allWhiteSpace s -> trimStart s = [].
Proof.
  intros Hs. rewrite <- (app_nil_r s). now rewrite trimStart_allWhiteSpace.
Qed.

Lemma trimStart_snoc a x :
  trimStart (a ++ [x])
  = match trimStart a with
    | [] => if isWhiteSpace x then [] else [x]
    | t => t ++ [x]
    end.
Proof.
  induction a as [|c a IH]; simpl; [reflexivity|].
  destruct (isWhiteSpace c); [exact IH | reflexivity].
Qed.

Lemma trimEnd_cons x s :
  trimEnd (x :: s)
  = match trimEnd s with
    | [] => if isWhiteSpace x then [] else [x]
    | t => x :: t
    end.
Proof.
  unfold trimEnd. simpl rev. rewrite trimStart_snoc.
  destruct (trimStart (rev s)) as [|c t] eqn:E; simpl.
  - now destruct (isWhiteSpace x).
  - rewrite rev_app_distr. simpl.
    destruct (rev t ++ [c]) eqn:E'; [|reflexivity].
    now destruct (rev t).
Qed.

Lemma trimEnd_token tok rest :
  noWhiteSpace tok -> trimEnd (tok ++ rest) = tok ++ trimEnd rest.
Proof.
  induction 1 as [|c tok Hc _ IH]; simpl; [reflexivity|].
  rewrite trimEnd_cons, IH, Hc. now destruct (tok ++ trimEnd rest).
Qed.

Lemma trimEnd_tokenEnds rest : tokenEnds rest -> tokenEnds (trimEnd rest).
Proof.
  intros [-> | (w & r & -> & Hw)]; [now left|].
  rewrite trimEnd_cons, Hw.
  destruct (trimEnd r) as [|c t]; [now left|].
  right. now exists w, (c :: t).
Qed.

Lemma splitScan_token cur tok rest :
  noWhiteSpace tok -> tokenEnds rest ->
  exists others,
    splitScan false cur (tok ++ rest) = (rev cur ++ tok) :: others.
Proof.
  intros Htok Hrest. revert cur.
  induction Htok as [|c tok Hc _ IH]; intros cur.
  - rewrite app_nil_r. simpl.
    destruct Hrest as [-> | (w & r & -> & Hw)]; simpl.
    + now exists [].
    + rewrite Hw. now exists (splitScan true [] r).
  - simpl. rewrite Hc. destruct (IH (c :: cur)) as [others Ho].
    exists others. rewrite Ho. simpl. now rewrite <- app_assoc.
Qed.

Lemma token_split s :
  exists tok rest, s = tok ++ rest /\ noWhiteSpace tok /\ tokenEnds rest.
Proof.
  induction s as [|c s (tok & rest & -> & Htok & Hrest)].
  - exists [], []. repeat split; [constructor | now left].
  - destruct (isWhiteSpace c) eqn:Hc.
    + exists [], (c :: tok ++ rest). repeat split; [constructor|].
      right. now exists c, (tok ++ rest).
    + exists (c :: tok), rest. repeat split; [|assumption].
      now constructor.
Qed.

Lemma name_shape s :
  allWhiteSpace s
  \/ exists ws c tok rest,
       s = ws ++ c :: tok ++ rest /\ allWhiteSpace ws
       /\ isWhiteSpace c = false /\ noWhiteSpace tok /\ tokenEnds rest.
Proof.
  induction s as [|x s IH]; [left; constructor|].
  destruct (isWhiteSpace x) eqn:Hx.
  - destruct IH as [Hs | (ws & c & tok & rest & -> & Hws & Hc & Htok & Hr)].
    + left. now constructor.
    + right. exists (x :: ws), c, tok, rest. repeat split; try assumption.
      now constructor.
  - right. destruct (token_split s) as (tok & rest & -> & Htok & Hrest).
    exists [], x, tok, rest. repeat split; try assumption. constructor.
Qed.

(** ** Decimal numerals and the case mapping *)

Lemma uint_digits d : decimalDigits (lit (NilEmpty.string_of_uint d)).
Proof.
  unfold decimalDigits, lit.
  induction d; simpl; constructor; try assumption; lia.
Qed.

Lemma uint_value_acc d acc :
  fold_left (fun a c => 10 * a + (Z.of_N c - 48))
    (lit (NilEmpty.string_of_uint d)) (Z.pos acc)
  = Z.pos (Pos.of_uint_acc d acc).
Proof.
  unfold lit. revert acc.
  induction d; intros acc;
    cbn [NilEmpty.string_of_uint list_ascii_of_string map fold_left
         Pos.of_uint_acc];
    [reflexivity | rewrite <- IHd; f_equal; vm_compute N_of_ascii; lia ..].
Qed.

Lemma uint_value d :
  digitsValue (lit (NilEmpty.string_of_uint d)) = Z.of_N (Pos.of_uint d).
Proof.
  unfold digitsValue.
  induction d;
    cbn [NilEmpty.string_of_uint lit list_ascii_of_string map fold_left
         Pos.of_uint];
    [reflexivity | exact IHd | ..];
    (etransitivity; [|apply uint_value_acc]); reflexivity.
Qed.

Lemma to_uint_no_leading_zero p d : Pos.to_uint p <> Decimal.D0 d.
Proof.
  intros E.
  pose proof (DecimalPos.Unsigned.to_of (Pos.to_uint p)) as Hn.
  rewrite DecimalPos.Unsigned.of_to in Hn. simpl N.to_uint in Hn.
  rewrite E in Hn. unfold Decimal.unorm in Hn. simpl Decimal.nzhead in Hn.
  destruct (Decimal.nzhead d) eqn:Ed; try discriminate Hn.
  - injection Hn as ->. now apply (DecimalPos.Unsigned.to_uint_nonzero p).
  - injection Hn as <-. now apply (DecimalFacts.nzhead_nonzero d d).
Qed.

Lemma showZ_pos p :
  showZ (Z.pos p) = lit (NilEmpty.string_of_uint (Pos.to_uint p)).
Proof.
  unfold showZ. simpl Z.to_int.
  unfold NilZero.string_of_int, NilZero.string_of_uint.
  destruct (Pos.to_uint p) eqn:E; try reflexivity.
  now apply DecimalPos.Unsigned.to_uint_nonnil in E.
Qed.

(** A number that is not negative prints as its decimal numeral: digits
    only, of that value, at least one, and no zero in front of another. *)
Lemma showZ_decimal n :
  0 <= n ->
  decimalDigits (showZ n) /\ digitsValue (showZ n) = n /\ showZ n <> []
  /\ (forall rest, showZ n = 48%N :: rest -> n = 0 /\ rest = []).
Proof.
  intros Hn. destruct n as [|p|p]; [| |lia].
  - change (showZ 0) with [48%N]. split; [repeat constructor; lia|].
    split; [reflexivity|]. split; [discriminate|].
    intros rest [= <-]. now split.
  - rewrite showZ_pos. split; [apply uint_digits|].
    split; [rewrite uint_value, DecimalPos.Unsigned.of_to; reflexivity|].
    split.
    + destruct (Pos.to_uint p) eqn:E; try discriminate.
      now apply DecimalPos.Unsigned.to_uint_nonnil in E.
    + intros rest E. exfalso.
      destruct (Pos.to_uint p) eqn:Ep; try discriminate E.
      now apply (to_uint_no_leading_zero p u).
Qed.

Lemma showZ_negative n : n < 0 -> showZ n = lit "-" ++ showZ (- n).
Proof.
  intros Hn. destruct n as [|p|p]; try lia. reflexivity.
Qed.

(** A run of code units that the table maps one to one, checked unit by
    unit. *)
Lemma toUpperCase_run (g : N -> N) (lo : N) (n : nat) :
  forallb (fun k => match UnicodeCase.toUpperCase (lo + N.of_nat k)%N with
                    | [y] => (y =? g (lo + N.of_nat k))%N
                    | _ => false
                    end) (seq 0 n) = true ->
  forall c, (lo <= c < lo + N.of_nat n)%N ->
            UnicodeCase.toUpperCase c = [g c].
Proof.
  intros Hall c Hc. rewrite forallb_forall in Hall.
  specialize (Hall (N.to_nat (c - lo))). rewrite N2Nat.id in Hall.
  replace (lo + (c - lo))%N with c in Hall by lia.
  assert (Hin : In (N.to_nat (c - lo)) (seq 0 n)) by (apply in_seq; lia).
  specialize (Hall Hin).
  destruct (UnicodeCase.toUpperCase c) as [|y [|z rest]];
    try discriminate Hall.
  apply N.eqb_eq in Hall. now subst y.
Qed.

Lemma toUpperCase_ascii c :
  Templates.toUpperCaseUnit (platform := utcPlatform) c
  = UnicodeCase.toUpperCase c.
Proof.
  unfold Templates.toUpperCaseUnit.
  destruct (N.leb_spec 97 c), (N.leb_spec c 122), (N.ltb_spec c 128);
    cbn [andb]; try lia; try reflexivity; symmetry.
  - apply (toUpperCase_run (fun c => c - 32)%N 97 26);
      [vm_compute; reflexivity | lia].
  - apply (toUpperCase_run (fun c => c) 123 5);
      [vm_compute; reflexivity | lia].
  - apply (toUpperCase_run (fun c => c) 0 97);
      [vm_compute; reflexivity | lia].
Qed.

Lemma toUpperCase_latin1 c :
  (224 <= c <= 254)%N -> c <> 247%N ->
  UnicodeCase.toUpperCase c = [(c - 32)%N].
Proof.
  intros Hc Hd. destruct (N.ltb_spec c 247).
  - apply (toUpperCase_run (fun c => c - 32)%N 224 23);
      [vm_compute; reflexivity | lia].
  - apply (toUpperCase_run (fun c => c - 32)%N 248 7);
      [vm_compute; reflexivity | lia].
Qed.

Lemma toUpperCase_latin1_other c :
  (128 <= c <= 222)%N -> c <> 181%N -> UnicodeCase.toUpperCase c = [c].
Proof.
  intros Hc Hd. destruct (N.ltb_spec c 181).
  - apply (toUpperCase_run (fun c => c) 128 53);
      [vm_compute; reflexivity | lia].
  - apply (toUpperCase_run (fun c => c) 182 41);
      [vm_compute; reflexivity | lia].
Qed.

Lemma toUpperCase_surrogate c :
  (55296 <= c <= 57343)%N -> UnicodeCase.toUpperCase c = [c].
Proof.
  intros Hc. apply (toUpperCase_run (fun c => c) 55296 2048);
    [vm_compute; reflexivity | lia].
Qed.

Section Rendering.

Context {platform : Platform}.

Lemma firstName_blank fullName :
  allWhiteSpace fullName -> Templates.firstName fullName = lit "Customer".
Proof.
  intros Hb. unfold Templates.firstName, trim.
  now rewrite (trimStart_blank _ Hb).
Qed.

Lemma firstName_token ws c tok rest :
  allWhiteSpace ws -> isWhiteSpace c = false -> noWhiteSpace tok ->
  tokenEnds rest ->
  Templates.firstName (ws ++ c :: tok ++ rest)
  = Templates.toUpperCaseUnit c ++ tok.
Proof.
  intros Hws Hc Htok Hrest. unfold Templates.firstName, trim.
  rewrite (trimStart_allWhiteSpace ws _ Hws). simpl trimStart. rewrite Hc.
  assert (Hp : noWhiteSpace (c :: tok)) by now constructor.
  change (c :: tok ++ rest) with ((c :: tok) ++ rest).
  rewrite (trimEnd_token _ rest Hp).
  destruct (splitScan_token [] (c :: tok) (trimEnd rest) Hp
              (trimEnd_tokenEnds _ Hrest)) as [others Ho].
  unfold splitWhiteSpace. rewrite Ho. reflexivity.
Qed.

Lemma ordinalSuffix_cases day :
  (Templates.ordinalSuffix day = lit "st"
   <-> day = 1 \/ day = 21 \/ day = 31)
  /\ (Templates.ordinalSuffix day = lit "nd" <-> day = 2 \/ day = 22)
  /\ (Templates.ordinalSuffix day = lit "rd" <-> day = 3 \/ day = 23)
  /\ (Templates.ordinalSuffix day = lit "th"
      <-> ~ In day [1; 21; 31; 2; 22; 3; 23]).
Proof.
  unfold Templates.ordinalSuffix.
  destruct (Z.eqb_spec day 1), (Z.eqb_spec day 21), (Z.eqb_spec day 31),
    (Z.eqb_spec day 2), (Z.eqb_spec day 22), (Z.eqb_spec day 3),
    (Z.eqb_spec day 23); cbn [orb In];
    repeat split; intros; try lia; try reflexivity; try absurd_literal;
    try tauto.
Qed.

(** C7.  A blank name is greeted as Customer; any other name is greeted by
    its first white-space-delimited token with the first code unit in upper
    case, so that [ama serwaa] becomes [Ama]: a letter a-z loses 32, any
    other ASCII unit stays, and a unit beyond ASCII gets the upper-case
    form of the platform, which on the reference platform is that of the
    Unicode tables, so that [e-acute lan] becomes [E-acute lan], [sharp-s
    eta] becomes [SSeta] and a lone surrogate stays.  A date is rendered as
    day number, ordinal suffix, space, full month name, comma, space and
    year, the suffix being st for 1, 21 and 31, nd for 2 and 22, rd for 3
    and 23, and th for every other day; the day number and the year are
    printed as decimal numerals, digits only and of that value, without a
    zero in front, a negative year with a minus sign. *)
Theorem firstName_and_toOrdinalDate :
  (forall fullName,
      allWhiteSpace fullName -> Templates.firstName fullName = lit "Customer")
  /\ (forall ws c tok rest,
         allWhiteSpace ws -> isWhiteSpace c = false -> noWhiteSpace tok ->
         tokenEnds rest ->
         Templates.firstName (ws ++ c :: tok ++ rest)
         = Templates.toUpperCaseUnit c ++ tok)
  /\ (forall fullName,
         allWhiteSpace fullName
         \/ exists ws c tok rest,
              fullName = ws ++ c :: tok ++ rest /\ allWhiteSpace ws
              /\ isWhiteSpace c = false /\ noWhiteSpace tok
              /\ tokenEnds rest)
  /\ (forall c, (97 <= c <= 122)%N ->
                Templates.toUpperCaseUnit c = [(c - 32)%N])
  /\ (forall c, (c < 97 \/ 122 < c < 128)%N ->
                Templates.toUpperCaseUnit c = [c])
  /\ (forall c, (128 <= c)%N ->
                Templates.toUpperCaseUnit c = upperNonAscii c)
  /\ Templates.firstName (lit "ama serwaa") = lit "Ama"
  /\ (forall c, Templates.toUpperCaseUnit (platform := utcPlatform) c
                = UnicodeCase.toUpperCase c)
  /\ (forall c, (224 <= c <= 254)%N -> c <> 247%N ->
                UnicodeCase.toUpperCase c = [(c - 32)%N])
  /\ (forall c, (128 <= c <= 222)%N -> c <> 181%N ->
                UnicodeCase.toUpperCase c = [c])
  /\ UnicodeCase.toUpperCase 181%N = [924%N]
  /\ UnicodeCase.toUpperCase 223%N = lit "SS"
  /\ UnicodeCase.toUpperCase 247%N = [247%N]
  /\ UnicodeCase.toUpperCase 255%N = [376%N]
  /\ (forall c, (55296 <= c <= 57343)%N -> UnicodeCase.toUpperCase c = [c])
  /\ map (Templates.firstName (platform := utcPlatform))
         [[233%N] ++ lit "lan mensah"; [223%N] ++ lit "eta";
          [241%N] ++ lit "ana"; lit "  " ++ [1086; 1083; 1100; 1075; 1072]%N;
          [55297; 56360]%N ++ lit "x y"]
     = [[201%N] ++ lit "lan"; lit "SSeta"; [209%N] ++ lit "ana";
        [1054; 1083; 1100; 1075; 1072]%N; [55297; 56360]%N ++ lit "x"]
  /\ (forall date,
         Templates.toOrdinalDate date
         = showZ (getDate date) ++ Templates.ordinalSuffix (getDate date)
           ++ lit " " ++ Templates.monthLong (getMonth date) ++ lit ", "
           ++ showZ (getFullYear date))
  /\ (forall n,
         0 <= n ->
         decimalDigits (showZ n) /\ digitsValue (showZ n) = n
         /\ showZ n <> []
         /\ (forall rest, showZ n = 48%N :: rest -> n = 0 /\ rest = []))
  /\ (forall n, n < 0 -> showZ n = lit "-" ++ showZ (- n))
  /\ (forall day,
         (Templates.ordinalSuffix day = lit "st"
          <-> day = 1 \/ day = 21 \/ day = 31)
         /\ (Templates.ordinalSuffix day = lit "nd" <-> day = 2 \/ day = 22)
         /\ (Templates.ordinalSuffix day = lit "rd" <-> day = 3 \/ day = 23)
         /\ (Templates.ordinalSuffix day = lit "th"
             <-> ~ In day [1; 21; 31; 2; 22; 3; 23]))
  /\ map Templates.monthLong [0; 1; 2; 3; 4; 5; 6; 7; 8; 9; 10; 11]
     = map lit ["January"; "February"; "March"; "April"; "May"; "June";
                "July"; "August"; "September"; "October"; "November";
                "December"]%string
  /\ map (Templates.toOrdinalDate (platform := utcPlatform))
         [Scenario.day 2025 11 1; Scenario.day 2025 11 2;
          Scenario.day 2025 11 3; Scenario.day 2025 11 4;
          Scenario.day 2025 11 11; Scenario.day 2025 11 12;
          Scenario.day 2025 11 13; Scenario.day 2025 11 21;
          Scenario.day 2025 11 22; Scenario.day 2025 11 23;
          Scenario.day 2024 2 29; Scenario.day 2025 12 31;
          Scenario.today]
     = map lit ["1st November, 2025"; "2nd November, 2025";
                "3rd November, 2025"; "4th November, 2025";
                "11th November, 2025"; "12th November, 2025";
                "13th November, 2025"; "21st November, 2025";
                "22nd November, 2025"; "23rd November, 2025";
                "29th February, 2024"; "31st December, 2025";
                "21st November, 2025"]%string.
Proof.
  split; [exact firstName_blank|].
  split; [exact firstName_token|].
  split; [exact name_shape|].
  split.
  { intros c Hc. unfold Templates.toUpperCaseUnit.
    destruct (N.leb_spec 97 c), (N.leb_spec c 122); simpl; try lia.
    reflexivity. }
  split.
  { intros c Hc. unfold Templates.toUpperCaseUnit.
    destruct (N.leb_spec 97 c), (N.leb_spec c 122), (N.ltb_spec c 128);
      simpl; try lia; reflexivity. }
  split.
  { intros c Hc. unfold Templates.toUpperCaseUnit.
    destruct (N.leb_spec 97 c), (N.leb_spec c 122), (N.ltb_spec c 128);
      simpl; try lia; reflexivity. }
  split; [reflexivity|].
  split; [exact toUpperCase_ascii|].
  split; [exact toUpperCase_latin1|].
  split; [exact toUpperCase_latin1_other|].
  split; [reflexivity|].
  split; [reflexivity|].
  split; [reflexivity|].
  split; [reflexivity|].
  split; [exact toUpperCase_surrogate|].
  split; [vm_compute; reflexivity|].
  split; [reflexivity|].
  split; [exact showZ_decimal|].
  split; [exact showZ_negative|].
  split; [exact ordinalSuffix_cases|].
  split; [reflexivity|].
  vm_compute; reflexivity.
Qed.

End Rendering.

(** Scenario 6 of the specification, on the reference calendar. *)
Example expiring_for_ama_serwaa :
  Templates.templateExpiring (platform := utcPlatform) (lit "ama serwaa") 1
    (Scenario.day 2025 11 22) None
  = lit "Qaretech Innovative: " ++ [9200%N]
    ++ lit " Hi Ama, your subscription ends in 1 day on 22nd November, 2025. Renew now: call 0241234567 or WhatsApp 0241234567. Reply RENEW and we'll call you back.".
Proof. reflexivity. Qed.

(** ** The Expiring template *)

Section Expiring.

Context {platform : Platform}.

(** C8.  Called with a day count of zero or less, the Expiring renderer
    returns what the Expired renderer returns for the absolute value of the
    count and the same name, date and vendor; called with a positive count
    it renders the days-remaining message, with [day] for one day and
    [days] for more. *)
Theorem templateExpiring_cases :
  forall (fullName : jsstring) (daysLeft : Z) (endDate : Date)
         (vendor : option Templates.VendorData),
    (daysLeft <= 0 ->
     Templates.templateExpiring fullName daysLeft endDate vendor
     = Templates.templateExpired fullName (Z.abs daysLeft) endDate vendor)
    /\ (0 < daysLeft ->
        Templates.templateExpiring fullName daysLeft endDate vendor
        = Templates.withSlogan vendor
            (Templates.business vendor ++ lit ": " ++ [9200%N] ++ lit " Hi "
             ++ Templates.firstName fullName
             ++ lit ", your subscription ends in " ++ showZ daysLeft
             ++ lit " " ++ (if daysLeft =? 1 then lit "day" else lit "days")
             ++ lit " on " ++ Templates.toOrdinalDate endDate
             ++ lit ". Renew now: call " ++ Templates.phone vendor
             ++ lit " or WhatsApp " ++ Templates.whatsapp vendor
             ++ lit ". Reply RENEW and we'll call you back.")).
Proof.
  intros fullName daysLeft endDate vendor.
  unfold Templates.templateExpiring. cbv zeta. split; intros Hd.
  - destruct (Z.leb_spec daysLeft 0); [reflexivity | lia].
  - destruct (Z.leb_spec daysLeft 0); [lia|].
    unfold Templates.dayWord. rewrite Z.gtb_ltb.
    destruct (Z.ltb_spec 1 daysLeft), (Z.eqb_spec daysLeft 1);
      try lia; reflexivity.
Qed.

End Expiring.

(** ** Running the handlers *)

Section Sending.

Context {platform : Platform} {backend : Backend}.

Variable vendor : option Vendor.t.

Lemma posting_nil w : posting [] w = w.
Proof. destruct w. unfold posting. simpl. now rewrite app_nil_r. Qed.

Lemma tryCatch_rethrow (m : Action unit) w :
  tryCatch m (fun e => throw e) w = m w.
Proof. unfold tryCatch, throw. now destruct (m w) as [[[]|e] w']. Qed.

(** What [sendSMS] does: without an API key it throws and posts nothing;
    with one it posts the request and throws unless the gateway accepts. *)
Lemma sendSMS_world to msg w :
  snd (sendSMS to msg (vendorName vendor) w)
  = posting (if configured then [requestFor vendor to msg] else []) w.
Proof.
  unfold sendSMS, configured, requestFor, tryCatch, throw.
  destruct (SmsFormat.apiKey arkeselConfig); simpl.
  - now rewrite posting_nil.
  - destruct (arkesel w _) as [reason | ok status accepts providerMsg];
      [reflexivity|].
    now destruct (negb ok || negb accepts).
Qed.

Lemma sendSMS_threw to msg w :
  threw (fst (sendSMS to msg (vendorName vendor) w))
  = negb (configured && accepted (arkesel w (requestFor vendor to msg))).
Proof.
  unfold sendSMS, configured, requestFor, tryCatch, throw.
  destruct (SmsFormat.apiKey arkeselConfig); simpl; [reflexivity|].
  destruct (arkesel w _) as [reason | [] status [] providerMsg];
    reflexivity.
Qed.

End Sending.

Section Payments.

Context {platform : Platform} {backend : Backend}.

Variable user : option User.t.
Variable vendor : option Vendor.t.

Lemma notifications_world customer formData now wasExpired w :
  snd (PaymentModal.notifications vendor customer formData
         (paidUntil customer formData now) wasExpired w)
  = posting
      (if configured then
         confirmation vendor customer formData now
         :: (if wasExpired
                && accepted (arkesel w (confirmation vendor customer formData now))
             then [activation vendor customer formData now] else [])
       else []) w.
Proof.
  unfold PaymentModal.notifications, PaymentModal.sendPaymentConfirmationSMS,
    PaymentModal.sendServiceActivationSMS, bind.
  cbv zeta. rewrite tryCatch_rethrow.
  fold (confirmation vendor customer formData now).
  pose proof (sendSMS_world vendor (Customer.phone customer)
                (Templates.templatePaymentConfirmation
                   (Customer.name customer)
                   (PaymentModal.amount formData
                    * PaymentModal.months_paid formData)
                   (paidUntil customer formData now) (vendorData vendor)) w)
    as Hw.
  pose proof (sendSMS_threw vendor (Customer.phone customer)
                (Templates.templatePaymentConfirmation
                   (Customer.name customer)
                   (PaymentModal.amount formData
                    * PaymentModal.months_paid formData)
                   (paidUntil customer formData now) (vendorData vendor)) w)
    as Ht.
  fold (confirmation vendor customer formData now) in Hw, Ht.
  destruct (sendSMS _ _ _ w) as [[[]|e] w1]; simpl in Hw, Ht; subst w1.
  - symmetry in Ht. apply negb_false_iff, andb_true_iff in Ht.
    destruct Ht as [Hc Ha]. rewrite Hc, Ha, andb_true_r.
    destruct wasExpired.
    + rewrite tryCatch_rethrow, sendSMS_world, Hc.
      fold (activation vendor customer formData now).
      unfold posting. simpl. now rewrite <- app_assoc.
    + reflexivity.
  - symmetry in Ht. apply negb_true_iff in Ht. simpl.
    destruct configured; [|reflexivity].
    simpl in Ht. rewrite Ht, andb_false_r. reflexivity.
Qed.

Lemma notify_run customer formData newExpiry wasExpired w :
  PaymentModal.notify vendor customer formData newExpiry wasExpired w
  = (Normal tt,
     if threw (fst (PaymentModal.notifications vendor customer formData
                      newExpiry wasExpired w))
     then pushAlert PaymentModal.smsWarning
            (snd (PaymentModal.notifications vendor customer formData
                    newExpiry wasExpired w))
     else snd (PaymentModal.notifications vendor customer formData
                 newExpiry wasExpired w)).
Proof.
  unfold PaymentModal.notify, tryCatch.
  now destruct (PaymentModal.notifications _ _ _ _ _ w) as [[[]|e] w'].
Qed.

(** A submission whose two writes succeed ends normally, in the committed
    world plus what the notifications did to it. *)
Lemma payment_handleSubmit_run customer formData now w :
  insertPaymentError (entered w)
    (PaymentModal.paymentData user customer formData) = None ->
  updateCustomerError
    (recorded (PaymentModal.paymentData user customer formData) (entered w))
    (Customer.id customer) = None ->
  PaymentModal.handleSubmit user vendor customer formData now w
  = (Normal tt,
     withIsLoading false
       (countClose
          (countSave
             (snd (PaymentModal.notify vendor customer formData
                     (paidUntil customer formData now)
                     (lapsed customer now)
                     (committed user customer formData now w)))))).
Proof.
  intros Hins Hupd.
  unfold PaymentModal.handleSubmit, bind, tryFinally, tryCatch, setIsLoading,
    setError, modify, insertPayment, updateCustomerExpiry, onSave, onClose.
  cbv zeta. fold (entered w). rewrite Hins.
  fold (recorded (PaymentModal.paymentData user customer formData) (entered w)).
  rewrite Hupd.
  fold (renewed (Customer.id customer)
          (isoDate (PaymentModal.newExpiry (Customer.expiry_date customer) now
                      (PaymentModal.months_paid formData))) now
          (recorded (PaymentModal.paymentData user customer formData)
             (entered w))).
  fold (paidUntil customer formData now).
  fold (committed user customer formData now w).
  fold (lapsed customer now).
  rewrite notify_run. reflexivity.
Qed.

(** The payment half of failure isolation. *)
Lemma payment_survives_sms_failure customer formData now w :
  insertPaymentError (entered w)
    (PaymentModal.paymentData user customer formData) = None ->
  updateCustomerError
    (recorded (PaymentModal.paymentData user customer formData) (entered w))
    (Customer.id customer) = None ->
  fst (PaymentModal.handleSubmit user vendor customer formData now w)
  = Normal tt
  /\ payments (snd (PaymentModal.handleSubmit user vendor customer formData
                      now w))
     = payments w ++ [PaymentModal.paymentData user customer formData]
  /\ customers (snd (PaymentModal.handleSubmit user vendor customer formData
                       now w))
     = map (fun c => if hasId (Customer.id customer) c
                     then withExpiry
                            (isoDate (paidUntil customer formData now)) now c
                     else c) (customers w)
  /\ error (snd (PaymentModal.handleSubmit user vendor customer formData
                   now w)) = []
  /\ saved (snd (PaymentModal.handleSubmit user vendor customer formData
                   now w)) = S (saved w)
  /\ closed (snd (PaymentModal.handleSubmit user vendor customer formData
                    now w)) = S (closed w)
  /\ alerts (snd (PaymentModal.handleSubmit user vendor customer formData
                    now w))
     = alerts w
       ++ (if threw (fst (PaymentModal.notifications vendor customer formData
                            (paidUntil customer formData now)
                            (lapsed customer now)
                            (committed user customer formData now w)))
           then [PaymentModal.smsWarning] else []).
Proof.
  intros Hins Hupd.
  rewrite (payment_handleSubmit_run customer formData now w Hins Hupd).
  rewrite notify_run. cbn [fst snd].
  rewrite notifications_world.
  destruct (threw _); cbn; rewrite ?app_nil_r; repeat split; reflexivity.
Qed.

(** What a payment posts to the gateway. *)
Lemma payment_outbox customer formData now w :
  insertPaymentError (entered w)
    (PaymentModal.paymentData user customer formData) = None ->
  updateCustomerError
    (recorded (PaymentModal.paymentData user customer formData) (entered w))
    (Customer.id customer) = None ->
  outbox (snd (PaymentModal.handleSubmit user vendor customer formData now w))
  = outbox w
    ++ (if configured then
          confirmation vendor customer formData now
          :: (if lapsed customer now
                 && accepted (arkesel (committed user customer formData now w)
                                (confirmation vendor customer formData now))
              then [activation vendor customer formData now] else [])
        else []).
Proof.
  intros Hins Hupd.
  rewrite (payment_handleSubmit_run customer formData now w Hins Hupd).
  rewrite notify_run. cbn [fst snd].
  rewrite notifications_world.
  now destruct (threw _).
Qed.

End Payments.

Section Customers.

Context {platform : Platform} {backend : Backend}.

Variable user : option User.t.
Variable vendor : option Vendor.t.

Lemma sendWelcomeMessageSMS_world customerData endDate w :
  snd (CustomerModal.sendWelcomeMessageSMS vendor customerData endDate w)
  = posting
      (if configured then
         [requestFor vendor (Customer.phone customerData)
            (Templates.templateWelcome (Customer.name customerData) endDate
               (vendorData vendor))]
       else []) w.
Proof.
  unfold CustomerModal.sendWelcomeMessageSMS. cbv zeta.
  rewrite tryCatch_rethrow. apply sendSMS_world.
Qed.

(** The customer half of failure isolation. *)
Lemma customer_survives_sms_failure formData w :
  insertCustomerError (entered w) (CustomerModal.customerData user formData)
  = None ->
  fst (CustomerModal.handleSubmit user vendor None formData w) = Normal tt
  /\ customers (snd (CustomerModal.handleSubmit user vendor None formData w))
     = customers w ++ [CustomerModal.customerData user formData]
  /\ payments (snd (CustomerModal.handleSubmit user vendor None formData w))
     = payments w
  /\ error (snd (CustomerModal.handleSubmit user vendor None formData w)) = []
  /\ saved (snd (CustomerModal.handleSubmit user vendor None formData w))
     = S (saved w)
  /\ closed (snd (CustomerModal.handleSubmit user vendor None formData w))
     = S (closed w)
  /\ alerts (snd (CustomerModal.handleSubmit user vendor None formData w))
     = alerts w
       ++ (if threw (fst (CustomerModal.sendWelcomeMessageSMS vendor
                            (CustomerModal.customerData user formData)
                            (CustomerModal.expiryDate formData)
                            (created (CustomerModal.customerData user formData)
                               (entered w))))
           then [CustomerModal.smsWarning] else []).
Proof.
  intros Hins.
  unfold CustomerModal.handleSubmit, bind, tryFinally, tryCatch, setIsLoading,
    setError, modify, insertCustomer, onSave, onClose, alert.
  cbv zeta. fold (entered w). rewrite Hins.
  fold (created (CustomerModal.customerData user formData) (entered w)).
  pose proof (sendWelcomeMessageSMS_world
                (CustomerModal.customerData user formData)
                (CustomerModal.expiryDate formData)
                (created (CustomerModal.customerData user formData)
                   (entered w))) as Hw.
  destruct (CustomerModal.sendWelcomeMessageSMS _ _ _ _) as [[[]|e] w1];
    simpl in Hw; subst w1; cbn; rewrite ?app_nil_r;
    repeat split; reflexivity.
Qed.

End Customers.

(** C6.  When the gateway fails, neither handler undoes what it has
    written.  A payment whose two writes succeeded ends normally with its
    row in the payments table and the new expiry on the customer, and a
    customer whose insert succeeded ends normally with its row in the
    customers table; in both cases [error] stays empty, [onSave] and
    [onClose] run, and the only trace of a failed send is one [alert]. *)
Theorem sms_failure_does_not_roll_back :
  forall (platform : Platform) (backend : Backend) (user : option User.t)
         (vendor : option Vendor.t) (w : World),
    (forall (customer : Customer.t) (formData : PaymentModal.FormData)
            (now : Date),
        insertPaymentError (entered w)
          (PaymentModal.paymentData user customer formData) = None ->
        updateCustomerError
          (recorded (PaymentModal.paymentData user customer formData)
             (entered w))
          (Customer.id customer) = None ->
        fst (PaymentModal.handleSubmit user vendor customer formData now w)
        = Normal tt
        /\ payments (snd (PaymentModal.handleSubmit user vendor customer
                            formData now w))
           = payments w ++ [PaymentModal.paymentData user customer formData]
        /\ customers (snd (PaymentModal.handleSubmit user vendor customer
                             formData now w))
           = map (fun c => if hasId (Customer.id customer) c
                           then withExpiry
                                  (isoDate (paidUntil customer formData now))
                                  now c
                           else c) (customers w)
        /\ error (snd (PaymentModal.handleSubmit user vendor customer
                         formData now w)) = []
        /\ saved (snd (PaymentModal.handleSubmit user vendor customer
                         formData now w)) = S (saved w)
        /\ closed (snd (PaymentModal.handleSubmit user vendor customer
                          formData now w)) = S (closed w)
        /\ alerts (snd (PaymentModal.handleSubmit user vendor customer
                          formData now w))
           = alerts w
             ++ (if threw (fst (PaymentModal.notifications vendor customer
                                  formData (paidUntil customer formData now)
                                  (lapsed customer now)
                                  (committed user customer formData now w)))
                 then [PaymentModal.smsWarning] else []))
    /\ (forall formData : CustomerModal.FormData,
           insertCustomerError (entered w)
             (CustomerModal.customerData user formData) = None ->
           fst (CustomerModal.handleSubmit user vendor None formData w)
           = Normal tt
           /\ customers (snd (CustomerModal.handleSubmit user vendor None
                                formData w))
              = customers w ++ [CustomerModal.customerData user formData]
           /\ payments (snd (CustomerModal.handleSubmit user vendor None
                               formData w)) = payments w
           /\ error (snd (CustomerModal.handleSubmit user vendor None
                            formData w)) = []
           /\ saved (snd (CustomerModal.handleSubmit user vendor None
                            formData w)) = S (saved w)
           /\ closed (snd (CustomerModal.handleSubmit user vendor None
                             formData w)) = S (closed w)
           /\ alerts (snd (CustomerModal.handleSubmit user vendor None
                             formData w))
              = alerts w
                ++ (if threw
                         (fst (CustomerModal.sendWelcomeMessageSMS vendor
                                 (CustomerModal.customerData user formData)
                                 (CustomerModal.expiryDate formData)
                                 (created
                                    (CustomerModal.customerData user formData)
                                    (entered w))))
                    then [CustomerModal.smsWarning] else [])).
Proof.
  intros platform backend user vendor w. split.
  - intros customer formData now. apply payment_survives_sms_failure.
  - intros formData. apply customer_survives_sms_failure.
Qed.

(** ** Which notifications a payment sends *)




Example activation_posted_when_gateway_accepts :
  posted
    (Templates.templateActivation (platform := utcPlatform)
       (Customer.name Scenario.kofi)
       (PaymentModal.newExpiry (platform := utcPlatform)
          (Customer.expiry_date Scenario.kofi) Scenario.today 1)
       None)
    (snd Scenario.acceptedPayment) = true.
Proof. reflexivity. Qed.

(** ** Amounts *)











Lemma sms_failure_does_not_roll_back_witness :
  (insertPaymentError (Backend := Scenario.backend [Scenario.kofiNumber])
     (entered (Scenario.world [Scenario.ama; Scenario.kofi; Scenario.esi]))
     (PaymentModal.paymentData (Some Scenario.staff) Scenario.kofi
        (Scenario.oneMonth Scenario.kofi)) = None
   /\ payments (snd Scenario.refusedPayment)
      = [PaymentModal.paymentData (Some Scenario.staff) Scenario.kofi
           (Scenario.oneMonth Scenario.kofi)]
   /\ error (snd Scenario.refusedPayment) = []
   /\ alerts (snd Scenario.refusedPayment) = [PaymentModal.smsWarning])
  /\ (insertCustomerError (Backend := Scenario.backend [lit "233209998888"])
        (entered (Scenario.world [Scenario.ama]))
        (CustomerModal.customerData (platform := utcPlatform)
           (Some Scenario.staff) Scenario.newCustomerForm) = None
      /\ customers
           (snd (CustomerModal.handleSubmit (platform := utcPlatform)
                   (backend := Scenario.backend [lit "233209998888"])
                   (Some Scenario.staff) None None Scenario.newCustomerForm
                   (Scenario.world [Scenario.ama])))
         = [Scenario.ama;
            CustomerModal.customerData (platform := utcPlatform)
              (Some Scenario.staff) Scenario.newCustomerForm]
      /\ alerts
           (snd (CustomerModal.handleSubmit (platform := utcPlatform)
                   (backend := Scenario.backend [lit "233209998888"])
                   (Some Scenario.staff) None None Scenario.newCustomerForm
                   (Scenario.world [Scenario.ama])))
         = [CustomerModal.smsWarning]).
Proof.
  split.
  - destruct (sms_failure_does_not_roll_back utcPlatform
                (Scenario.backend [Scenario.kofiNumber])
                (Some Scenario.staff) None
                (Scenario.world [Scenario.ama; Scenario.kofi; Scenario.esi]))
      as [Hpayment _].
    destruct (Hpayment Scenario.kofi (Scenario.oneMonth Scenario.kofi)
                Scenario.today eq_refl eq_refl)
      as (_ & Hpay & _ & Herr & _ & _ & Halert).
    split; [reflexivity|]. split; [exact Hpay|]. split; [exact Herr|].
    unfold Scenario.refusedPayment. rewrite Halert. reflexivity.
  - destruct (sms_failure_does_not_roll_back utcPlatform
                (Scenario.backend [lit "233209998888"])
                (Some Scenario.staff) None (Scenario.world [Scenario.ama]))
      as [_ Hcustomer].
    destruct (Hcustomer Scenario.newCustomerForm eq_refl)
      as (_ & Hrows & _ & _ & _ & _ & Halert).
    split; [reflexivity|]. split; [exact Hrows|].
    rewrite Halert. reflexivity.
Defined.

(** ** Reminders *)

Section Reminders.

Context {platform : Platform} {backend : Backend}.

Variable vendor : option Vendor.t.

Lemma posting_posting l1 l2 w : posting l2 (posting l1 w) = posting (l1 ++ l2) w.
Proof. unfold posting. simpl. now rewrite app_assoc. Qed.

(** The bulk loop never throws, touches nothing but the outbox, and counts
    every recipient once, with one error entry per failure. *)
Lemma sendEach_run formData now details tally w :
  exists t l,
    SMSModal.sendEach vendor formData now details tally w
    = (Normal t, posting l w)
    /\ (SMSModal.successful t + SMSModal.failed t
        = SMSModal.successful tally + SMSModal.failed tally
          + List.length details)%nat
    /\ (List.length (SMSModal.errors t) + SMSModal.failed tally
        = List.length (SMSModal.errors tally) + SMSModal.failed t)%nat.
Proof.
  revert tally w.
  induction details as [|customer rest IH]; intros tally w.
  - exists tally, []. simpl. unfold ret. rewrite posting_nil.
    split; [reflexivity|]. split; lia.
  - cbn [SMSModal.sendEach]. unfold bind at 1, tryCatch, bind at 1, ret.
    pose proof (sendSMS_world vendor (Customer.phone customer)
                  (SMSModal.personalizedMessage vendor formData customer now)
                  w) as Hw.
    destruct (sendSMS _ _ _ w) as [[[]|e] w1]; simpl in Hw; subst w1.
    + destruct (IH {| SMSModal.successful := S (SMSModal.successful tally);
                      SMSModal.failed := SMSModal.failed tally;
                      SMSModal.errors := SMSModal.errors tally |}
                  (posting (if configured
                            then [requestFor vendor (Customer.phone customer)
                                    (SMSModal.personalizedMessage vendor
                                       formData customer now)]
                            else []) w))
        as (t & l & Hrun & Hcount & Herrs).
      exists t, ((if configured
                  then [requestFor vendor (Customer.phone customer)
                          (SMSModal.personalizedMessage vendor formData
                             customer now)]
                  else []) ++ l).
      rewrite Hrun, posting_posting. simpl in Hcount, Herrs.
      split; [reflexivity|]. simpl List.length. split; lia.
    + destruct (IH {| SMSModal.successful := SMSModal.successful tally;
                      SMSModal.failed := S (SMSModal.failed tally);
                      SMSModal.errors :=
                        SMSModal.errors tally
                        ++ [Customer.name customer ++ lit ": " ++ e] |}
                  (posting (if configured
                            then [requestFor vendor (Customer.phone customer)
                                    (SMSModal.personalizedMessage vendor
                                       formData customer now)]
                            else []) w))
        as (t & l & Hrun & Hcount & Herrs).
      exists t, ((if configured
                  then [requestFor vendor (Customer.phone customer)
                          (SMSModal.personalizedMessage vendor formData
                             customer now)]
                  else []) ++ l).
      rewrite Hrun, posting_posting. simpl in Hcount, Herrs.
      rewrite length_app in Herrs. simpl in Herrs.
      split; [reflexivity|]. simpl List.length. split; lia.
Qed.

(** One failed send adds the entry [<name>: <reason>] and nothing else. *)
Lemma sendEach_failure formData now customer tally w e :
  fst (sendSMS (Customer.phone customer)
         (SMSModal.personalizedMessage vendor formData customer now)
         (vendorName vendor) w) = Thrown e ->
  fst (SMSModal.sendEach vendor formData now [customer] tally w)
  = Normal {| SMSModal.successful := SMSModal.successful tally;
              SMSModal.failed := S (SMSModal.failed tally);
              SMSModal.errors :=
                SMSModal.errors tally
                ++ [Customer.name customer ++ lit ": " ++ e] |}.
Proof.
  intros Hthrown. cbn [SMSModal.sendEach].
  unfold bind at 1, tryCatch, bind at 1, ret.
  destruct (sendSMS _ _ _ w) as [[[]|e'] w1]; simpl in Hthrown;
    [discriminate|].
  injection Hthrown as ->. reflexivity.
Qed.

Lemma filter_idIn_nil loaded : filter (idIn []) loaded = [].
Proof.
  induction loaded as [|c loaded IH]; [reflexivity|]. simpl.
  unfold idIn at 1. now destruct (Customer.id c).
Qed.

(** After a bulk send the timestamp is written on every selected row,
    whatever the gateway answered for it. *)
Lemma bulk_send_marks_every_selected loaded selected formData now w :
  (2 <= List.length (filter (idIn selected) loaded))%nat ->
  (forall w', reminderUpdateFails w' = false) ->
  customers (snd (SMSModal.handleSubmit vendor loaded selected formData now w))
  = customers (reminded (idIn selected) now w).
Proof.
  intros Hmany Hdb. unfold SMSModal.handleSubmit.
  destruct selected as [|s0 selected];
    [rewrite filter_idIn_nil in Hmany; simpl in Hmany; lia|].
  destruct (filter (idIn (s0 :: selected)) loaded) as [|c1 [|c2 others]] eqn:Ef;
    simpl in Hmany; try lia.
  unfold bind, tryFinally, tryCatch, setIsLoading, setResult, modify,
    updateReminderWhere.
  destruct (sendEach_run formData now (c1 :: c2 :: others)
              {| SMSModal.successful := 0; SMSModal.failed := 0;
                 SMSModal.errors := [] |}
              (withResult None (withIsLoading true w)))
    as (t & l & Hrun & _).
  rewrite Hrun, Hdb. reflexivity.
Qed.

(** The quick reminder of the dashboard writes no timestamp when its send
    throws. *)
Lemma quick_reminder_refused_writes_nothing customer now w e :
  (forall msg,
      fst (sendSMS (Customer.phone customer) msg (vendorName vendor) w)
      = Thrown e) ->
  customers (snd (Dashboard.handleQuickSMSReminder vendor customer now w))
  = customers w.
Proof.
  intros Hthrown.
  unfold Dashboard.handleQuickSMSReminder, tryCatch, bind, alert, modify.
  cbv zeta.
  match goal with
  | |- context [sendSMS ?to ?msg ?sid w] =>
      pose proof (Hthrown msg) as Hf;
      pose proof (sendSMS_world vendor to msg w) as Hw
  end.
  destruct (sendSMS _ _ _ w) as [[[]|e'] w1]; simpl in Hf, Hw;
    [discriminate|].
  subst w1. reflexivity.
Qed.

(** So does the branch of [SMSModal.handleSubmit] for a single selected
    customer: the throw skips the update. *)
Lemma single_send_failure_writes_nothing loaded s0 selected formData now w
  customer e :
  filter (idIn (s0 :: selected)) loaded = [customer] ->
  fst (sendSMS (Customer.phone customer)
         (SMSModal.personalizedMessage vendor formData customer now)
         (vendorName vendor) (withResult None (withIsLoading true w)))
  = Thrown e ->
  customers (snd (SMSModal.handleSubmit vendor loaded (s0 :: selected)
                    formData now w))
  = customers w
  /\ result (snd (SMSModal.handleSubmit vendor loaded (s0 :: selected)
                    formData now w))
     = Some (false, e).
Proof.
  intros Hone Hthrown. unfold SMSModal.handleSubmit. rewrite Hone.
  unfold bind, tryFinally, tryCatch, setIsLoading, setResult, modify.
  pose proof (sendSMS_world vendor (Customer.phone customer)
                (SMSModal.personalizedMessage vendor formData customer now)
                (withResult None (withIsLoading true w))) as Hw.
  destruct (sendSMS _ _ _ _) as [[[]|e'] w1]; simpl in Hthrown, Hw;
    [discriminate|].
  injection Hthrown as ->. subst w1. split; reflexivity.
Qed.

End Reminders.

(** C3.  A sweep over Ama, Kofi and Esi in which the gateway refuses Kofi:
    the result reports two successes and one failure with the entry
    [Kofi Mensah: <reason>], three requests were posted, and the
    [last_reminder_sent] of all three rows is now, Kofi's included, although
    the quick reminder on the same refusal leaves his row as it was. *)
Theorem bulk_reminder_marks_failed_recipient :
  fst Scenario.sweep = Normal tt
  /\ result (snd Scenario.sweep)
     = Some (true,
             lit "Personalized SMS sent to 2 customer(s). 1 failed: Kofi Mensah: Arkesel rejected/failed: Invalid phone number (HTTP 422)")
  /\ List.length (outbox (snd Scenario.sweep)) = 3%nat
  /\ map (fun c => (Customer.name c, Customer.last_reminder_sent c))
       (customers (snd Scenario.sweep))
     = [(lit "ama serwaa", Some Scenario.today);
        (lit "Kofi Mensah", Some Scenario.today);
        (lit "Esi Badu", Some Scenario.today)]
  /\ map Customer.last_reminder_sent
       (customers
          (snd (Dashboard.handleQuickSMSReminder (platform := utcPlatform)
                  (backend := Scenario.backend [Scenario.kofiNumber]) None
                  Scenario.kofi Scenario.today
                  (Scenario.world
                     [Scenario.ama; Scenario.kofi; Scenario.esi]))))
     = [None; None; None].
Proof. repeat split; vm_compute; reflexivity. Qed.

(* ===================================================================== *)
(** * Further properties of the same files *)
(* ===================================================================== *)

(** ** Formatting for the gateway *)

Lemma startsWith_length s p :
  startsWith s p = true -> (List.length p <= List.length s)%nat.
Proof.
  revert s. induction p as [|a p IH]; intros [|c s] Hp; simpl in *;
    try lia; try discriminate.
  apply andb_true_iff in Hp. destruct Hp as [_ Hp]. apply IH in Hp. lia.
Qed.

Lemma removeWhiteSpace_length s :
  (List.length (removeWhiteSpace s) <= List.length s)%nat.
Proof. unfold removeWhiteSpace. apply filter_length_le. Qed.

Lemma removeLeadingPlus_length s :
  (List.length (removeLeadingPlus s) <= List.length s)%nat.
Proof.
  destruct s as [|c s]; simpl; [lia|]. destruct (c =? 43)%N; simpl; lia.
Qed.

Lemma removeWhiteSpace_blank s : allWhiteSpace s -> removeWhiteSpace s = [].
Proof.
  unfold removeWhiteSpace.
  induction 1 as [|c s Hc _ IH]; simpl; [reflexivity|]. now rewrite Hc.
Qed.

(** X1.  Whatever is typed as a phone number, the recipient sent to the
    gateway starts with 233, holds no white space, and is at most three
    code units longer than the input; a blank input is sent as the bare
    country code 233. *)
Theorem formattedPhone_shape :
  forall x : jsstring,
    startsWith (SmsFormat.formattedPhone x) (lit "233") = true
    /\ noWhiteSpace (SmsFormat.formattedPhone x)
    /\ (3 <= List.length (SmsFormat.formattedPhone x)
        <= List.length x + 3)%nat
    /\ (allWhiteSpace x -> SmsFormat.formattedPhone x = lit "233").
Proof.
  intros x.
  pose proof (formattedPhone_startsWith_233 x) as Hp.
  split; [exact Hp|]. split; [apply formattedPhone_noWhiteSpace|].
  split.
  - split; [exact (startsWith_length _ _ Hp)|].
    unfold SmsFormat.formattedPhone.
    pose proof (removeWhiteSpace_length x) as H1.
    pose proof (removeLeadingPlus_length (removeWhiteSpace x)) as H2.
    set (p := removeLeadingPlus (removeWhiteSpace x)) in *.
    destruct (startsWith p (lit "0")) eqn:E0.
    + rewrite (startsWith_app (lit "233")). cbn [negb].
      apply startsWith_length in E0.
      rewrite length_app. unfold substringFrom. rewrite length_skipn.
      cbn in *. lia.
    + destruct (startsWith p (lit "233")); cbn [negb];
        rewrite ?length_app; cbn; lia.
  - intros Hb. unfold SmsFormat.formattedPhone.
    rewrite (removeWhiteSpace_blank x Hb). reflexivity.
Qed.



(** ** Encoding *)





Section Encoding.

Context {platform : Platform} {backend : Backend}.


End Encoding.

(** ** Day counts, badges and counters *)

(** X4.  The day count falls by one for every full day that passes and
    rises by one for every day the expiry is moved; it never rises with
    time nor falls with a later expiry, and it is 0 at the expiry instant
    itself. *)
Theorem daysUntil_shift :
  forall (E N k : Z),
    Status.daysUntil E (N + k * MS_PER_DAY) = Status.daysUntil E N - k
    /\ Status.daysUntil (E + k * MS_PER_DAY) N = Status.daysUntil E N + k
    /\ (forall E', E <= E' -> Status.daysUntil E N <= Status.daysUntil E' N)
    /\ (forall N', N <= N' -> Status.daysUntil E N' <= Status.daysUntil E N)
    /\ Status.daysUntil N N = 0.
Proof.
  intros E N k.
  pose proof (daysUntil_spec E N) as H0.
  pose proof (daysUntil_spec E (N + k * MS_PER_DAY)) as H1.
  pose proof (daysUntil_spec (E + k * MS_PER_DAY) N) as H2.
  pose proof (daysUntil_spec N N) as H3.
  unfold MS_PER_DAY in *.
  split; [lia|]. split; [lia|]. split; [|split; [|lia]].
  - intros E' HE. pose proof (daysUntil_spec E' N) as H4.
    unfold MS_PER_DAY in *. lia.
  - intros N' HN. pose proof (daysUntil_spec E N') as H4.
    unfold MS_PER_DAY in *. lia.
Qed.

Lemma filter_split_length {A} (f g h : A -> bool) (l : list A) :
  (forall x, In x l ->
             (if f x then 1 else 0) + (if g x then 1 else 0)
             + (if h x then 1 else 0) = 1)%nat ->
  (List.length (filter f l) + List.length (filter g l)
   + List.length (filter h l) = List.length l)%nat.
Proof.
  induction l as [|x l IH]; intros Hone; [reflexivity|].
  pose proof (Hone x (or_introl eq_refl)) as Hx.
  specialize (IH (fun y Hy => Hone y (or_intror Hy))).
  simpl. destruct (f x), (g x), (h x); simpl in *; lia.
Qed.

Lemma filter_implies_length {A} (f g : A -> bool) (l : list A) :
  (forall x, In x l -> f x = true -> g x = true) ->
  (List.length (filter f l) <= List.length (filter g l))%nat.
Proof.
  induction l as [|x l IH]; intros Himp; [reflexivity|].
  pose proof (Himp x (or_introl eq_refl)) as Hx.
  specialize (IH (fun y Hy => Himp y (or_intror Hy))).
  simpl. destruct (f x) eqn:Ef.
  - rewrite (Hx eq_refl). simpl. lia.
  - destruct (g x); simpl; lia.
Qed.

Lemma isExpiringSoon_bounds now c :
  DashboardView.isExpiringSoon now c = true
  <-> 0 < Customer.expiry_date c - now <= 3 * MS_PER_DAY.
Proof.
  unfold DashboardView.isExpiringSoon. cbv zeta.
  pose proof (daysUntil_spec (Customer.expiry_date c) now) as Hs.
  rewrite andb_true_iff, Z.leb_le, Z.gtb_ltb, Z.ltb_lt.
  unfold MS_PER_DAY in *. lia.
Qed.

(** X5.  In the counters of the dashboard every customer is active,
    expired, or unflagged and not yet due, and never two of these; the
    customers counted as expiring soon are among those not expired.  When
    every row has [is_active] set, active and expired add up to the total
    and the expiring-soon customers are part of the active ones. *)
Theorem calculateStats_partition :
  forall (customerList : list Customer.t) (now : Date) (revenue : Z),
    (DashboardView.activeCustomers
       (DashboardView.calculateStats customerList now revenue)
     + DashboardView.expiredCustomers
         (DashboardView.calculateStats customerList now revenue)
     + List.length
         (filter (fun c => negb (Customer.is_active c)
                           && (Customer.expiry_date c >? now)) customerList)
     = DashboardView.totalCustomers
         (DashboardView.calculateStats customerList now revenue))%nat
    /\ (DashboardView.expiringSoonCustomers
          (DashboardView.calculateStats customerList now revenue)
        + DashboardView.expiredCustomers
            (DashboardView.calculateStats customerList now revenue)
        <= DashboardView.totalCustomers
             (DashboardView.calculateStats customerList now revenue))%nat
    /\ (Forall (fun c => Customer.is_active c = true) customerList ->
        (DashboardView.activeCustomers
           (DashboardView.calculateStats customerList now revenue)
         + DashboardView.expiredCustomers
             (DashboardView.calculateStats customerList now revenue)
         = DashboardView.totalCustomers
             (DashboardView.calculateStats customerList now revenue))%nat
        /\ (DashboardView.expiringSoonCustomers
              (DashboardView.calculateStats customerList now revenue)
            <= DashboardView.activeCustomers
                 (DashboardView.calculateStats customerList now revenue))%nat).
Proof.
  intros customerList now revenue.
  unfold DashboardView.calculateStats. cbv zeta.
  cbn [DashboardView.activeCustomers DashboardView.expiredCustomers
       DashboardView.expiringSoonCustomers DashboardView.totalCustomers].
  assert (Hpart :
    (List.length (filter (DashboardView.isActive now) customerList)
     + List.length (filter (DashboardView.isExpired now) customerList)
     + List.length
         (filter (fun c => negb (Customer.is_active c)
                           && (Customer.expiry_date c >? now)) customerList)
     = List.length customerList)%nat).
  { apply filter_split_length. intros c _.
    unfold DashboardView.isActive, DashboardView.isExpired.
    rewrite Z.gtb_ltb.
    destruct (Customer.is_active c), (Z.ltb_spec now (Customer.expiry_date c)),
      (Z.leb_spec (Customer.expiry_date c) now); simpl; lia. }
  assert (Hsoon :
    (List.length (filter (DashboardView.isExpiringSoon now) customerList)
     <= List.length
          (filter (fun c => negb (DashboardView.isExpired now c))
             customerList))%nat).
  { apply filter_implies_length. intros c _ Hc.
    apply isExpiringSoon_bounds in Hc. unfold DashboardView.isExpired.
    destruct (Z.leb_spec (Customer.expiry_date c) now); [lia | reflexivity]. }
  pose proof (filter_length (DashboardView.isExpired now) customerList)
    as Hexp.
  split; [exact Hpart|]. split; [lia|].
  intros Hall.
  assert (Hnone :
    filter (fun c => negb (Customer.is_active c)
                     && (Customer.expiry_date c >? now)) customerList = []).
  { clear - Hall. induction Hall as [|c l Hc _ IH]; [reflexivity|].
    simpl. now rewrite Hc. }
  rewrite Hnone in Hpart. simpl in Hpart. split; [lia|].
  apply filter_implies_length. intros c Hin Hc.
  rewrite Forall_forall in Hall. unfold DashboardView.isActive.
  rewrite (Hall c Hin). apply isExpiringSoon_bounds in Hc.
  apply Z.gtb_lt. lia.
Qed.

Lemma status_by_days E N :
  (Status.daysUntil E N < 0
   /\ Status.getSubscriptionStatus E N
      = {| Status.status := lit "Expired";
           Status.color := lit "bg-red-100 text-red-800";
           Status.days := Z.abs (Status.daysUntil E N) |})
  \/ (0 <= Status.daysUntil E N <= 3
      /\ Status.getSubscriptionStatus E N
         = {| Status.status := lit "Expiring Soon";
              Status.color := lit "bg-yellow-100 text-yellow-800";
              Status.days := Status.daysUntil E N |})
  \/ (3 < Status.daysUntil E N
      /\ Status.getSubscriptionStatus E N
         = {| Status.status := lit "Active";
              Status.color := lit "bg-green-100 text-green-800";
              Status.days := Status.daysUntil E N |}).
Proof.
  unfold Status.getSubscriptionStatus. cbv zeta.
  destruct (Z.ltb_spec (Status.daysUntil E N) 0); [left; now split|].
  destruct (Z.leb_spec (Status.daysUntil E N) 3);
    [right; left | right; right]; split; try lia; reflexivity.
Qed.

(** X6.  The badge and the counters draw the line differently.  A customer
    with the Expired badge is counted as expired, and one counted as
    expiring soon has the Expiring Soon badge; but during the day that
    follows the expiry instant the customer still has the Expiring Soon
    badge, is already counted as expired, and is not counted as expiring
    soon. *)
Theorem badge_and_counters :
  forall (now : Date) (c : Customer.t),
    (Status.status (Status.getSubscriptionStatus (Customer.expiry_date c) now)
     = lit "Expired" -> DashboardView.isExpired now c = true)
    /\ (DashboardView.isExpiringSoon now c = true ->
        Status.status
          (Status.getSubscriptionStatus (Customer.expiry_date c) now)
        = lit "Expiring Soon")
    /\ (now - MS_PER_DAY < Customer.expiry_date c <= now
        <-> DashboardView.isExpired now c = true
            /\ Status.status
                 (Status.getSubscriptionStatus (Customer.expiry_date c) now)
               = lit "Expiring Soon")
    /\ (now - MS_PER_DAY < Customer.expiry_date c <= now
        <-> DashboardView.isExpiringSoon now c = false
            /\ Status.getSubscriptionStatus (Customer.expiry_date c) now
               = {| Status.status := lit "Expiring Soon";
                    Status.color := lit "bg-yellow-100 text-yellow-800";
                    Status.days := 0 |}).
Proof.
  intros now c.
  pose proof (daysUntil_spec (Customer.expiry_date c) now) as Hs.
  pose proof (isExpiringSoon_bounds now c) as Hsoon.
  unfold DashboardView.isExpired.
  destruct (DashboardView.isExpiringSoon now c);
    destruct (status_by_days (Customer.expiry_date c) now)
      as [[Hd ->] | [[Hd ->] | [Hd ->]]];
    destruct (Z.leb_spec (Customer.expiry_date c) now);
    cbn [Status.status]; unfold MS_PER_DAY in *;
    repeat split; intros;
    repeat match goal with
           | H : _ /\ _ |- _ => destruct H
           | H : true = true <-> _ |- _ => destruct H as [H _]; specialize (H eq_refl)
           | H : false = true <-> _ |- _ => destruct H as [_ H]
           end;
    try lia; try reflexivity; try absurd_literal; try discriminate;
    try (exfalso; lia);
    try match goal with
        | H : {| Status.status := _; Status.color := _; Status.days := ?d |}
              = {| Status.status := _; Status.color := _; Status.days := 0 |}
          |- _ => injection H as H; lia
        end;
    try (f_equal; lia).
Qed.

(** X7.  A payment made during the day that follows the expiry instant is
    treated as a reactivation: the customer still shows the Expiring Soon
    badge, yet the Activation message is posted after the confirmation
    (both writes succeeding and the gateway accepting). *)
Theorem activation_while_expiring_soon :
  forall (platform : Platform) (backend : Backend) (user : option User.t)
         (vendor : option Vendor.t) (customer : Customer.t)
         (formData : PaymentModal.FormData) (now : Date) (w : World),
    insertPaymentError (entered w)
      (PaymentModal.paymentData user customer formData) = None ->
    updateCustomerError
      (recorded (PaymentModal.paymentData user customer formData) (entered w))
      (Customer.id customer) = None ->
    configured = true ->
    accepted (arkesel (committed user customer formData now w)
                (confirmation vendor customer formData now)) = true ->
    now - MS_PER_DAY < Customer.expiry_date customer < now ->
    Status.status
      (Status.getSubscriptionStatus (Customer.expiry_date customer) now)
    = lit "Expiring Soon"
    /\ outbox (snd (PaymentModal.handleSubmit user vendor customer formData
                      now w))
       = outbox w ++ [confirmation vendor customer formData now;
                      activation vendor customer formData now].
Proof.
  intros platform backend user vendor customer formData now w
    Hins Hupd Hcfg Hacc Hday.
  split.
  - pose proof (daysUntil_spec (Customer.expiry_date customer) now) as Hs.
    destruct (status_by_days (Customer.expiry_date customer) now)
      as [[Hd _] | [[Hd ->] | [Hd _]]];
      [| reflexivity |]; unfold MS_PER_DAY in *; lia.
  - rewrite (payment_outbox user vendor customer formData now w Hins Hupd).
    rewrite Hcfg, Hacc. unfold lapsed, PaymentModal.wasExpired.
    destruct (Z.ltb_spec (Customer.expiry_date customer) now);
      [reflexivity | lia].
Qed.

Lemma activation_while_expiring_soon_witness :
  Scenario.today - MS_PER_DAY < Customer.expiry_date Scenario.yaa
  < Scenario.today
  /\ Status.status
       (Status.getSubscriptionStatus (Customer.expiry_date Scenario.yaa)
          Scenario.today)
     = lit "Expiring Soon"
  /\ map message
       (outbox
          (snd (PaymentModal.handleSubmit (platform := utcPlatform)
                  (backend := Scenario.backend []) (Some Scenario.staff) None
                  Scenario.yaa (Scenario.oneMonth Scenario.yaa) Scenario.today
                  (Scenario.world [Scenario.yaa]))))
     = [Templates.templatePaymentConfirmation (platform := utcPlatform)
          (lit "Yaa Asantewaa") 7000 (Scenario.day 2025 12 21 + 34200000)
          None;
        Templates.templateActivation (platform := utcPlatform)
          (lit "Yaa Asantewaa") (Scenario.day 2025 12 21 + 34200000) None].
Proof.
  assert (Hday : Scenario.today - MS_PER_DAY
                 < Customer.expiry_date Scenario.yaa < Scenario.today)
    by (vm_compute; split; reflexivity).
  split; [exact Hday|].
  destruct (activation_while_expiring_soon utcPlatform (Scenario.backend [])
              (Some Scenario.staff) None Scenario.yaa
              (Scenario.oneMonth Scenario.yaa) Scenario.today
              (Scenario.world [Scenario.yaa])
              eq_refl eq_refl eq_refl eq_refl Hday) as [Hbadge Hout].
  split; [exact Hbadge|].
  rewrite Hout. reflexivity.
Defined.

(** ** Selecting recipients *)

Lemma strEqb_eq a b : strEqb a b = true <-> a = b.
Proof.
  revert b. induction a as [|x a IH]; intros [|y b]; simpl;
    try (split; [discriminate | discriminate]); [now split|].
  rewrite andb_true_iff, N.eqb_eq, IH.
  split; [intros [-> ->]; reflexivity | intros [= -> ->]; now split].
Qed.

Lemma strEqb_refl a : strEqb a a = true.
Proof. now apply strEqb_eq. Qed.

Lemma strEqb_neq a b : strEqb a b = false <-> a <> b.
Proof.
  rewrite <- strEqb_eq. destruct (strEqb a b); split; congruence.
Qed.

Lemma selected_iff prev customerId :
  existsb (fun id => strEqb id customerId) prev = true <-> In customerId prev.
Proof.
  rewrite existsb_exists. split.
  - intros (x & Hx & E). apply strEqb_eq in E. now subst.
  - intros Hin. exists customerId. split; [assumption | apply strEqb_refl].
Qed.

(** X8.  Ticking a customer flips its membership in the selection and no
    other; a selection without repetition stays so; and ticking twice a
    customer that was not selected gives the selection back. *)
Theorem handleCustomerSelect_toggles :
  forall (prev : list jsstring) (customerId : jsstring),
    (In customerId (SMSModalView.handleCustomerSelect prev customerId)
     <-> ~ In customerId prev)
    /\ (forall other,
           other <> customerId ->
           (In other (SMSModalView.handleCustomerSelect prev customerId)
            <-> In other prev))
    /\ (NoDup prev ->
        NoDup (SMSModalView.handleCustomerSelect prev customerId))
    /\ (~ In customerId prev ->
        SMSModalView.handleCustomerSelect
          (SMSModalView.handleCustomerSelect prev customerId) customerId
        = prev).
Proof.
  intros prev customerId.
  assert (Hfilter : forall x,
             In x (filter (fun id => negb (strEqb id customerId)) prev)
             <-> In x prev /\ x <> customerId).
  { intros x. rewrite filter_In, negb_true_iff, strEqb_neq. tauto. }
  assert (Hkeep : ~ In customerId prev ->
                  filter (fun id => negb (strEqb id customerId)) prev = prev).
  { clear Hfilter. intros Hnot. induction prev as [|x prev IH]; [reflexivity|].
    simpl. destruct (strEqb x customerId) eqn:E.
    - apply strEqb_eq in E. subst. exfalso. apply Hnot. now left.
    - simpl. f_equal. apply IH. intros Hin. apply Hnot. now right. }
  unfold SMSModalView.handleCustomerSelect at 1 2 3.
  destruct (existsb (fun id => strEqb id customerId) prev) eqn:Esel.
  - apply selected_iff in Esel. repeat split.
    + intros Hin. apply Hfilter in Hin. tauto.
    + tauto.
    + intros Hin. apply Hfilter in Hin. tauto.
    + intros Hin. apply Hfilter. tauto.
    + intros Hnd. now apply NoDup_filter.
    + tauto.
  - assert (Hnot : ~ In customerId prev).
    { intros Hin. apply selected_iff in Hin. congruence. }
    repeat split.
    + intros _. exact Hnot.
    + intros _. apply in_or_app. right. now left.
    + intros Hin. apply in_app_or in Hin. destruct Hin as [Hin | [<- | []]];
        [assumption | congruence].
    + intros Hin. apply in_or_app. now left.
    + intros Hnd. apply NoDup_app; [assumption | repeat constructor; intros [] |].
      intros x Hx [<- | []]. exact (Hnot Hx).
    + intros _. unfold SMSModalView.handleCustomerSelect.
      assert (Esel' : existsb (fun id => strEqb id customerId)
                        (prev ++ [customerId]) = true).
      { apply selected_iff, in_or_app. right. now left. }
      rewrite Esel, Esel'. rewrite filter_app. simpl.
      rewrite strEqb_refl. simpl. rewrite app_nil_r. now apply Hkeep.
Qed.

(** ** What a reminder says *)

Section ReminderText.

Context {platform : Platform}.

Lemma templateExpiring_overdue fullName daysLeft endDate vendor :
  daysLeft <= 0 ->
  Templates.templateExpiring fullName daysLeft endDate vendor
  = Templates.templateExpired fullName (Z.abs daysLeft) endDate vendor.
Proof.
  intros Hd. unfold Templates.templateExpiring. cbv zeta.
  destruct (Z.leb_spec daysLeft 0); [reflexivity | lia].
Qed.

Lemma templateExpiring_due fullName daysLeft endDate vendor :
  0 < daysLeft ->
  Templates.templateExpiring fullName daysLeft endDate vendor
  = expiringText fullName daysLeft endDate vendor.
Proof.
  intros Hd. unfold Templates.templateExpiring, expiringText. cbv zeta.
  destruct (Z.leb_spec daysLeft 0); [lia|].
  unfold Templates.dayWord. rewrite Z.gtb_ltb.
  destruct (Z.ltb_spec 1 daysLeft), (Z.eqb_spec daysLeft 1);
    try lia; reflexivity.
Qed.

Lemma withSlogan_inj vendor a b :
  Templates.withSlogan vendor a = Templates.withSlogan vendor b -> a = b.
Proof.
  unfold Templates.withSlogan.
  destruct (Templates.opt Templates.slogan vendor) as [[|c s]|];
    try (intros E; exact E).
  apply app_inv_tail.
Qed.

Lemma expired_text_differs fullName daysAgo daysLeft endDate vendor :
  Templates.templateExpired fullName daysAgo endDate vendor
  <> expiringText fullName daysLeft endDate vendor.
Proof.
  unfold Templates.templateExpired, expiringText. cbv zeta. intros E.
  apply withSlogan_inj, app_inv_head in E. discriminate E.
Qed.

Variable vendor : option Vendor.t.

Lemma personalizedMessage_reminder formData customer now :
  SMSModal.messageType formData = SMSModal.expiring
  \/ SMSModal.messageType formData = SMSModal.expired ->
  SMSModal.personalizedMessage vendor formData customer now
  = Templates.templateExpiring (Customer.name customer)
      (Status.daysUntil (Customer.expiry_date customer) now)
      (Customer.expiry_date customer) (vendorData vendor).
Proof.
  intros Htype. unfold SMSModal.personalizedMessage. cbv zeta.
  destruct Htype as [-> | ->];
    destruct (Z.ltb_spec
                (Status.daysUntil (Customer.expiry_date customer) now) 0);
    try reflexivity;
    rewrite templateExpiring_overdue by lia; reflexivity.
Qed.

(** X9.  For the two reminder types the text does not depend on which of
    them was chosen: a customer whose day count is zero or less gets the
    Expired text with the count of days passed, and any other customer gets
    the days-remaining text, also when the type chosen was [expired]. *)
Theorem reminder_text_ignores_type :
  forall (formData : SMSModal.FormData) (customer : Customer.t) (now : Date),
    SMSModal.messageType formData = SMSModal.expiring
    \/ SMSModal.messageType formData = SMSModal.expired ->
    (Status.daysUntil (Customer.expiry_date customer) now <= 0 ->
     SMSModal.personalizedMessage vendor formData customer now
     = Templates.templateExpired (Customer.name customer)
         (- Status.daysUntil (Customer.expiry_date customer) now)
         (Customer.expiry_date customer) (vendorData vendor))
    /\ (0 < Status.daysUntil (Customer.expiry_date customer) now ->
        SMSModal.personalizedMessage vendor formData customer now
        = expiringText (Customer.name customer)
            (Status.daysUntil (Customer.expiry_date customer) now)
            (Customer.expiry_date customer) (vendorData vendor)).
Proof.
  intros formData customer now Htype.
  rewrite (personalizedMessage_reminder formData customer now Htype).
  split; intros Hd.
  - rewrite templateExpiring_overdue by assumption.
    now rewrite Z.abs_neq by assumption.
  - now apply templateExpiring_due.
Qed.

(** X10.  The preview shows, for the first selected customer, the text
    that is sent to that customer, except when the type is [expired] and
    the customer still has days left: the preview then says the service
    expired that many days ago, while the days-remaining text is sent. *)
Theorem preview_and_sent :
  forall (customers : list Customer.t) (first : jsstring)
         (others : list jsstring) (formData : SMSModal.FormData)
         (customer : Customer.t) (now : Date),
    find (hasId (Some first)) customers = Some customer ->
    (SMSModal.messageType formData <> SMSModal.expired
     \/ Status.daysUntil (Customer.expiry_date customer) now <= 0 ->
     SMSModalView.gen vendor customers (first :: others) formData now
     = SMSModal.personalizedMessage vendor formData customer now)
    /\ (SMSModal.messageType formData = SMSModal.expired ->
        0 < Status.daysUntil (Customer.expiry_date customer) now ->
        SMSModalView.gen vendor customers (first :: others) formData now
        = Templates.templateExpired (Customer.name customer)
            (Status.daysUntil (Customer.expiry_date customer) now)
            (Customer.expiry_date customer) (vendorData vendor)
        /\ SMSModal.personalizedMessage vendor formData customer now
           = expiringText (Customer.name customer)
               (Status.daysUntil (Customer.expiry_date customer) now)
               (Customer.expiry_date customer) (vendorData vendor)
        /\ SMSModalView.gen vendor customers (first :: others) formData now
           <> SMSModal.personalizedMessage vendor formData customer now).
Proof.
  intros customers first others formData customer now Hfind.
  unfold SMSModalView.gen. cbv zeta. rewrite Hfind.
  split.
  - intros Hcase. unfold SMSModal.personalizedMessage. cbv zeta.
    destruct (SMSModal.messageType formData) eqn:Etype; try reflexivity.
    + destruct (Z.ltb_spec
                  (Status.daysUntil (Customer.expiry_date customer) now) 0);
        [|reflexivity].
      now rewrite templateExpiring_overdue by lia.
    + destruct Hcase as [Hne | Hd]; [congruence|].
      destruct (Z.ltb_spec
                  (Status.daysUntil (Customer.expiry_date customer) now) 0);
        [reflexivity|].
      rewrite templateExpiring_overdue by lia. reflexivity.
  - intros Etype Hd. rewrite Etype.
    rewrite (Z.abs_eq _ (Z.lt_le_incl _ _ Hd)).
    rewrite (personalizedMessage_reminder formData customer now
               (or_intror Etype)).
    rewrite (templateExpiring_due _ _ _ _ Hd).
    split; [reflexivity|]. split; [reflexivity|].
    apply expired_text_differs.
Qed.

End ReminderText.

Lemma reminder_text_ignores_type_witness :
  SMSModal.messageType Scenario.expiredForm = SMSModal.expired
  /\ 0 < Status.daysUntil (Customer.expiry_date Scenario.ama) Scenario.today
  /\ SMSModal.personalizedMessage (platform := utcPlatform) None
       Scenario.expiredForm Scenario.ama Scenario.today
     = lit "Qaretech Innovative: " ++ [9200%N]
       ++ lit " Hi Ama, your subscription ends in 1 day on 22nd November, 2025. Renew now: call 0241234567 or WhatsApp 0241234567. Reply RENEW and we'll call you back.".
Proof.
  split; [reflexivity|]. split; [reflexivity|].
  destruct (reminder_text_ignores_type (platform := utcPlatform) None
              Scenario.expiredForm Scenario.ama Scenario.today
              (or_intror eq_refl)) as [_ Hdue].
  rewrite (Hdue eq_refl). reflexivity.
Defined.

Lemma preview_and_sent_witness :
  find (hasId (Some (lit "c1"))) [Scenario.ama; Scenario.kofi; Scenario.esi]
  = Some Scenario.ama
  /\ SMSModalView.gen (platform := utcPlatform) None
       [Scenario.ama; Scenario.kofi; Scenario.esi] [lit "c1"; lit "c2"]
       Scenario.expiredForm Scenario.today
     <> SMSModal.personalizedMessage (platform := utcPlatform) None
          Scenario.expiredForm Scenario.ama Scenario.today.
Proof.
  split; [reflexivity|].
  destruct (preview_and_sent (platform := utcPlatform) None
              [Scenario.ama; Scenario.kofi; Scenario.esi] (lit "c1")
              [lit "c2"] Scenario.expiredForm Scenario.ama Scenario.today
              eq_refl) as [_ Hdiffer].
  exact (proj2 (proj2 (Hdiffer eq_refl eq_refl))).
Defined.

(** ** The quick reminder *)

Section QuickReminder.

Context {platform : Platform} {backend : Backend}.

Variable vendor : option Vendor.t.





End QuickReminder.


(** ** Writes that fail, and edits *)

Section Writes.

Context {platform : Platform} {backend : Backend}.

Variable user : option User.t.
Variable vendor : option Vendor.t.

(** X12.  Saving an edit of a customer sets the expiry date again to one
    month after the subscription date of the form, whatever expiry the row
    had reached through payments, and sets [is_active]; the id and the
    reminder timestamp of the row stay, other rows are not touched, and no
    message is sent. *)
Theorem customer_edit_resets_expiry :
  forall (existing : Customer.t) (formData : CustomerModal.FormData)
         (w : World),
    updateCustomerError (entered w) (Customer.id existing) = None ->
    fst (CustomerModal.handleSubmit user vendor (Some existing) formData w)
    = Normal tt
    /\ customers (snd (CustomerModal.handleSubmit user vendor (Some existing)
                         formData w))
       = map (fun c => if hasId (Customer.id existing) c
                       then CustomerModal.overwrite
                              (CustomerModal.customerData user formData) c
                       else c) (customers w)
    /\ (forall c,
           Customer.expiry_date
             (CustomerModal.overwrite
                (CustomerModal.customerData user formData) c)
           = isoDate (addMonths (CustomerModal.subscription_date formData) 1)
           /\ Customer.is_active
                (CustomerModal.overwrite
                   (CustomerModal.customerData user formData) c) = true
           /\ Customer.id
                (CustomerModal.overwrite
                   (CustomerModal.customerData user formData) c)
              = Customer.id c
           /\ Customer.last_reminder_sent
                (CustomerModal.overwrite
                   (CustomerModal.customerData user formData) c)
              = Customer.last_reminder_sent c)
    /\ payments (snd (CustomerModal.handleSubmit user vendor (Some existing)
                        formData w)) = payments w
    /\ outbox (snd (CustomerModal.handleSubmit user vendor (Some existing)
                      formData w)) = outbox w
    /\ alerts (snd (CustomerModal.handleSubmit user vendor (Some existing)
                      formData w)) = alerts w
    /\ saved (snd (CustomerModal.handleSubmit user vendor (Some existing)
                     formData w)) = S (saved w)
    /\ closed (snd (CustomerModal.handleSubmit user vendor (Some existing)
                      formData w)) = S (closed w).
Proof.
  intros existing formData w Hupd.
  unfold CustomerModal.handleSubmit, bind, tryFinally, tryCatch, setIsLoading,
    setError, modify, CustomerModal.updateCustomer, onSave, onClose, ret.
  cbv zeta. fold (entered w). rewrite Hupd. cbn.
  repeat split; reflexivity.
Qed.

(** X13.  The two writes of a payment are not one: if the insert of the
    payment fails nothing is written; if it succeeds and the update of the
    customer fails, the payment row stays while the expiry is not extended.
    In both cases no message is sent, [onSave] and [onClose] do not run, and
    [error] names the step that failed. *)
Theorem payment_write_failures :
  forall (customer : Customer.t) (formData : PaymentModal.FormData)
         (now : Date) (w : World),
    (forall e,
        insertPaymentError (entered w)
          (PaymentModal.paymentData user customer formData) = Some e ->
        PaymentModal.handleSubmit user vendor customer formData now w
        = (Normal tt,
           withIsLoading false
             (withError (lit "Failed to record payment: " ++ e)
                (entered w))))
    /\ (forall e,
           insertPaymentError (entered w)
             (PaymentModal.paymentData user customer formData) = None ->
           updateCustomerError
             (recorded (PaymentModal.paymentData user customer formData)
                (entered w))
             (Customer.id customer) = Some e ->
           PaymentModal.handleSubmit user vendor customer formData now w
           = (Normal tt,
              withIsLoading false
                (withError (lit "Failed to update customer: " ++ e)
                   (recorded
                      (PaymentModal.paymentData user customer formData)
                      (entered w))))
           /\ payments
                (snd (PaymentModal.handleSubmit user vendor customer formData
                        now w))
              = payments w ++ [PaymentModal.paymentData user customer formData]
           /\ customers
                (snd (PaymentModal.handleSubmit user vendor customer formData
                        now w))
              = customers w
           /\ outbox
                (snd (PaymentModal.handleSubmit user vendor customer formData
                        now w))
              = outbox w).
Proof.
  intros customer formData now w. split.
  - intros e Hins.
    unfold PaymentModal.handleSubmit, bind, tryFinally, tryCatch,
      setIsLoading, setError, modify, insertPayment, throw.
    cbv zeta. fold (entered w). rewrite Hins. reflexivity.
  - intros e Hins Hupd.
    assert (Hrun :
      PaymentModal.handleSubmit user vendor customer formData now w
      = (Normal tt,
         withIsLoading false
           (withError (lit "Failed to update customer: " ++ e)
              (recorded (PaymentModal.paymentData user customer formData)
                 (entered w))))).
    { unfold PaymentModal.handleSubmit, bind, tryFinally, tryCatch,
        setIsLoading, setError, modify, insertPayment, updateCustomerExpiry,
        throw.
      cbv zeta. fold (entered w). rewrite Hins.
      fold (recorded (PaymentModal.paymentData user customer formData)
              (entered w)).
      rewrite Hupd. reflexivity. }
    rewrite Hrun. repeat split; reflexivity.
Qed.

(** X14.  A customer whose insert or update is refused is not written and
    not greeted: the tables, the outbox and the alerts are as before,
    [onSave] and [onClose] do not run, and [error] carries the reason. *)
Theorem customer_write_failures :
  forall (formData : CustomerModal.FormData) (w : World),
    (forall e,
        insertCustomerError (entered w)
          (CustomerModal.customerData user formData) = Some e ->
        CustomerModal.handleSubmit user vendor None formData w
        = (Normal tt,
           withIsLoading false
             (withError (lit "Failed to create customer: " ++ e)
                (entered w))))
    /\ (forall existing e,
           updateCustomerError (entered w) (Customer.id existing) = Some e ->
           CustomerModal.handleSubmit user vendor (Some existing) formData w
           = (Normal tt,
              withIsLoading false
                (withError (lit "Failed to update customer: " ++ e)
                   (entered w)))).
Proof.
  intros formData w. split.
  - intros e Hins.
    unfold CustomerModal.handleSubmit, bind, tryFinally, tryCatch,
      setIsLoading, setError, modify, insertCustomer, throw.
    cbv zeta. fold (entered w). rewrite Hins. reflexivity.
  - intros existing e Hupd.
    unfold CustomerModal.handleSubmit, bind, tryFinally, tryCatch,
      setIsLoading, setError, modify, CustomerModal.updateCustomer, throw.
    cbv zeta. fold (entered w). rewrite Hupd. reflexivity.
Qed.

End Writes.

Lemma customer_edit_resets_expiry_witness :
  updateCustomerError (Backend := Scenario.backend [])
    (entered (Scenario.world [Scenario.ama; Scenario.kofi; Scenario.esi]))
    (Customer.id Scenario.esi) = None
  /\ Customer.expiry_date Scenario.esi = Scenario.day 2025 12 21
  /\ map Customer.expiry_date
       (customers
          (snd (CustomerModal.handleSubmit (platform := utcPlatform)
                  (backend := Scenario.backend []) (Some Scenario.staff) None
                  (Some Scenario.esi) Scenario.editForm
                  (Scenario.world
                     [Scenario.ama; Scenario.kofi; Scenario.esi]))))
     = [Scenario.day 2025 11 22; Scenario.day 2025 11 11;
        Scenario.day 2025 2 1].
Proof.
  split; [reflexivity|]. split; [reflexivity|].
  destruct (customer_edit_resets_expiry (platform := utcPlatform)
              (backend := Scenario.backend []) (Some Scenario.staff) None
              Scenario.esi Scenario.editForm
              (Scenario.world [Scenario.ama; Scenario.kofi; Scenario.esi])
              eq_refl) as (_ & Hrows & _).
  rewrite Hrows. reflexivity.
Defined.

Lemma payment_write_failures_witness :
  updateCustomerError (Backend := Scenario.updateFails)
    (recorded
       (PaymentModal.paymentData (Some Scenario.staff) Scenario.kofi
          (Scenario.oneMonth Scenario.kofi))
       (entered (Scenario.world [Scenario.kofi])))
    (Customer.id Scenario.kofi) = Some (lit "network error")
  /\ List.length
       (payments
          (snd (PaymentModal.handleSubmit (platform := utcPlatform)
                  (backend := Scenario.updateFails) (Some Scenario.staff)
                  None Scenario.kofi (Scenario.oneMonth Scenario.kofi)
                  Scenario.today (Scenario.world [Scenario.kofi])))) = 1%nat
  /\ customers
       (snd (PaymentModal.handleSubmit (platform := utcPlatform)
               (backend := Scenario.updateFails) (Some Scenario.staff)
               None Scenario.kofi (Scenario.oneMonth Scenario.kofi)
               Scenario.today (Scenario.world [Scenario.kofi])))
     = [Scenario.kofi].
Proof.
  split; [reflexivity|].
  destruct (payment_write_failures (platform := utcPlatform)
              (backend := Scenario.updateFails) (Some Scenario.staff) None
              Scenario.kofi (Scenario.oneMonth Scenario.kofi) Scenario.today
              (Scenario.world [Scenario.kofi])) as [_ Hsecond].
  destruct (Hsecond (lit "network error") eq_refl eq_refl)
    as (_ & Hpay & Hrows & _).
  rewrite Hpay, Hrows. split; reflexivity.
Defined.

Lemma customer_write_failures_witness :
  insertCustomerError (Backend := Scenario.updateFails)
    (entered (Scenario.world [Scenario.ama]))
    (CustomerModal.customerData (platform := utcPlatform)
       (Some Scenario.staff) Scenario.newCustomerForm)
  = Some (lit "duplicate phone")
  /\ customers
       (snd (CustomerModal.handleSubmit (platform := utcPlatform)
               (backend := Scenario.updateFails) (Some Scenario.staff) None
               None Scenario.newCustomerForm (Scenario.world [Scenario.ama])))
     = [Scenario.ama]
  /\ error
       (snd (CustomerModal.handleSubmit (platform := utcPlatform)
               (backend := Scenario.updateFails) (Some Scenario.staff) None
               None Scenario.newCustomerForm (Scenario.world [Scenario.ama])))
     = lit "Failed to create customer: duplicate phone".
Proof.
  split; [reflexivity|].
  destruct (customer_write_failures (platform := utcPlatform)
              (backend := Scenario.updateFails) (Some Scenario.staff) None
              Scenario.newCustomerForm (Scenario.world [Scenario.ama]))
    as [Hfirst _].
  rewrite (Hfirst (lit "duplicate phone") eq_refl). split; reflexivity.
Defined.

(** ** SMSModal: who is written to *)

Section Recipients.

Context {platform : Platform} {backend : Backend}.

Variable vendor : option Vendor.t.

(** X15.  Without a selection the modal writes no timestamp.  With an
    empty phone field nothing is posted and the result is the request to
    select customers or enter a number; with a phone number one request
    goes out to that number with the text of the form.  A selection none
    of whose ids is among the loaded customers ends in a failure result,
    with nothing posted and nothing written. *)
Theorem submit_without_customers :
  forall (loaded : list Customer.t) (customerName msg : jsstring)
         (type : SMSModal.MessageType) (now : Date) (w : World),
    SMSModal.handleSubmit vendor loaded []
      {| SMSModal.phone := []; SMSModal.customerName := customerName;
         SMSModal.message := msg; SMSModal.messageType := type |} now w
    = (Normal tt,
       withIsLoading false
         (withResult
            (Some (false,
                   lit "Please select customers or enter a phone number"))
            (withResult None (withIsLoading true w))))
    /\ (forall c s,
           customers
             (snd (SMSModal.handleSubmit vendor loaded []
                     {| SMSModal.phone := c :: s;
                        SMSModal.customerName := customerName;
                        SMSModal.message := msg;
                        SMSModal.messageType := type |} now w))
           = customers w
           /\ outbox
                (snd (SMSModal.handleSubmit vendor loaded []
                        {| SMSModal.phone := c :: s;
                           SMSModal.customerName := customerName;
                           SMSModal.message := msg;
                           SMSModal.messageType := type |} now w))
              = outbox w
                ++ (if configured then [requestFor vendor (c :: s) msg]
                    else []))
    /\ (forall first others formData,
           filter (idIn (first :: others)) loaded = [] ->
           customers
             (snd (SMSModal.handleSubmit vendor loaded (first :: others)
                     formData now w))
           = customers w
           /\ outbox
                (snd (SMSModal.handleSubmit vendor loaded (first :: others)
                        formData now w))
              = outbox w
           /\ exists text,
                result
                  (snd (SMSModal.handleSubmit vendor loaded (first :: others)
                          formData now w))
                = Some (false, text)).
Proof.
  intros loaded customerName msg type now w.
  split; [reflexivity|]. split.
  - intros c s.
    unfold SMSModal.handleSubmit, bind, tryFinally, tryCatch, setIsLoading,
      setResult, modify.
    cbn [SMSModal.phone SMSModal.message].
    pose proof (sendSMS_world vendor (c :: s) msg
                  (withResult None (withIsLoading true w))) as Hw.
    destruct (sendSMS _ _ _ _) as [[[]|e] w1]; simpl in Hw; subst w1;
      split; reflexivity.
  - intros first others formData Hnone.
    unfold SMSModal.handleSubmit. rewrite Hnone.
    split; [reflexivity|]. split; [reflexivity|].
    now exists SMSModal.typeErrorMessage.
Qed.

Lemma sendEach_outbox formData now details tally w :
  snd (SMSModal.sendEach vendor formData now details tally w)
  = posting
      (if configured then
         map (fun c => requestFor vendor (Customer.phone c)
                         (SMSModal.personalizedMessage vendor formData c now))
           details
       else []) w.
Proof.
  revert tally w.
  induction details as [|customer rest IH]; intros tally w.
  - simpl. unfold ret. simpl. destruct configured; now rewrite posting_nil.
  - cbn [SMSModal.sendEach]. unfold bind at 1, tryCatch, bind at 1, ret.
    pose proof (sendSMS_world vendor (Customer.phone customer)
                  (SMSModal.personalizedMessage vendor formData customer now)
                  w) as Hw.
    destruct (sendSMS _ _ _ w) as [[[]|e] w1]; simpl in Hw; subst w1;
      rewrite IH, posting_posting; destruct configured; reflexivity.
Qed.

(** X16.  A send to two or more selected customers posts, in the order of
    the loaded list, one request per customer, each with the message
    rendered for that customer and the customer's own number; the result
    shown is that of a tally in which every customer counts once, as a
    success or as a failure with one error entry. *)
Theorem bulk_send_personalizes :
  forall (loaded : list Customer.t) (selected : list jsstring)
         (formData : SMSModal.FormData) (now : Date) (w : World),
    (2 <= List.length (filter (idIn selected) loaded))%nat ->
    configured = true ->
    outbox (snd (SMSModal.handleSubmit vendor loaded selected formData now w))
    = outbox w
      ++ map (fun c => requestFor vendor (Customer.phone c)
                         (SMSModal.personalizedMessage vendor formData c now))
           (filter (idIn selected) loaded)
    /\ exists tally,
         result (snd (SMSModal.handleSubmit vendor loaded selected formData
                        now w))
         = Some (SMSModal.bulkResult tally)
         /\ (SMSModal.successful tally + SMSModal.failed tally
             = List.length (filter (idIn selected) loaded))%nat
         /\ List.length (SMSModal.errors tally) = SMSModal.failed tally.
Proof.
  intros loaded selected formData now w Hmany Hcfg.
  unfold SMSModal.handleSubmit.
  destruct selected as [|s0 selected];
    [rewrite filter_idIn_nil in Hmany; simpl in Hmany; lia|].
  destruct (filter (idIn (s0 :: selected)) loaded) as [|c1 [|c2 others]] eqn:Ef;
    simpl in Hmany; try lia.
  unfold bind, tryFinally, tryCatch, setIsLoading, setResult, modify,
    updateReminderWhere.
  pose proof (sendEach_outbox formData now (c1 :: c2 :: others)
                {| SMSModal.successful := 0; SMSModal.failed := 0;
                   SMSModal.errors := [] |}
                (withResult None (withIsLoading true w))) as Hout.
  destruct (sendEach_run vendor formData now (c1 :: c2 :: others)
              {| SMSModal.successful := 0; SMSModal.failed := 0;
                 SMSModal.errors := [] |}
              (withResult None (withIsLoading true w)))
    as (t & l & Hrun & Hcount & Herrs).
  rewrite Hrun in Hout |- *. cbn [snd] in Hout. rewrite Hcfg in Hout.
  cbn [SMSModal.successful SMSModal.failed SMSModal.errors List.length]
    in Hcount, Herrs.
  split.
  - destruct (reminderUpdateFails _); cbn [snd outbox withIsLoading
      setCustomers withResult]; now rewrite Hout.
  - exists t. split; [now destruct (reminderUpdateFails _)|].
    split; [exact Hcount | lia].
Qed.

End Recipients.

Lemma bulk_send_personalizes_witness :
  (2 <= List.length
          (filter (idIn [lit "c1"; lit "c2"; lit "c3"])
             [Scenario.ama; Scenario.kofi; Scenario.esi]))%nat
  /\ map (fun r => (recipients r, List.length (message r)))
       (outbox (snd Scenario.sweep))
     = [([lit "233241234567"], 174%nat); ([lit "233201112222"], 172%nat);
        ([lit "233245550000"], 176%nat)].
Proof.
  split; [vm_compute; lia|].
  destruct (bulk_send_personalizes (platform := utcPlatform)
              (backend := Scenario.backend [Scenario.kofiNumber]) None
              [Scenario.ama; Scenario.kofi; Scenario.esi]
              [lit "c1"; lit "c2"; lit "c3"] Scenario.reminderForm
              Scenario.today
              (Scenario.world [Scenario.ama; Scenario.kofi; Scenario.esi])
              ltac:(vm_compute; lia) eq_refl) as [Hout _].
  unfold Scenario.sweep. rewrite Hout. vm_compute. reflexivity.
Defined.

(** ** Expiry dates stay dates *)

Lemma isoDate_dateOnly d : dateOnly (isoDate d).
Proof. unfold dateOnly, isoDate. rewrite Z.mul_comm. apply Z_mod_mult. Qed.

Section DateColumn.

Context {platform : Platform} {backend : Backend}.

Variable user : option User.t.
Variable vendor : option Vendor.t.

Lemma payment_customers_cases customer formData now w :
  customers (snd (PaymentModal.handleSubmit user vendor customer formData
                    now w)) = customers w
  \/ customers (snd (PaymentModal.handleSubmit user vendor customer formData
                       now w))
     = map (fun c => if hasId (Customer.id customer) c
                     then withExpiry
                            (isoDate (paidUntil customer formData now)) now c
                     else c) (customers w).
Proof.
  destruct (insertPaymentError (entered w)
              (PaymentModal.paymentData user customer formData)) as [e|] eqn:Hins.
  - left.
    unfold PaymentModal.handleSubmit, bind, tryFinally, tryCatch,
      setIsLoading, setError, modify, insertPayment, throw.
    cbv zeta. fold (entered w). rewrite Hins. reflexivity.
  - destruct (updateCustomerError
                (recorded (PaymentModal.paymentData user customer formData)
                   (entered w)) (Customer.id customer)) as [e|] eqn:Hupd.
    + left.
      unfold PaymentModal.handleSubmit, bind, tryFinally, tryCatch,
        setIsLoading, setError, modify, insertPayment, updateCustomerExpiry,
        throw.
      cbv zeta. fold (entered w). rewrite Hins.
      fold (recorded (PaymentModal.paymentData user customer formData)
              (entered w)).
      rewrite Hupd. reflexivity.
    + right.
      now destruct (payment_survives_sms_failure user vendor customer
                      formData now w Hins Hupd) as (_ & _ & Hrows & _).
Qed.

Lemma customer_customers_cases existing formData w :
  customers (snd (CustomerModal.handleSubmit user vendor existing formData w))
  = customers w
  \/ customers (snd (CustomerModal.handleSubmit user vendor existing
                       formData w))
     = customers w ++ [CustomerModal.customerData user formData]
  \/ exists target,
       customers (snd (CustomerModal.handleSubmit user vendor existing
                         formData w))
       = map (fun c => if hasId target c
                       then CustomerModal.overwrite
                              (CustomerModal.customerData user formData) c
                       else c) (customers w).
Proof.
  destruct existing as [c|].
  - unfold CustomerModal.handleSubmit, bind, tryFinally, tryCatch,
      setIsLoading, setError, modify, CustomerModal.updateCustomer, throw,
      onSave, onClose, ret.
    cbv zeta. fold (entered w).
    destruct (updateCustomerError (entered w) (Customer.id c));
      [left; reflexivity|].
    right. right. exists (Customer.id c). reflexivity.
  - destruct (insertCustomerError (entered w)
                (CustomerModal.customerData user formData)) as [e|] eqn:Hins.
    + left.
      unfold CustomerModal.handleSubmit, bind, tryFinally, tryCatch,
        setIsLoading, setError, modify, insertCustomer, throw.
      cbv zeta. fold (entered w). rewrite Hins. reflexivity.
    + right. left.
      now destruct (customer_survives_sms_failure user vendor formData w Hins)
        as (_ & Hrows & _).
Qed.

(** X17.  Every expiry date the two forms write is a midnight, so a table
    whose expiry dates are dates keeps them so through any payment, any
    new customer and any edit, whatever the persistence layer and the
    gateway answer.  What is written is the day of the computed instant:
    it is not later than that instant and less than a day earlier. *)
Theorem expiry_dates_stay_dates :
  forall w : World,
    Forall (fun c => dateOnly (Customer.expiry_date c)) (customers w) ->
    (forall customer formData now,
        Forall (fun c => dateOnly (Customer.expiry_date c))
          (customers (snd (PaymentModal.handleSubmit user vendor customer
                             formData now w))))
    /\ (forall existing formData,
           Forall (fun c => dateOnly (Customer.expiry_date c))
             (customers (snd (CustomerModal.handleSubmit user vendor existing
                                formData w))))
    /\ (forall d : Date,
           dateOnly (isoDate d)
           /\ isoDate d <= d < isoDate d + MS_PER_DAY
           /\ (dateOnly d -> isoDate d = d)).
Proof.
  intros w Hdates. split; [|split].
  - intros customer formData now.
    destruct (payment_customers_cases customer formData now w) as [-> | ->];
      [assumption|].
    apply Forall_map. revert Hdates. apply Forall_impl. intros c Hc.
    destruct (hasId (Customer.id customer) c); [|assumption].
    apply isoDate_dateOnly.
  - intros existing formData.
    destruct (customer_customers_cases existing formData w)
      as [-> | [-> | [target ->]]]; [assumption | |].
    + apply Forall_app. split; [assumption|].
      constructor; [apply isoDate_dateOnly | constructor].
    + apply Forall_map. revert Hdates. apply Forall_impl. intros c Hc.
      destruct (hasId target c); [|assumption]. apply isoDate_dateOnly.
  - intros d. split; [apply isoDate_dateOnly|].
    unfold dateOnly, isoDate.
    pose proof (Z.div_mod d MS_PER_DAY ltac:(discriminate)) as Hdm.
    pose proof (Z.mod_pos_bound d MS_PER_DAY ltac:(reflexivity)) as Hb.
    split; [lia|]. intros H0. lia.
Qed.

End DateColumn.

Lemma expiry_dates_stay_dates_witness :
  Forall (fun c => dateOnly (Customer.expiry_date c))
    (customers (Scenario.world [Scenario.ama; Scenario.kofi; Scenario.esi]))
  /\ Forall (fun c => dateOnly (Customer.expiry_date c))
       (customers (snd Scenario.acceptedPayment)).
Proof.
  assert (Hdates :
    Forall (fun c => dateOnly (Customer.expiry_date c))
      (customers (Scenario.world [Scenario.ama; Scenario.kofi; Scenario.esi])))
    by (repeat constructor).
  split; [exact Hdates|].
  destruct (expiry_dates_stay_dates (platform := utcPlatform)
              (backend := Scenario.backend []) (Some Scenario.staff) None
              (Scenario.world [Scenario.ama; Scenario.kofi; Scenario.esi])
              Hdates) as [Hpayment _].
  exact (Hpayment Scenario.kofi (Scenario.oneMonth Scenario.kofi)
           Scenario.today).
Defined.

(** ** Deleting a customer *)

Lemma hasId_eq customerId c :
  hasId (Some customerId) c = true <-> Customer.id c = Some customerId.
Proof.
  unfold hasId. destruct (Customer.id c) as [i|]; [|split; discriminate].
  rewrite strEqb_eq. split; [now intros -> | now intros [= ->]].
Qed.

Lemma paidBy_eq customerId p :
  DashboardView.paidBy customerId p = true
  <-> Payment.customer_id p = Some customerId.
Proof.
  unfold DashboardView.paidBy.
  destruct (Payment.customer_id p) as [i|]; [|split; discriminate].
  rewrite strEqb_eq. split; [now intros -> | now intros [= ->]].
Qed.

(** X18.  Declining the confirmation changes nothing.  A confirmed
    deletion that the persistence layer carries out removes the rows with
    that id and, with them, the payments that refer to it; every other
    customer and payment stays.  One that it refuses leaves both tables as
    they were and shows the reason. *)
Theorem delete_customer_effects :
  forall (deleteCustomerError : World -> jsstring -> option jsstring)
         (customerId : jsstring) (w : World),
    DashboardView.handleDeleteCustomer false deleteCustomerError customerId w
    = (Normal tt, w)
    /\ (deleteCustomerError (withIsLoading true w) customerId = None ->
        (forall c,
            In c (customers
                    (snd (DashboardView.handleDeleteCustomer true
                            deleteCustomerError customerId w)))
            <-> In c (customers w) /\ Customer.id c <> Some customerId)
        /\ (forall p,
               In p (payments
                       (snd (DashboardView.handleDeleteCustomer true
                               deleteCustomerError customerId w)))
               <-> In p (payments w)
                   /\ Payment.customer_id p <> Some customerId)
        /\ alerts (snd (DashboardView.handleDeleteCustomer true
                          deleteCustomerError customerId w))
           = alerts w ++ [lit "Customer deleted successfully!"])
    /\ (forall e,
           deleteCustomerError (withIsLoading true w) customerId = Some e ->
           DashboardView.handleDeleteCustomer true deleteCustomerError
             customerId w
           = (Normal tt,
              withIsLoading false
                (pushAlert (lit "Failed to delete customer: " ++ e)
                   (withIsLoading true w)))).
Proof.
  intros deleteCustomerError customerId w.
  split; [reflexivity|]. split.
  - intros Hdel.
    unfold DashboardView.handleDeleteCustomer, bind, tryFinally, tryCatch,
      setIsLoading, alert, modify.
    cbn [negb]. rewrite Hdel. cbn.
    split; [|split; [|reflexivity]].
    + intros c. rewrite filter_In, negb_true_iff.
      rewrite <- hasId_eq.
      change (match Customer.id c with
              | Some b => strEqb customerId b
              | None => false
              end) with (hasId (Some customerId) c).
      destruct (hasId (Some customerId) c); intuition congruence.
    + intros p. rewrite filter_In, negb_true_iff.
      rewrite <- paidBy_eq.
      destruct (DashboardView.paidBy customerId p); intuition congruence.
  - intros e Hdel.
    unfold DashboardView.handleDeleteCustomer, bind, tryFinally, tryCatch,
      setIsLoading, alert, modify.
    cbn [negb]. rewrite Hdel. reflexivity.
Qed.

(** ** Bulk sending through the gateway *)

(** X19.  With an API key, [sendBulkSMS] never throws: it posts one
    request with every recipient normalized like a single number, and
    reports either all recipients as successful or all as failed, in the
    latter case with exactly one error message. *)
Theorem sendBulkSMS_all_or_nothing :
  forall (backend : Backend)
         (arkeselBulk : World -> SmsRequest -> SmsService.BulkReply)
         (recipientList : list jsstring) (msg : jsstring)
         (senderId : option jsstring) (w : World),
    configured = true ->
    outbox (snd (SmsService.sendBulkSMS arkeselBulk recipientList msg
                   senderId w))
    = outbox w
      ++ [{| sender := SmsFormat.finalSenderId arkeselConfig senderId;
             message := msg;
             recipients := map SmsFormat.formattedPhone recipientList |}]
    /\ Forall (fun p => startsWith p (lit "233") = true /\ noWhiteSpace p)
         (map SmsFormat.formattedPhone recipientList)
    /\ exists r,
         fst (SmsService.sendBulkSMS arkeselBulk recipientList msg senderId w)
         = Normal r
         /\ (SmsService.successful r + SmsService.failed r
             = List.length recipientList)%nat
         /\ ((SmsService.failed r = 0%nat /\ SmsService.errors r = [])
             \/ (SmsService.successful r = 0%nat
                 /\ exists e, SmsService.errors r = [e])).
Proof.
  intros backend arkeselBulk recipientList msg senderId w Hcfg.
  unfold configured in Hcfg.
  unfold SmsService.sendBulkSMS, tryCatch, throw, ret.
  destruct (SmsFormat.apiKey arkeselConfig) as [|k key]; [discriminate|].
  cbv zeta. split; [|split].
  - destruct (arkeselBulk w _) as [reason | [] status resultMessage []];
      reflexivity.
  - apply Forall_map, Forall_forall. intros x _. split.
    + apply formattedPhone_startsWith_233.
    + apply formattedPhone_noWhiteSpace.
  - destruct (arkeselBulk w _) as [reason | [] status resultMessage []];
      cbn; eexists; (split; [reflexivity|]); cbn;
      rewrite length_map; (split; [lia|]);
      try (left; split; reflexivity);
      right; (split; [reflexivity|]); eexists; reflexivity.
Qed.

Lemma sendBulkSMS_all_or_nothing_witness :
  configured (backend := Scenario.backend []) = true
  /\ fst (SmsService.sendBulkSMS (backend := Scenario.backend [])
            Scenario.bulkAccepts
            [lit "0241234567"; lit "+233 20 111 2222"] (lit "Hello") None
            (Scenario.world []))
     = Normal {| SmsService.successful := 2; SmsService.failed := 0;
                 SmsService.errors := [] |}
  /\ map recipients
       (outbox
          (snd (SmsService.sendBulkSMS (backend := Scenario.backend [])
                  Scenario.bulkAccepts
                  [lit "0241234567"; lit "+233 20 111 2222"] (lit "Hello")
                  None (Scenario.world []))))
     = [[lit "233241234567"; lit "233201112222"]].
Proof.
  split; [reflexivity|]. split; [reflexivity|].
  destruct (sendBulkSMS_all_or_nothing (Scenario.backend [])
              Scenario.bulkAccepts
              [lit "0241234567"; lit "+233 20 111 2222"] (lit "Hello") None
              (Scenario.world []) eq_refl) as [Hout _].
  rewrite Hout. reflexivity.
Defined.

(** ** The greeting *)

Section Greeting.

Context {platform : Platform}.

Lemma tokenEnds_app rest ws :
  tokenEnds rest -> allWhiteSpace ws -> tokenEnds (rest ++ ws).
Proof.
  intros [-> | (x & r & -> & Hx)] Hws.
  - destruct Hws as [|x ws Hx _]; [now left|]. right. now exists x, ws.
  - right. now exists x, (r ++ ws).
Qed.

(** X20.  White space around a name does not change the greeting, and
    nothing after the first token does: the greeting of a padded name is
    that of the name, and the greeting of a token followed by white space
    and anything else is that of the token alone. *)
Theorem firstName_ignores_padding :
  forall (before after fullName : jsstring),
    allWhiteSpace before -> allWhiteSpace after ->
    Templates.firstName (before ++ fullName ++ after)
    = Templates.firstName fullName
    /\ (forall c tok w rest,
           isWhiteSpace c = false -> noWhiteSpace tok ->
           isWhiteSpace w = true ->
           Templates.firstName (before ++ (c :: tok) ++ w :: rest)
           = Templates.firstName (c :: tok)).
Proof.
  intros before after fullName Hbefore Hafter. split.
  - destruct (name_shape fullName)
      as [Hblank | (ws & c & tok & rest & -> & Hws & Hc & Htok & Hrest)].
    + rewrite (firstName_blank fullName Hblank).
      apply firstName_blank.
      apply Forall_app. split; [assumption|].
      apply Forall_app. now split.
    + rewrite (firstName_token ws c tok rest Hws Hc Htok Hrest).
      replace (before ++ (ws ++ c :: tok ++ rest) ++ after)
        with ((before ++ ws) ++ c :: tok ++ (rest ++ after))
        by (rewrite <- !app_assoc; simpl; now rewrite <- !app_assoc).
      apply firstName_token; try assumption.
      * apply Forall_app. now split.
      * now apply tokenEnds_app.
  - intros c tok w rest Hc Htok Hw.
    change (before ++ (c :: tok) ++ w :: rest)
      with (before ++ c :: tok ++ w :: rest).
    rewrite (firstName_token before c tok (w :: rest) Hbefore Hc Htok).
    + symmetry.
      pose proof (firstName_token [] c tok [] (Forall_nil _) Hc Htok
                    (or_introl eq_refl)) as Hbare.
      simpl in Hbare. rewrite app_nil_r in Hbare. exact Hbare.
    + right. now exists w, rest.
Qed.

End Greeting.

Lemma firstName_ignores_padding_witness :
  allWhiteSpace (lit "  ") /\ allWhiteSpace [9%N; 160%N]
  /\ Templates.firstName (platform := utcPlatform)
       (lit "  " ++ lit "kwame nkrumah" ++ [9%N; 160%N])
     = lit "Kwame".
Proof.
  assert (Hbefore : allWhiteSpace (lit "  ")) by (repeat constructor).
  assert (Hafter : allWhiteSpace [9%N; 160%N]) by (repeat constructor).
  split; [exact Hbefore|]. split; [exact Hafter|].
  destruct (firstName_ignores_padding (platform := utcPlatform)
              (lit "  ") [9%N; 160%N] (lit "kwame nkrumah") Hbefore Hafter)
    as [Hsame _].
  rewrite Hsame. reflexivity.
Defined.

Lemma delete_customer_effects_witness :
  List.length (payments (snd Scenario.acceptedPayment)) = 1%nat
  /\ map Customer.name
       (customers
          (snd (DashboardView.handleDeleteCustomer true (fun _ _ => None)
                  (lit "c2") (snd Scenario.acceptedPayment))))
     = [lit "ama serwaa"; lit "Esi Badu"]
  /\ payments
       (snd (DashboardView.handleDeleteCustomer true (fun _ _ => None)
               (lit "c2") (snd Scenario.acceptedPayment)))
     = [].
Proof.
  split; [reflexivity|].
  destruct (delete_customer_effects (fun _ _ => None) (lit "c2")
              (snd Scenario.acceptedPayment)) as (_ & Hdone & _).
  destruct (Hdone eq_refl) as (_ & Hpay & _).
  split; [reflexivity|].
  destruct (payments
              (snd (DashboardView.handleDeleteCustomer true (fun _ _ => None)
                      (lit "c2") (snd Scenario.acceptedPayment))))
    as [|p rest] eqn:E; [reflexivity|].
  exfalso. destruct (proj1 (Hpay p) (or_introl eq_refl)) as [Hin Hother].
  destruct Hin as [<- | []]. apply Hother. reflexivity.
Defined.

(** ** Select all, then send *)

Section SelectAll.

Context {platform : Platform}.

Variable vendor : option Vendor.t.

(** X21.  The two buttons never pick the same customer, and they pick as
    many as the dashboard counts for the same list and time.  Sent with a
    reminder type, a customer picked by [Select all expired] gets the
    Expired text, and one picked by [Select all expiring] gets the
    days-remaining text with one, two or three days. *)
Theorem select_all_texts :
  forall (loaded : list Customer.t) (formData : SMSModal.FormData)
         (now : Date) (revenue : Z) (c : Customer.t),
    SMSModal.messageType formData = SMSModal.expiring
    \/ SMSModal.messageType formData = SMSModal.expired ->
    (In c (SMSModalView.expiredCustomers loaded now) ->
     ~ In c (SMSModalView.expiringCustomers loaded now)
     /\ Status.daysUntil (Customer.expiry_date c) now <= 0
     /\ SMSModal.personalizedMessage vendor formData c now
        = Templates.templateExpired (Customer.name c)
            (- Status.daysUntil (Customer.expiry_date c) now)
            (Customer.expiry_date c) (vendorData vendor))
    /\ (In c (SMSModalView.expiringCustomers loaded now) ->
        1 <= Status.daysUntil (Customer.expiry_date c) now <= 3
        /\ SMSModal.personalizedMessage vendor formData c now
           = expiringText (Customer.name c)
               (Status.daysUntil (Customer.expiry_date c) now)
               (Customer.expiry_date c) (vendorData vendor))
    /\ List.length (SMSModalView.expiredCustomers loaded now)
       = DashboardView.expiredCustomers
           (DashboardView.calculateStats loaded now revenue)
    /\ List.length (SMSModalView.expiringCustomers loaded now)
       = DashboardView.expiringSoonCustomers
           (DashboardView.calculateStats loaded now revenue).
Proof.
  intros loaded formData now revenue c Htype.
  pose proof (daysUntil_spec (Customer.expiry_date c) now) as Hs.
  rewrite (personalizedMessage_reminder vendor formData c now Htype).
  unfold SMSModalView.expiredCustomers, SMSModalView.expiringCustomers.
  rewrite !filter_In. cbv zeta.
  rewrite andb_true_iff, !Z.leb_le, Z.gtb_ltb, Z.ltb_lt.
  split; [|split; [|split; reflexivity]].
  - intros [_ Hexp].
    assert (Hd : Status.daysUntil (Customer.expiry_date c) now <= 0)
      by (unfold MS_PER_DAY in *; lia).
    split; [intros [_ [_ Hpos]]; lia|]. split; [exact Hd|].
    rewrite templateExpiring_overdue by assumption.
    now rewrite Z.abs_neq by assumption.
  - intros [_ [Hle Hpos]]. split; [lia|].
    apply templateExpiring_due. lia.
Qed.

End SelectAll.

Lemma select_all_texts_witness :
  SMSModal.messageType Scenario.reminderForm = SMSModal.expiring
  /\ In Scenario.kofi
       (SMSModalView.expiredCustomers
          [Scenario.ama; Scenario.kofi; Scenario.esi] Scenario.today)
  /\ SMSModal.personalizedMessage (platform := utcPlatform) None
       Scenario.reminderForm Scenario.kofi Scenario.today
     = Templates.templateExpired (platform := utcPlatform)
         (lit "Kofi Mensah") 10 (Scenario.day 2025 11 11) None.
Proof.
  assert (Hin : In Scenario.kofi
                  (SMSModalView.expiredCustomers
                     [Scenario.ama; Scenario.kofi; Scenario.esi]
                     Scenario.today))
    by (vm_compute; left; reflexivity).
  split; [reflexivity|]. split; [exact Hin|].
  destruct (select_all_texts (platform := utcPlatform) None
              [Scenario.ama; Scenario.kofi; Scenario.esi]
              Scenario.reminderForm Scenario.today 0 Scenario.kofi
              (or_introl eq_refl)) as [Hexpired _].
  destruct (Hexpired Hin) as (_ & _ & Htext).
  rewrite Htext. reflexivity.
Defined.
